(** * SCSI host adapter lifecycle (drivers/scsi/hosts.c)

    A shallow embedding of the host state model, host allocation,
    publication ([scsi_add_host_with_dma]), removal ([scsi_remove_host]),
    reference acquisition ([scsi_host_get]) and the work-queue helpers,
    followed by the properties proved about them.

    The C functions mutate one [struct Scsi_Host] through a pointer and call
    into the device core, the block layer and the rest of the SCSI mid
    layer.  Here the host lives in a small kernel state together with the
    trace of calls made to those collaborators; the values the collaborators
    return are supplied by an environment record. *)

From Stdlib Require Import ZArith List String Bool Lia Relations.
Import ListNotations.
Open Scope Z_scope.

(** ** Constants from headers *)

(** errno values (include/uapi/asm-generic/errno-base.h). *)
Definition ENOMEM : Z := 12.
Definition EINVAL : Z := 22.

(** Limits of the C [int] and of [unsigned long] on this 64-bit target. *)
Definition INT_MAX : Z := 2147483647.
Definition INT_MIN : Z := -2147483648.
Definition ULONG_MODULUS : Z := 2 ^ 64.

(** include/scsi/scsi_host.h *)
Definition MODE_UNKNOWN : Z := 0.
Definition MODE_INITIATOR : Z := 1.
Definition SCSI_DEFAULT_HOST_BLOCKED : Z := 7.
Definition SCSI_DEFAULT_MAX_SECTORS : Z := 1024.

(** ** Data model *)

(** [enum scsi_host_state]. *)
Inductive scsi_host_state : Type :=
| SHOST_CREATED
| SHOST_RUNNING
| SHOST_CANCEL
| SHOST_DEL
| SHOST_RECOVERY
| SHOST_CANCEL_RECOVERY
| SHOST_DEL_RECOVERY.

Definition scsi_host_state_eq_dec (a b : scsi_host_state) : {a = b} + {a <> b}.
Proof. decide equality. Defined.

(** Devices the host code refers to: the two embedded in the host, the
    platform bus used as default parent, and devices owned by the caller. *)
Inductive device_ptr : Type :=
| Platform_bus
| Caller_dev (id : Z)
| Shost_gendev
| Shost_dev.

Inductive device_type : Type :=
| Scsi_host_type
| Other_type.

(** The part of [struct device] this file touches.  [kref] is the
    reference count of the embedded kobject. *)
Record device : Type := {
  dev_parent : option device_ptr;
  dev_kref : Z;
  dev_name : option (string * Z);
  dev_type : option device_type
}.

Definition wq_name : Type := (string * Z)%type.

Inductive workqueue : Type :=
| Wq (name : wq_name).

(** A [struct task_struct *] as returned by [kthread_run]: NULL, a thread,
    or an [ERR_PTR]. *)
Inductive task_ptr : Type :=
| Task_null
| Task (name : string * Z)
| Task_err (errno : Z).

Inductive lock_ptr : Type :=
| Default_lock
| Driver_lock (id : Z).

Record scsi_host_template : Type := {
  sht_name : string;
  sht_info : option string;
  sht_detect : bool;
  sht_this_id : Z;
  sht_can_queue : Z;
  sht_sg_tablesize : Z;
  sht_sg_prot_tablesize : Z;
  sht_cmd_per_lun : Z;
  sht_unchecked_isa_dma : bool;
  sht_use_clustering : bool;
  sht_no_write_same : bool;
  sht_eh_host_reset_handler : bool;
  sht_supported_mode : Z;
  sht_max_host_blocked : Z;
  sht_max_sectors : Z;
  sht_dma_boundary : Z;
  sht_disable_blk_mq : bool;
  sht_tag_alloc_policy : Z
}.

Record scsi_transport_template : Type := {
  host_size : Z;
  create_work_queue : bool
}.

Definition blank_transport_template : scsi_transport_template :=
  {| host_size := 0; create_work_queue := false |}.

(** A request queue together with its [queuedata] pointer. *)
Record request_queue : Type := {
  queuedata : option Z
}.

(** [struct Scsi_Host], restricted to the members read or written by
    hosts.c.  Pointers are options ([None] is NULL). *)
Record Scsi_Host : Type := {
  host_lock : lock_ptr;
  shost_state : scsi_host_state;
  host_no : Z;
  dma_channel : Z;
  max_channel : Z;
  max_id : Z;
  max_lun : Z;
  transportt : scsi_transport_template;
  max_cmd_len : Z;
  hostt : scsi_host_template;
  this_id : Z;
  can_queue : Z;
  sg_tablesize : Z;
  sg_prot_tablesize : Z;
  cmd_per_lun : Z;
  unchecked_isa_dma : bool;
  use_clustering : bool;
  no_write_same : bool;
  eh_deadline : Z;
  active_mode : Z;
  max_host_blocked : Z;
  max_sectors : Z;
  dma_boundary : Z;
  use_blk_mq : bool;
  shost_gendev : device;
  shost_dev : device;
  ehandler : task_ptr;
  tmf_work_q : option workqueue;
  bqt : option Z;
  tag_set_tags : option Z;
  dma_dev : option device_ptr;
  shost_data : option Z;
  work_q_name : option wq_name;
  work_q : option workqueue;
  uspace_req_q : option request_queue
}.

Definition set_dev_parent (v : option device_ptr) (d : device) : device :=
  {| dev_parent := v; dev_kref := dev_kref d; dev_name := dev_name d;
     dev_type := dev_type d |}.

Definition set_dev_kref (v : Z) (d : device) : device :=
  {| dev_parent := dev_parent d; dev_kref := v; dev_name := dev_name d;
     dev_type := dev_type d |}.

(** Field updates ([shost->f = v]). *)
Definition set_shost_state (v : scsi_host_state) (h : Scsi_Host) : Scsi_Host :=
  {| host_lock := host_lock h; shost_state := v; host_no := host_no h;
     dma_channel := dma_channel h; max_channel := max_channel h;
     max_id := max_id h; max_lun := max_lun h; transportt := transportt h;
     max_cmd_len := max_cmd_len h; hostt := hostt h; this_id := this_id h;
     can_queue := can_queue h; sg_tablesize := sg_tablesize h;
     sg_prot_tablesize := sg_prot_tablesize h; cmd_per_lun := cmd_per_lun h;
     unchecked_isa_dma := unchecked_isa_dma h;
     use_clustering := use_clustering h; no_write_same := no_write_same h;
     eh_deadline := eh_deadline h; active_mode := active_mode h;
     max_host_blocked := max_host_blocked h; max_sectors := max_sectors h;
     dma_boundary := dma_boundary h; use_blk_mq := use_blk_mq h;
     shost_gendev := shost_gendev h; shost_dev := shost_dev h;
     ehandler := ehandler h; tmf_work_q := tmf_work_q h; bqt := bqt h;
     tag_set_tags := tag_set_tags h; dma_dev := dma_dev h;
     shost_data := shost_data h; work_q_name := work_q_name h;
     work_q := work_q h; uspace_req_q := uspace_req_q h |}.

(** A driver picks its transport template after allocation. *)
Definition set_transportt (v : scsi_transport_template) (h : Scsi_Host) : Scsi_Host :=
  {| host_lock := host_lock h; shost_state := shost_state h;
     host_no := host_no h; dma_channel := dma_channel h;
     max_channel := max_channel h; max_id := max_id h; max_lun := max_lun h;
     transportt := v; max_cmd_len := max_cmd_len h; hostt := hostt h;
     this_id := this_id h; can_queue := can_queue h;
     sg_tablesize := sg_tablesize h;
     sg_prot_tablesize := sg_prot_tablesize h; cmd_per_lun := cmd_per_lun h;
     unchecked_isa_dma := unchecked_isa_dma h;
     use_clustering := use_clustering h; no_write_same := no_write_same h;
     eh_deadline := eh_deadline h; active_mode := active_mode h;
     max_host_blocked := max_host_blocked h; max_sectors := max_sectors h;
     dma_boundary := dma_boundary h; use_blk_mq := use_blk_mq h;
     shost_gendev := shost_gendev h; shost_dev := shost_dev h;
     ehandler := ehandler h; tmf_work_q := tmf_work_q h; bqt := bqt h;
     tag_set_tags := tag_set_tags h; dma_dev := dma_dev h;
     shost_data := shost_data h; work_q_name := work_q_name h;
     work_q := work_q h; uspace_req_q := uspace_req_q h |}.

Definition set_bqt (v : option Z) (h : Scsi_Host) : Scsi_Host :=
  {| host_lock := host_lock h; shost_state := shost_state h;
     host_no := host_no h; dma_channel := dma_channel h;
     max_channel := max_channel h; max_id := max_id h; max_lun := max_lun h;
     transportt := transportt h; max_cmd_len := max_cmd_len h;
     hostt := hostt h; this_id := this_id h; can_queue := can_queue h;
     sg_tablesize := sg_tablesize h;
     sg_prot_tablesize := sg_prot_tablesize h; cmd_per_lun := cmd_per_lun h;
     unchecked_isa_dma := unchecked_isa_dma h;
     use_clustering := use_clustering h; no_write_same := no_write_same h;
     eh_deadline := eh_deadline h; active_mode := active_mode h;
     max_host_blocked := max_host_blocked h; max_sectors := max_sectors h;
     dma_boundary := dma_boundary h; use_blk_mq := use_blk_mq h;
     shost_gendev := shost_gendev h; shost_dev := shost_dev h;
     ehandler := ehandler h; tmf_work_q := tmf_work_q h; bqt := v;
     tag_set_tags := tag_set_tags h; dma_dev := dma_dev h;
     shost_data := shost_data h; work_q_name := work_q_name h;
     work_q := work_q h; uspace_req_q := uspace_req_q h |}.

Definition set_tag_set_tags (v : option Z) (h : Scsi_Host) : Scsi_Host :=
  {| host_lock := host_lock h; shost_state := shost_state h;
     host_no := host_no h; dma_channel := dma_channel h;
     max_channel := max_channel h; max_id := max_id h; max_lun := max_lun h;
     transportt := transportt h; max_cmd_len := max_cmd_len h;
     hostt := hostt h; this_id := this_id h; can_queue := can_queue h;
     sg_tablesize := sg_tablesize h;
     sg_prot_tablesize := sg_prot_tablesize h; cmd_per_lun := cmd_per_lun h;
     unchecked_isa_dma := unchecked_isa_dma h;
     use_clustering := use_clustering h; no_write_same := no_write_same h;
     eh_deadline := eh_deadline h; active_mode := active_mode h;
     max_host_blocked := max_host_blocked h; max_sectors := max_sectors h;
     dma_boundary := dma_boundary h; use_blk_mq := use_blk_mq h;
     shost_gendev := shost_gendev h; shost_dev := shost_dev h;
     ehandler := ehandler h; tmf_work_q := tmf_work_q h; bqt := bqt h;
     tag_set_tags := v; dma_dev := dma_dev h; shost_data := shost_data h;
     work_q_name := work_q_name h; work_q := work_q h;
     uspace_req_q := uspace_req_q h |}.

Definition set_shost_gendev (v : device) (h : Scsi_Host) : Scsi_Host :=
  {| host_lock := host_lock h; shost_state := shost_state h;
     host_no := host_no h; dma_channel := dma_channel h;
     max_channel := max_channel h; max_id := max_id h; max_lun := max_lun h;
     transportt := transportt h; max_cmd_len := max_cmd_len h;
     hostt := hostt h; this_id := this_id h; can_queue := can_queue h;
     sg_tablesize := sg_tablesize h;
     sg_prot_tablesize := sg_prot_tablesize h; cmd_per_lun := cmd_per_lun h;
     unchecked_isa_dma := unchecked_isa_dma h;
     use_clustering := use_clustering h; no_write_same := no_write_same h;
     eh_deadline := eh_deadline h; active_mode := active_mode h;
     max_host_blocked := max_host_blocked h; max_sectors := max_sectors h;
     dma_boundary := dma_boundary h; use_blk_mq := use_blk_mq h;
     shost_gendev := v; shost_dev := shost_dev h; ehandler := ehandler h;
     tmf_work_q := tmf_work_q h; bqt := bqt h;
     tag_set_tags := tag_set_tags h; dma_dev := dma_dev h;
     shost_data := shost_data h; work_q_name := work_q_name h;
     work_q := work_q h; uspace_req_q := uspace_req_q h |}.

Definition set_shost_dev (v : device) (h : Scsi_Host) : Scsi_Host :=
  {| host_lock := host_lock h; shost_state := shost_state h;
     host_no := host_no h; dma_channel := dma_channel h;
     max_channel := max_channel h; max_id := max_id h; max_lun := max_lun h;
     transportt := transportt h; max_cmd_len := max_cmd_len h;
     hostt := hostt h; this_id := this_id h; can_queue := can_queue h;
     sg_tablesize := sg_tablesize h;
     sg_prot_tablesize := sg_prot_tablesize h; cmd_per_lun := cmd_per_lun h;
     unchecked_isa_dma := unchecked_isa_dma h;
     use_clustering := use_clustering h; no_write_same := no_write_same h;
     eh_deadline := eh_deadline h; active_mode := active_mode h;
     max_host_blocked := max_host_blocked h; max_sectors := max_sectors h;
     dma_boundary := dma_boundary h; use_blk_mq := use_blk_mq h;
     shost_gendev := shost_gendev h; shost_dev := v; ehandler := ehandler h;
     tmf_work_q := tmf_work_q h; bqt := bqt h;
     tag_set_tags := tag_set_tags h; dma_dev := dma_dev h;
     shost_data := shost_data h; work_q_name := work_q_name h;
     work_q := work_q h; uspace_req_q := uspace_req_q h |}.

Definition set_dma_dev (v : option device_ptr) (h : Scsi_Host) : Scsi_Host :=
  {| host_lock := host_lock h; shost_state := shost_state h;
     host_no := host_no h; dma_channel := dma_channel h;
     max_channel := max_channel h; max_id := max_id h; max_lun := max_lun h;
     transportt := transportt h; max_cmd_len := max_cmd_len h;
     hostt := hostt h; this_id := this_id h; can_queue := can_queue h;
     sg_tablesize := sg_tablesize h;
     sg_prot_tablesize := sg_prot_tablesize h; cmd_per_lun := cmd_per_lun h;
     unchecked_isa_dma := unchecked_isa_dma h;
     use_clustering := use_clustering h; no_write_same := no_write_same h;
     eh_deadline := eh_deadline h; active_mode := active_mode h;
     max_host_blocked := max_host_blocked h; max_sectors := max_sectors h;
     dma_boundary := dma_boundary h; use_blk_mq := use_blk_mq h;
     shost_gendev := shost_gendev h; shost_dev := shost_dev h;
     ehandler := ehandler h; tmf_work_q := tmf_work_q h; bqt := bqt h;
     tag_set_tags := tag_set_tags h; dma_dev := v;
     shost_data := shost_data h; work_q_name := work_q_name h;
     work_q := work_q h; uspace_req_q := uspace_req_q h |}.

Definition set_shost_data (v : option Z) (h : Scsi_Host) : Scsi_Host :=
  {| host_lock := host_lock h; shost_state := shost_state h;
     host_no := host_no h; dma_channel := dma_channel h;
     max_channel := max_channel h; max_id := max_id h; max_lun := max_lun h;
     transportt := transportt h; max_cmd_len := max_cmd_len h;
     hostt := hostt h; this_id := this_id h; can_queue := can_queue h;
     sg_tablesize := sg_tablesize h;
     sg_prot_tablesize := sg_prot_tablesize h; cmd_per_lun := cmd_per_lun h;
     unchecked_isa_dma := unchecked_isa_dma h;
     use_clustering := use_clustering h; no_write_same := no_write_same h;
     eh_deadline := eh_deadline h; active_mode := active_mode h;
     max_host_blocked := max_host_blocked h; max_sectors := max_sectors h;
     dma_boundary := dma_boundary h; use_blk_mq := use_blk_mq h;
     shost_gendev := shost_gendev h; shost_dev := shost_dev h;
     ehandler := ehandler h; tmf_work_q := tmf_work_q h; bqt := bqt h;
     tag_set_tags := tag_set_tags h; dma_dev := dma_dev h; shost_data := v;
     work_q_name := work_q_name h; work_q := work_q h;
     uspace_req_q := uspace_req_q h |}.

Definition set_work_q_name (v : option wq_name) (h : Scsi_Host) : Scsi_Host :=
  {| host_lock := host_lock h; shost_state := shost_state h;
     host_no := host_no h; dma_channel := dma_channel h;
     max_channel := max_channel h; max_id := max_id h; max_lun := max_lun h;
     transportt := transportt h; max_cmd_len := max_cmd_len h;
     hostt := hostt h; this_id := this_id h; can_queue := can_queue h;
     sg_tablesize := sg_tablesize h;
     sg_prot_tablesize := sg_prot_tablesize h; cmd_per_lun := cmd_per_lun h;
     unchecked_isa_dma := unchecked_isa_dma h;
     use_clustering := use_clustering h; no_write_same := no_write_same h;
     eh_deadline := eh_deadline h; active_mode := active_mode h;
     max_host_blocked := max_host_blocked h; max_sectors := max_sectors h;
     dma_boundary := dma_boundary h; use_blk_mq := use_blk_mq h;
     shost_gendev := shost_gendev h; shost_dev := shost_dev h;
     ehandler := ehandler h; tmf_work_q := tmf_work_q h; bqt := bqt h;
     tag_set_tags := tag_set_tags h; dma_dev := dma_dev h;
     shost_data := shost_data h; work_q_name := v; work_q := work_q h;
     uspace_req_q := uspace_req_q h |}.

Definition set_work_q (v : option workqueue) (h : Scsi_Host) : Scsi_Host :=
  {| host_lock := host_lock h; shost_state := shost_state h;
     host_no := host_no h; dma_channel := dma_channel h;
     max_channel := max_channel h; max_id := max_id h; max_lun := max_lun h;
     transportt := transportt h; max_cmd_len := max_cmd_len h;
     hostt := hostt h; this_id := this_id h; can_queue := can_queue h;
     sg_tablesize := sg_tablesize h;
     sg_prot_tablesize := sg_prot_tablesize h; cmd_per_lun := cmd_per_lun h;
     unchecked_isa_dma := unchecked_isa_dma h;
     use_clustering := use_clustering h; no_write_same := no_write_same h;
     eh_deadline := eh_deadline h; active_mode := active_mode h;
     max_host_blocked := max_host_blocked h; max_sectors := max_sectors h;
     dma_boundary := dma_boundary h; use_blk_mq := use_blk_mq h;
     shost_gendev := shost_gendev h; shost_dev := shost_dev h;
     ehandler := ehandler h; tmf_work_q := tmf_work_q h; bqt := bqt h;
     tag_set_tags := tag_set_tags h; dma_dev := dma_dev h;
     shost_data := shost_data h; work_q_name := work_q_name h; work_q := v;
     uspace_req_q := uspace_req_q h |}.

(** ** Calls into collaborators

    Every call that leaves hosts.c is recorded, with the value it returned
    when the caller looks at it. *)
Inductive event : Type :=
| Ev_shost_printk (level : string) (msg : string)
| Ev_illegal_transition (oldstate state : scsi_host_state)
| Ev_dump_stack
| Ev_mutex_lock_scan_mutex
| Ev_mutex_unlock_scan_mutex
| Ev_spin_lock_irqsave (l : lock_ptr)
| Ev_spin_unlock_irqrestore (l : lock_ptr)
| Ev_scsi_autopm_get_host
| Ev_flush_workqueue (wq : option workqueue)
| Ev_scsi_forget_host
| Ev_scsi_proc_host_rm
| Ev_scsi_proc_host_add
| Ev_scsi_proc_hostdir_add
| Ev_scsi_proc_hostdir_rm
| Ev_transport_unregister_device (d : device_ptr)
| Ev_device_unregister (d : device_ptr)
| Ev_device_del (d : device_ptr)
| Ev_device_add (d : device_ptr) (ret : Z)
| Ev_get_device (d : device_ptr)
| Ev_put_device (d : device_ptr)
| Ev_pm_runtime_set_active (d : device_ptr)
| Ev_pm_runtime_enable (d : device_ptr)
| Ev_scsi_mq_setup_tags (ret : Z)
| Ev_scsi_mq_destroy_tags
| Ev_blk_init_tags (depth policy : Z) (res : option Z)
| Ev_blk_free_tags (p : Z)
| Ev_scsi_setup_command_freelist (ret : Z)
| Ev_scsi_destroy_command_freelist
| Ev_kzalloc (size : Z) (res : option Z)
| Ev_kfree (p : option Z)
| Ev_kzalloc_shost (privsize : Z) (gfp_dma : bool) (ok : bool)
| Ev_kfree_dev_name (d : device_ptr)
| Ev_kfree_shost
| Ev_create_singlethread_workqueue (name : wq_name) (res : option workqueue)
| Ev_alloc_workqueue (name : wq_name) (res : option workqueue)
| Ev_destroy_workqueue (wq : workqueue)
| Ev_kthread_run (name : string * Z) (res : task_ptr)
| Ev_kthread_stop (t : task_ptr)
| Ev_blk_cleanup_queue
| Ev_scsi_sysfs_add_host (ret : Z)
| Ev_queue_work (wq : workqueue) (work : Z) (ret : bool).

(** ** Kernel state and the monad of host operations *)

(** The host a [struct Scsi_Host *] points to, whether its memory has been
    handed back, and the calls made so far (oldest first). *)
Record kernel : Type := {
  shost : Scsi_Host;
  shost_freed : bool;
  trace : list event
}.

(** A C function either returns, or dies in [BUG()]. *)
Inductive outcome (A : Type) : Type :=
| Done (a : A) (k : kernel)
| Bug (k : kernel).
Arguments Done {A} a k.
Arguments Bug {A} k.

Definition M (A : Type) : Type := kernel -> outcome A.

Definition ret {A : Type} (a : A) : M A := fun k => Done a k.

Definition bind {A B : Type} (c : M A) (f : A -> M B) : M B :=
  fun k => match c k with
           | Done a k' => f a k'
           | Bug k' => Bug k'
           end.

Declare Scope kernel_scope.
Delimit Scope kernel_scope with kernel.
Notation "x <- c ;; f" := (bind c (fun x => f))
  (at level 61, c at next level, right associativity) : kernel_scope.
Notation "c ;; f" := (bind c (fun _ => f))
  (at level 61, right associativity) : kernel_scope.
Open Scope kernel_scope.

Definition get_shost : M Scsi_Host := fun k => Done (shost k) k.

Definition modify_shost (f : Scsi_Host -> Scsi_Host) : M unit :=
  fun k => Done tt {| shost := f (shost k); shost_freed := shost_freed k;
                      trace := trace k |}.

Definition emit (e : event) : M unit :=
  fun k => Done tt {| shost := shost k; shost_freed := shost_freed k;
                      trace := trace k ++ [e] |}.

Definition BUG_ON (cond : bool) : M unit :=
  fun k => if cond then Bug k else Done tt k.

Definition when (cond : bool) (c : M unit) : M unit :=
  if cond then c else ret tt.

(** A kernel state holding [h], before any call. *)
Definition boot (h : Scsi_Host) : kernel :=
  {| shost := h; shost_freed := false; trace := [] |}.

Definition final_kernel {A : Type} (o : outcome A) : kernel :=
  match o with
  | Done _ k => k
  | Bug k => k
  end.

Definition returned {A : Type} (o : outcome A) : option A :=
  match o with
  | Done a _ => Some a
  | Bug _ => None
  end.

(** ** The host state model *)

(** include/scsi/scsi_host.h: [shost_state] is compared with C [==]. *)
Definition state_is (a b : scsi_host_state) : bool :=
  if scsi_host_state_eq_dec a b then true else false.

(** [scsi_host_set_state]: take the host through the host state model.
    Returns zero, or [-EINVAL] when the requested transition is illegal. *)
Definition scsi_host_set_state (state : scsi_host_state) : M Z :=
  h <- get_shost ;;
  let oldstate := shost_state h in
  let illegal : M Z :=
    (* SCSI_LOG_ERROR_RECOVERY(1, shost_printk(KERN_ERR, ...)) *)
    emit (Ev_illegal_transition oldstate state) ;;
    ret (- EINVAL) in
  let commit : M Z :=
    modify_shost (set_shost_state state) ;;
    ret 0 in
  if state_is state oldstate then ret 0
  else
    match state with
    | SHOST_CREATED =>
        (* no legal state comes back to created *)
        illegal
    | SHOST_RUNNING =>
        match oldstate with
        | SHOST_CREATED | SHOST_RECOVERY => commit
        | _ => illegal
        end
    | SHOST_RECOVERY =>
        match oldstate with
        | SHOST_RUNNING => commit
        | _ => illegal
        end
    | SHOST_CANCEL =>
        match oldstate with
        | SHOST_CREATED | SHOST_RUNNING | SHOST_CANCEL_RECOVERY => commit
        | _ => illegal
        end
    | SHOST_DEL =>
        match oldstate with
        | SHOST_CANCEL | SHOST_DEL_RECOVERY => commit
        | _ => illegal
        end
    | SHOST_CANCEL_RECOVERY =>
        match oldstate with
        | SHOST_CANCEL | SHOST_RECOVERY => commit
        | _ => illegal
        end
    | SHOST_DEL_RECOVERY =>
        match oldstate with
        | SHOST_CANCEL_RECOVERY => commit
        | _ => illegal
        end
    end.

(** The transition table as the specification lists it (source, target). *)
Definition legal_transitions : list (scsi_host_state * scsi_host_state) :=
  [ (SHOST_CREATED, SHOST_RUNNING); (SHOST_RECOVERY, SHOST_RUNNING);
    (SHOST_RUNNING, SHOST_RECOVERY);
    (SHOST_CREATED, SHOST_CANCEL); (SHOST_RUNNING, SHOST_CANCEL);
    (SHOST_CANCEL_RECOVERY, SHOST_CANCEL);
    (SHOST_CANCEL, SHOST_DEL); (SHOST_DEL_RECOVERY, SHOST_DEL);
    (SHOST_CANCEL, SHOST_CANCEL_RECOVERY);
    (SHOST_RECOVERY, SHOST_CANCEL_RECOVERY);
    (SHOST_CANCEL_RECOVERY, SHOST_DEL_RECOVERY) ].

Definition listed (old target : scsi_host_state) : Prop :=
  In (old, target) legal_transitions.

(** A request the specification accepts: the current state again, or a
    listed pair. *)
Definition legal (old target : scsi_host_state) : Prop :=
  target = old \/ listed old target.

(** ** The device core, as far as hosts.c relies on it *)

(** What the collaborators answer during one run.  Each fallible call of
    [scsi_add_host_with_dma] happens at most once, so one value each. *)
Record env : Type := {
  scsi_mq_setup_tags_ret : Z;
  scsi_mq_setup_tags_ptr : Z;
  blk_init_tags_res : option Z;
  scsi_setup_command_freelist_ret : Z;
  device_add_ret : device_ptr -> Z;
  kzalloc_res : option Z;
  create_workqueue_ok : bool;
  scsi_sysfs_add_host_ret : Z;
  queue_work_ret : bool
}.

Definition modify_gendev (f : device -> device) : M unit :=
  modify_shost (fun h => set_shost_gendev (f (shost_gendev h)) h).

Definition modify_shost_dev (f : device -> device) : M unit :=
  modify_shost (fun h => set_shost_dev (f (shost_dev h)) h).

Definition kfree (p : option Z) : M unit := emit (Ev_kfree p).

Definition destroy_workqueue (wq : workqueue) : M unit :=
  emit (Ev_destroy_workqueue wq).

Definition scsi_destroy_command_freelist : M unit :=
  emit Ev_scsi_destroy_command_freelist.

(** [shost_use_blk_mq] (include/scsi/scsi_host.h) reads the flag. *)
Definition shost_use_blk_mq (h : Scsi_Host) : bool := use_blk_mq h.

(** Modelled from the spec: [scsi_mq_setup_tags] and [scsi_mq_destroy_tags]
    (scsi_lib.c) allocate and free the blk-mq tag set; the pool is opaque to
    the host code apart from [tag_set.tags] being non-NULL while it exists. *)
Definition scsi_mq_setup_tags (E : env) : M Z :=
  let r := scsi_mq_setup_tags_ret E in
  emit (Ev_scsi_mq_setup_tags r) ;;
  when (r =? 0)
    (modify_shost (set_tag_set_tags (Some (scsi_mq_setup_tags_ptr E)))) ;;
  ret r.

Definition scsi_mq_destroy_tags : M unit :=
  emit Ev_scsi_mq_destroy_tags ;;
  modify_shost (set_tag_set_tags None).

(** Modelled from the spec: [put_device] on a device that is not embedded
    in the host only gives the reference back to its owner. *)
Definition put_device_other (d : device_ptr) : M unit :=
  emit (Ev_put_device d).

(** [kfree(shost)]: the host's memory goes back to the allocator. *)
Definition kfree_shost : M unit :=
  emit Ev_kfree_shost ;;
  fun k => Done tt {| shost := shost k; shost_freed := true;
                      trace := trace k |}.

(** [scsi_host_dev_release]: the release callback of [shost_gendev], run
    when its last reference is dropped. *)
Definition scsi_host_dev_release : M unit :=
  h <- get_shost ;;
  let parent := dev_parent (shost_gendev h) in
  emit Ev_scsi_proc_hostdir_rm ;;
  match tmf_work_q h with
  | Some wq => destroy_workqueue wq
  | None => ret tt
  end ;;
  match ehandler h with
  | Task_null => ret tt
  | t => emit (Ev_kthread_stop t)
  end ;;
  match work_q h with
  | Some wq => destroy_workqueue wq
  | None => ret tt
  end ;;
  match uspace_req_q h with
  | Some q => emit Ev_blk_cleanup_queue ;; kfree (queuedata q)
  | None => ret tt
  end ;;
  when (state_is (shost_state h) SHOST_CREATED)
    (emit (Ev_kfree_dev_name Shost_dev)) ;;
  scsi_destroy_command_freelist ;;
  (if shost_use_blk_mq h then
     h1 <- get_shost ;;
     match tag_set_tags h1 with
     | Some _ => scsi_mq_destroy_tags
     | None => ret tt
     end
   else
     match bqt h with
     | Some p => emit (Ev_blk_free_tags p)
     | None => ret tt
     end) ;;
  kfree (shost_data h) ;;
  when (negb (state_is (shost_state h) SHOST_CREATED))
    match parent with
    | Some p => put_device_other p
    | None => ret tt
    end ;;
  kfree_shost.

(** Modelled from the spec: [get_device] / [put_device] (drivers/base)
    count references on a device; taking one on a non-NULL device always
    succeeds and returns the device, and the release callback of the device
    runs when the count drops to zero. *)
Definition put_device_gendev : M unit :=
  emit (Ev_put_device Shost_gendev) ;;
  modify_gendev (fun d => set_dev_kref (dev_kref d - 1) d) ;;
  h <- get_shost ;;
  when (dev_kref (shost_gendev h) =? 0) scsi_host_dev_release.

(** [scsi_host_cls_release]: the class release callback of [shost_dev]. *)
Definition scsi_host_cls_release : M unit :=
  put_device_gendev.

Definition put_device_shost_dev : M unit :=
  emit (Ev_put_device Shost_dev) ;;
  modify_shost_dev (fun d => set_dev_kref (dev_kref d - 1) d) ;;
  h <- get_shost ;;
  when (dev_kref (shost_dev h) =? 0) scsi_host_cls_release.

Definition put_device (d : device_ptr) : M unit :=
  match d with
  | Shost_gendev => put_device_gendev
  | Shost_dev => put_device_shost_dev
  | _ => put_device_other d
  end.

Definition get_device (d : device_ptr) : M (option device_ptr) :=
  emit (Ev_get_device d) ;;
  match d with
  | Shost_gendev => modify_gendev (fun x => set_dev_kref (dev_kref x + 1) x)
  | Shost_dev => modify_shost_dev (fun x => set_dev_kref (dev_kref x + 1) x)
  | _ => ret tt
  end ;;
  ret (Some d).

(** Modelled from the spec: [device_add] registers a device and reports an
    error code; [device_del] undoes a registration. *)
Definition device_add (E : env) (d : device_ptr) : M Z :=
  let r := device_add_ret E d in
  emit (Ev_device_add d r) ;;
  ret r.

Definition device_del (d : device_ptr) : M unit := emit (Ev_device_del d).

(** [device_unregister] is [device_del] followed by [put_device]. *)
Definition device_unregister (d : device_ptr) : M unit :=
  emit (Ev_device_unregister d) ;;
  device_del d ;;
  put_device d.

(** ** Removal *)

(** [scsi_remove_host], lines 161-169: under [scan_mutex] and the host
    lock, move to CANCEL or else to CANCEL_RECOVERY.  Returns [false] when
    both are refused, after dropping both locks. *)
Definition scsi_remove_host_begin : M bool :=
  h <- get_shost ;;
  emit Ev_mutex_lock_scan_mutex ;;
  emit (Ev_spin_lock_irqsave (host_lock h)) ;;
  r <- scsi_host_set_state SHOST_CANCEL ;;
  r' <- (if negb (r =? 0) then scsi_host_set_state SHOST_CANCEL_RECOVERY
         else ret 0) ;;
  if negb (r' =? 0) then
    emit (Ev_spin_unlock_irqrestore (host_lock h)) ;;
    emit Ev_mutex_unlock_scan_mutex ;;
    ret false
  else
    emit (Ev_spin_unlock_irqrestore (host_lock h)) ;;
    ret true.

(** Lines 171-175: quiesce and forget the children, with the host lock
    dropped. *)
Definition scsi_remove_host_quiesce : M unit :=
  h <- get_shost ;;
  emit Ev_scsi_autopm_get_host ;;
  emit (Ev_flush_workqueue (tmf_work_q h)) ;;
  emit Ev_scsi_forget_host ;;
  emit Ev_mutex_unlock_scan_mutex ;;
  emit Ev_scsi_proc_host_rm.

(** Lines 177-180: under the host lock again, move to DEL or else to
    DEL_RECOVERY, which must succeed. *)
Definition scsi_remove_host_delete : M unit :=
  h <- get_shost ;;
  emit (Ev_spin_lock_irqsave (host_lock h)) ;;
  r <- scsi_host_set_state SHOST_DEL ;;
  (if negb (r =? 0) then
     r' <- scsi_host_set_state SHOST_DEL_RECOVERY ;;
     BUG_ON (negb (r' =? 0))
   else ret tt) ;;
  emit (Ev_spin_unlock_irqrestore (host_lock h)).

(** Lines 182-184. *)
Definition scsi_remove_host_unregister : M unit :=
  emit (Ev_transport_unregister_device Shost_gendev) ;;
  device_unregister Shost_dev ;;
  device_del Shost_gendev.

(** [scsi_remove_host] running next to other threads: [others] stands for
    whatever they do to the host while the host lock is not held between
    the two locked sections. *)
Definition scsi_remove_host_with (others : M unit) : M unit :=
  go <- scsi_remove_host_begin ;;
  if go then
    scsi_remove_host_quiesce ;;
    others ;;
    scsi_remove_host_delete ;;
    scsi_remove_host_unregister
  else ret tt.

(** [scsi_remove_host] on its own. *)
Definition scsi_remove_host : M unit :=
  scsi_remove_host_with (ret tt).

(** ** Publication *)

Definition KERN_ERR : string := "3".
Definition KERN_WARNING : string := "4".
Definition KERN_INFO : string := "6".

(** Modelled from the spec: [blk_init_tags] returns a tag map or NULL;
    [scsi_setup_command_freelist] and [scsi_sysfs_add_host] report an error
    code; [kzalloc] and [create_singlethread_workqueue] return NULL on
    failure. *)
Definition blk_init_tags (E : env) (depth policy : Z) : M (option Z) :=
  emit (Ev_blk_init_tags depth policy (blk_init_tags_res E)) ;;
  ret (blk_init_tags_res E).

Definition scsi_setup_command_freelist (E : env) : M Z :=
  emit (Ev_scsi_setup_command_freelist (scsi_setup_command_freelist_ret E)) ;;
  ret (scsi_setup_command_freelist_ret E).

Definition kzalloc (E : env) (size : Z) : M (option Z) :=
  emit (Ev_kzalloc size (kzalloc_res E)) ;;
  ret (kzalloc_res E).

Definition create_singlethread_workqueue (E : env) (name : wq_name)
  : M (option workqueue) :=
  let res := if create_workqueue_ok E then Some (Wq name) else None in
  emit (Ev_create_singlethread_workqueue name res) ;;
  ret res.

Definition scsi_sysfs_add_host (E : env) : M Z :=
  emit (Ev_scsi_sysfs_add_host (scsi_sysfs_add_host_ret E)) ;;
  ret (scsi_sysfs_add_host_ret E).

(** The unwinding labels of [scsi_add_host_with_dma]; each falls through
    to the next. *)
Definition fail (error : Z) : M Z := ret error.

Definition out_destroy_tags (error : Z) : M Z :=
  h <- get_shost ;;
  when (shost_use_blk_mq h) scsi_mq_destroy_tags ;;
  fail error.

Definition out_destroy_freelist (error : Z) : M Z :=
  scsi_destroy_command_freelist ;;
  out_destroy_tags error.

Definition out_del_gendev (error : Z) : M Z :=
  (* Host state is SHOST_RUNNING so ->shost_dev is released explicitly *)
  put_device Shost_dev ;;
  device_del Shost_gendev ;;
  out_destroy_freelist error.

Definition out_del_dev (error : Z) : M Z :=
  device_del Shost_dev ;;
  out_del_gendev error.

Definition out_free_shost_data (error : Z) : M Z :=
  h <- get_shost ;;
  kfree (shost_data h) ;;
  out_del_dev error.

Definition out_destroy_host (error : Z) : M Z :=
  h <- get_shost ;;
  match work_q h with
  | Some wq => destroy_workqueue wq
  | None => ret tt
  end ;;
  out_free_shost_data error.

(** Lines 216-227: the tag infrastructure, blk-mq or legacy. *)
Definition setup_tags (E : env) : M Z :=
  h <- get_shost ;;
  if shost_use_blk_mq h then scsi_mq_setup_tags E
  else
    p <- blk_init_tags E (can_queue h) (sht_tag_alloc_policy (hostt h)) ;;
    modify_shost (set_bqt p) ;;
    match p with
    | None => ret (- ENOMEM)
    | Some _ => ret 0
    end.

(** Lines 242-247: default the parent and the DMA device. *)
Definition resolve_parent (dev dma_dev : option device_ptr) : M unit :=
  h <- get_shost ;;
  match dev_parent (shost_gendev h) with
  | None =>
      modify_gendev
        (set_dev_parent (Some match dev with
                              | Some d => d
                              | None => Platform_bus
                              end))
  | Some _ => ret tt
  end ;;
  h <- get_shost ;;
  let dma_dev := match dma_dev with
                 | None => dev_parent (shost_gendev h)
                 | Some d => Some d
                 end in
  modify_shost (set_dma_dev dma_dev).

(** Lines 264-271. *)
Definition alloc_shost_data (E : env) : M Z :=
  h <- get_shost ;;
  if negb (host_size (transportt h) =? 0) then
    p <- kzalloc E (host_size (transportt h)) ;;
    modify_shost (set_shost_data p) ;;
    match p with
    | None => ret (- ENOMEM)
    | Some _ => ret 0
    end
  else ret 0.

(** Lines 273-282. *)
Definition create_work_q (E : env) : M Z :=
  h <- get_shost ;;
  if create_work_queue (transportt h) then
    let name := ("scsi_wq_%d"%string, host_no h) in
    modify_shost (set_work_q_name (Some name)) ;;
    q <- create_singlethread_workqueue E name ;;
    modify_shost (set_work_q q) ;;
    match q with
    | None => ret (- EINVAL)
    | Some _ => ret 0
    end
  else ret 0.

(** [scsi_add_host_with_dma]: add a scsi host with dma device.  Returns 0
    on success and an error code otherwise. *)
Definition scsi_add_host_with_dma (E : env) (dev dma_dev : option device_ptr)
  : M Z :=
  h <- get_shost ;;
  let sht := hostt h in
  emit (Ev_shost_printk KERN_INFO
          match sht_info sht with
          | Some s => s
          | None => sht_name sht
          end) ;;
  if can_queue h =? 0 then
    emit (Ev_shost_printk KERN_ERR "can_queue = 0 no longer supported") ;;
    fail (- EINVAL)
  else
    error <- setup_tags E ;;
    if negb (error =? 0) then fail error
    else
      error <- scsi_setup_command_freelist E ;;
      if negb (error =? 0) then out_destroy_tags error
      else
        resolve_parent dev dma_dev ;;
        error <- device_add E Shost_gendev ;;
        if negb (error =? 0) then out_destroy_freelist error
        else
          emit (Ev_pm_runtime_set_active Shost_gendev) ;;
          emit (Ev_pm_runtime_enable Shost_gendev) ;;
          scsi_host_set_state SHOST_RUNNING ;;
          h <- get_shost ;;
          match dev_parent (shost_gendev h) with
          | Some p => get_device p ;; ret tt
          | None => ret tt
          end ;;
          get_device Shost_gendev ;;
          error <- device_add E Shost_dev ;;
          if negb (error =? 0) then out_del_gendev error
          else
            error <- alloc_shost_data E ;;
            if negb (error =? 0) then out_del_dev error
            else
              error <- create_work_q E ;;
              if negb (error =? 0) then out_free_shost_data error
              else
                error <- scsi_sysfs_add_host E ;;
                if negb (error =? 0) then out_destroy_host error
                else
                  emit Ev_scsi_proc_host_add ;;
                  ret error.

(** ** References *)

(** [scsi_host_get]: inc a Scsi_Host ref count.  [true] stands for the
    host pointer being returned, [false] for NULL. *)
Definition scsi_host_get : M bool :=
  h <- get_shost ;;
  if state_is (shost_state h) SHOST_DEL then ret false
  else
    d <- get_device Shost_gendev ;;
    match d with
    | None => ret false
    | Some _ => ret true
    end.

(** [scsi_host_put]: dec a Scsi_Host ref count. *)
Definition scsi_host_put : M unit :=
  put_device Shost_gendev.

(** [scsi_is_host_device]. *)
Definition scsi_is_host_device (d : device) : bool :=
  match dev_type d with
  | Some Scsi_host_type => true
  | _ => false
  end.

(** ** Work queue *)

(** [scsi_queue_work]: 1 when the work was queued, 0 when it was already
    queued, [-EINVAL] when the host has no work queue. *)
Definition scsi_queue_work (E : env) (work : Z) : M Z :=
  h <- get_shost ;;
  match work_q h with
  | None =>
      emit (Ev_shost_printk KERN_ERR
              "ERROR: Scsi host '%s' attempted to queue scsi-work, when no workqueue created.") ;;
      emit Ev_dump_stack ;;
      ret (- EINVAL)
  | Some wq =>
      emit (Ev_queue_work wq work (queue_work_ret E)) ;;
      ret (if queue_work_ret E then 1 else 0)
  end.

(** [scsi_flush_work]: flush the host's work queue. *)
Definition scsi_flush_work : M unit :=
  h <- get_shost ;;
  match work_q h with
  | None =>
      emit (Ev_shost_printk KERN_ERR
              "ERROR: Scsi host '%s' attempted to flush scsi-work, when no workqueue created.") ;;
      emit Ev_dump_stack ;;
      ret tt
  | Some wq =>
      emit (Ev_flush_workqueue (Some wq))
  end.

(** ** Allocation *)

(** The file-scope variables of hosts.c and the mid-layer switch it reads. *)
Record globals : Type := {
  scsi_host_next_hn : Z;
  shost_eh_deadline : Z;
  scsi_use_blk_mq : bool
}.

(** What the allocators answer during one [scsi_host_alloc]. *)
Record alloc_env : Type := {
  kzalloc_shost_ok : bool;
  kthread_run_err : option Z;
  alloc_workqueue_ok : bool
}.

(** C conversions: to [int], to [unsigned int], to [unsigned long]. *)
Definition to_int (x : Z) : Z := (x + 2 ^ 31) mod 2 ^ 32 - 2 ^ 31.
Definition to_uint (x : Z) : Z := x mod 2 ^ 32.
Definition to_ulong (x : Z) : Z := x mod ULONG_MODULUS.

Section Alloc.

(** The tick rate, a configuration constant. *)
Variable HZ : Z.

(** Lines 442-450: the error-handler deadline in ticks, and the warning
    printed when the configured value is too large. *)
Definition eh_deadline_init (deadline : Z) (sht : scsi_host_template)
  : Z * list event :=
  if (deadline =? -1) || negb (sht_eh_host_reset_handler sht) then
    (-1, [])
  else if to_ulong (to_ulong deadline * to_ulong HZ) >? INT_MAX then
    (INT_MAX,
     [Ev_shost_printk KERN_WARNING
        "eh_deadline %u too large, setting to %u"])
  else
    (to_int (deadline * HZ), []).

(** [device_initialize] followed by the assignments made to the device. *)
Definition init_gendev (no : Z) : device :=
  {| dev_parent := None; dev_kref := 1;
     dev_name := Some ("host%d"%string, no);
     dev_type := Some Scsi_host_type |}.

Definition init_shost_dev (no : Z) : device :=
  {| dev_parent := Some Shost_gendev; dev_kref := 1;
     dev_name := Some ("host%d"%string, no);
     dev_type := None |}.

(** The member assignments of [scsi_host_alloc] (lines 400-491) on the
    zeroed allocation, for host number [no]. *)
Definition init_host (g : globals) (sht : scsi_host_template)
    (no deadline : Z) (thread : task_ptr) (tmf : option workqueue)
  : Scsi_Host :=
  {| host_lock := Default_lock;
     shost_state := SHOST_CREATED;
     host_no := no;
     dma_channel := 255;
     max_channel := 0;
     max_id := 8;
     max_lun := 8;
     transportt := blank_transport_template;
     max_cmd_len := 12;
     hostt := sht;
     this_id := sht_this_id sht;
     can_queue := sht_can_queue sht;
     sg_tablesize := sht_sg_tablesize sht;
     sg_prot_tablesize := sht_sg_prot_tablesize sht;
     cmd_per_lun := sht_cmd_per_lun sht;
     unchecked_isa_dma := sht_unchecked_isa_dma sht;
     use_clustering := sht_use_clustering sht;
     no_write_same := sht_no_write_same sht;
     eh_deadline := deadline;
     active_mode :=
       if sht_supported_mode sht =? MODE_UNKNOWN then MODE_INITIATOR
       else sht_supported_mode sht;
     max_host_blocked :=
       if negb (sht_max_host_blocked sht =? 0)
       then sht_max_host_blocked sht else SCSI_DEFAULT_HOST_BLOCKED;
     max_sectors :=
       if negb (sht_max_sectors sht =? 0)
       then sht_max_sectors sht else SCSI_DEFAULT_MAX_SECTORS;
     dma_boundary :=
       if negb (sht_dma_boundary sht =? 0)
       then sht_dma_boundary sht else 4294967295;
     use_blk_mq := scsi_use_blk_mq g && negb (sht_disable_blk_mq sht);
     shost_gendev := init_gendev no;
     shost_dev := init_shost_dev no;
     ehandler := thread;
     tmf_work_q := tmf;
     bqt := None;
     tag_set_tags := None;
     dma_dev := None;
     shost_data := None;
     work_q_name := None;
     work_q := None;
     uspace_req_q := None |}.

(** [scsi_host_alloc]: allocate a new Scsi_Host and perform basic
    initialization.  Returns the host (or NULL), the globals afterwards
    and the calls made. *)
Definition scsi_host_alloc (A : alloc_env) (g : globals)
    (sht : scsi_host_template) (privsize : Z)
  : option Scsi_Host * globals * list event :=
  let gfp_dma := sht_unchecked_isa_dma sht && negb (privsize =? 0) in
  if negb (kzalloc_shost_ok A) then
    (None, g, [Ev_kzalloc_shost privsize gfp_dma false])
  else
    let next := to_int (scsi_host_next_hn g + 1) in
    let g' := {| scsi_host_next_hn := next;
                 shost_eh_deadline := shost_eh_deadline g;
                 scsi_use_blk_mq := scsi_use_blk_mq g |} in
    let no := to_uint (next - 1) in
    let '(deadline, warning) := eh_deadline_init (shost_eh_deadline g) sht in
    let thread := match kthread_run_err A with
                  | None => Task ("scsi_eh_%d"%string, no)
                  | Some e => Task_err e
                  end in
    let tmf := if alloc_workqueue_ok A
               then Some (Wq ("scsi_tmf_%d"%string, no)) else None in
    let h := init_host g sht no deadline thread tmf in
    let started :=
      [Ev_kzalloc_shost privsize gfp_dma true] ++ warning ++
      [Ev_kthread_run ("scsi_eh_%d"%string, no) thread] in
    match kthread_run_err A with
    | Some _ =>
        (None, g',
         started ++
         [Ev_shost_printk KERN_WARNING
            "error handler thread failed to spawn, error = %ld";
          Ev_kfree_shost])
    | None =>
        match tmf with
        | None =>
            (None, g',
             started ++
             [Ev_alloc_workqueue ("scsi_tmf_%d"%string, no) None;
              Ev_shost_printk KERN_WARNING "failed to create tmf workq";
              Ev_kthread_stop thread;
              Ev_kfree_shost])
        | Some _ =>
            (Some h, g',
             started ++
             [Ev_alloc_workqueue ("scsi_tmf_%d"%string, no) tmf;
              Ev_scsi_proc_hostdir_add])
        end
    end.

End Alloc.

(** ** What the specification says, for comparison *)

(** The deadline as the specification words it: disabled, clamped when
    seconds times the tick rate exceeds [INT_MAX], or that product. *)
Definition eh_deadline_spec (HZ seconds : Z) (has_reset_handler : bool) : Z :=
  if (seconds =? -1) || negb has_reset_handler then -1
  else if seconds * HZ >? INT_MAX then INT_MAX
  else seconds * HZ.

(** The steps of publication that can fail, in order. *)
Inductive publish_step : Type :=
| Step_can_queue
| Step_tags
| Step_freelist
| Step_device_add_gendev
| Step_device_add_shost_dev
| Step_shost_data
| Step_work_queue
| Step_sysfs.

(** The steps that come before the CREATED->RUNNING transition. *)
Definition precedes_transition (s : publish_step) : bool :=
  match s with
  | Step_can_queue | Step_tags | Step_freelist | Step_device_add_gendev => true
  | _ => false
  end.

(** Whether the specification lets a host in [old] be set to [target]:
    the same state, or a listed pair. *)
Definition allowed (old target : scsi_host_state) : bool :=
  state_is target old
  || existsb (fun p => state_is (fst p) old && state_is (snd p) target)
       legal_transitions.

(** The kernel after [shost->shost_state = s], and after one more call. *)
Definition with_state (s : scsi_host_state) (k : kernel) : kernel :=
  {| shost := set_shost_state s (shost k); shost_freed := shost_freed k;
     trace := trace k |}.

Definition logged (e : event) (k : kernel) : kernel :=
  {| shost := shost k; shost_freed := shost_freed k;
     trace := trace k ++ [e] |}.

Definition cur_state (k : kernel) : scsi_host_state := shost_state (shost k).

(** ** Vocabulary of the statements *)

(** A computation that returns and leaves [shost_state] as it found it. *)
Definition preserves_state {A : Type} (c : M A) : Prop :=
  forall k, exists a k', c k = Done a k' /\ cur_state k' = cur_state k.

(** What other threads may do to the host while [scsi_remove_host] has
    dropped the host lock: any number of listed transitions. *)
Definition follows_state_model (others : M unit) : Prop :=
  forall k, exists k',
    others k = Done tt k'
    /\ clos_refl_trans scsi_host_state listed (cur_state k) (cur_state k').

(** The states of a host that is being, or has been, removed. *)
Definition removing (s : scsi_host_state) : bool :=
  match s with
  | SHOST_CANCEL | SHOST_CANCEL_RECOVERY | SHOST_DEL | SHOST_DEL_RECOVERY =>
      true
  | _ => false
  end.

(** The calls of the teardown part of [scsi_remove_host]. *)
Definition is_teardown (e : event) : bool :=
  match e with
  | Ev_scsi_autopm_get_host | Ev_flush_workqueue _ | Ev_scsi_forget_host
  | Ev_scsi_proc_host_rm | Ev_transport_unregister_device _
  | Ev_device_unregister _ | Ev_device_del _ | Ev_put_device _ => true
  | _ => false
  end.

(** ** A host to run the functions on *)

Definition sample_sht : scsi_host_template :=
  {| sht_name := "sample";
     sht_info := None;
     sht_detect := false;
     sht_this_id := 7;
     sht_can_queue := 32;
     sht_sg_tablesize := 128;
     sht_sg_prot_tablesize := 0;
     sht_cmd_per_lun := 1;
     sht_unchecked_isa_dma := false;
     sht_use_clustering := true;
     sht_no_write_same := false;
     sht_eh_host_reset_handler := true;
     sht_supported_mode := MODE_UNKNOWN;
     sht_max_host_blocked := 0;
     sht_max_sectors := 0;
     sht_dma_boundary := 0;
     sht_disable_blk_mq := false;
     sht_tag_alloc_policy := 0 |}.

Definition sample_globals : globals :=
  {| scsi_host_next_hn := 0; shost_eh_deadline := -1;
     scsi_use_blk_mq := false |}.

Definition sample_alloc_env : alloc_env :=
  {| kzalloc_shost_ok := true; kthread_run_err := None;
     alloc_workqueue_ok := true |}.

(** The host [scsi_host_alloc] builds from [sample_sht] as host 0. *)
Definition sample_host : Scsi_Host :=
  init_host sample_globals sample_sht 0 (-1)
    (Task ("scsi_eh_%d"%string, 0)) (Some (Wq ("scsi_tmf_%d"%string, 0))).

(** The same host under blk-mq, with a transport that wants private data
    and a work queue. *)
Definition sample_mq_host : Scsi_Host :=
  set_transportt {| host_size := 64; create_work_queue := true |}
    (init_host {| scsi_host_next_hn := 0; shost_eh_deadline := -1;
                  scsi_use_blk_mq := true |}
       sample_sht 0 (-1)
       (Task ("scsi_eh_%d"%string, 0))
       (Some (Wq ("scsi_tmf_%d"%string, 0)))).

(** Collaborators that never fail. *)
Definition sample_env : env :=
  {| scsi_mq_setup_tags_ret := 0;
     scsi_mq_setup_tags_ptr := 4096;
     blk_init_tags_res := Some 8192;
     scsi_setup_command_freelist_ret := 0;
     device_add_ret := fun _ => 0;
     kzalloc_res := Some 12288;
     create_workqueue_ok := true;
     scsi_sysfs_add_host_ret := 0;
     queue_work_ret := true |}.

(** The kernel after [sample_host] was published, and after it was then
    removed. *)
Definition published : kernel :=
  final_kernel (scsi_add_host_with_dma sample_env None None (boot sample_host)).

Definition removed : kernel := final_kernel (scsi_remove_host published).

(** Collaborators of which one fails: the command freelist, or sysfs. *)
Definition failing_freelist_env : env :=
  {| scsi_mq_setup_tags_ret := 0;
     scsi_mq_setup_tags_ptr := 4096;
     blk_init_tags_res := Some 8192;
     scsi_setup_command_freelist_ret := - ENOMEM;
     device_add_ret := fun _ => 0;
     kzalloc_res := Some 12288;
     create_workqueue_ok := true;
     scsi_sysfs_add_host_ret := 0;
     queue_work_ret := true |}.

Definition failing_sysfs_env : env :=
  {| scsi_mq_setup_tags_ret := 0;
     scsi_mq_setup_tags_ptr := 4096;
     blk_init_tags_res := Some 8192;
     scsi_setup_command_freelist_ret := 0;
     device_add_ret := fun _ => 0;
     kzalloc_res := Some 12288;
     create_workqueue_ok := true;
     scsi_sysfs_add_host_ret := - EINVAL;
     queue_work_ret := true |}.

(** ** Resources, read off the trace *)

(** What a publication holds on to, references on devices apart (those
    are counted in the devices). *)
Inductive resource : Type :=
| Res_mq_tags
| Res_legacy_tags
| Res_freelist
| Res_registration (d : device_ptr)
| Res_memory (p : Z)
| Res_workqueue (wq : workqueue)
| Res_sysfs
| Res_proc.

(** The resource a successful call hands out. *)
Definition acquires (e : event) : list resource :=
  match e with
  | Ev_scsi_mq_setup_tags r => if r =? 0 then [Res_mq_tags] else []
  | Ev_blk_init_tags _ _ (Some _) => [Res_legacy_tags]
  | Ev_scsi_setup_command_freelist r => if r =? 0 then [Res_freelist] else []
  | Ev_device_add d r => if r =? 0 then [Res_registration d] else []
  | Ev_kzalloc _ (Some p) => [Res_memory p]
  | Ev_create_singlethread_workqueue _ (Some wq) => [Res_workqueue wq]
  | Ev_scsi_sysfs_add_host r => if r =? 0 then [Res_sysfs] else []
  | Ev_scsi_proc_host_add => [Res_proc]
  | _ => []
  end.

(** The resource a call gives back. *)
Definition releases (e : event) : list resource :=
  match e with
  | Ev_scsi_mq_destroy_tags => [Res_mq_tags]
  | Ev_blk_free_tags _ => [Res_legacy_tags]
  | Ev_scsi_destroy_command_freelist => [Res_freelist]
  | Ev_device_del d => [Res_registration d]
  | Ev_kfree (Some p) => [Res_memory p]
  | Ev_destroy_workqueue wq => [Res_workqueue wq]
  | Ev_scsi_proc_host_rm => [Res_proc]
  | _ => []
  end.

Definition acquired (t : list event) : list resource := flat_map acquires t.
Definition released (t : list event) : list resource := flat_map releases t.

(** The legacy tag map of [blk_init_tags]. *)
Definition is_legacy_tags (r : resource) : bool :=
  match r with
  | Res_legacy_tags => true
  | _ => false
  end.

Definition not_legacy_tags (r : resource) : bool := negb (is_legacy_tags r).

(** ** Vocabulary for running publication step by step *)

(** [c] returns from [k], and the value and kernel it ends with satisfy
    [Q]. *)
Definition runs {A : Type} (c : M A) (k : kernel)
    (Q : A -> kernel -> Prop) : Prop :=
  exists a k', c k = Done a k' /\ Q a k'.

Definition modified (f : Scsi_Host -> Scsi_Host) (k : kernel) : kernel :=
  {| shost := f (shost k); shost_freed := shost_freed k; trace := trace k |}.

(** The members publication reads back after it wrote or may have written
    them, and the configuration it branches on. *)
Record frame : Type := {
  fr_state : scsi_host_state;
  fr_can_queue : Z;
  fr_mq : bool;
  fr_transportt : scsi_transport_template;
  fr_host_no : Z;
  fr_parent : option device_ptr;
  fr_data : option Z;
  fr_work_q : option workqueue
}.

Definition frame_of (h : Scsi_Host) : frame :=
  {| fr_state := shost_state h;
     fr_can_queue := can_queue h;
     fr_mq := use_blk_mq h;
     fr_transportt := transportt h;
     fr_host_no := host_no h;
     fr_parent := dev_parent (shost_gendev h);
     fr_data := shost_data h;
     fr_work_q := work_q h |}.

Definition with_fr_state (v : scsi_host_state) (fr : frame) : frame :=
  {| fr_state := v; fr_can_queue := fr_can_queue fr; fr_mq := fr_mq fr;
     fr_transportt := fr_transportt fr; fr_host_no := fr_host_no fr;
     fr_parent := fr_parent fr; fr_data := fr_data fr;
     fr_work_q := fr_work_q fr |}.

Definition with_fr_parent (v : option device_ptr) (fr : frame) : frame :=
  {| fr_state := fr_state fr; fr_can_queue := fr_can_queue fr;
     fr_mq := fr_mq fr; fr_transportt := fr_transportt fr;
     fr_host_no := fr_host_no fr; fr_parent := v; fr_data := fr_data fr;
     fr_work_q := fr_work_q fr |}.

Definition with_fr_data (v : option Z) (fr : frame) : frame :=
  {| fr_state := fr_state fr; fr_can_queue := fr_can_queue fr;
     fr_mq := fr_mq fr; fr_transportt := fr_transportt fr;
     fr_host_no := fr_host_no fr; fr_parent := fr_parent fr; fr_data := v;
     fr_work_q := fr_work_q fr |}.

Definition with_fr_work_q (v : option workqueue) (fr : frame) : frame :=
  {| fr_state := fr_state fr; fr_can_queue := fr_can_queue fr;
     fr_mq := fr_mq fr; fr_transportt := fr_transportt fr;
     fr_host_no := fr_host_no fr; fr_parent := fr_parent fr;
     fr_data := fr_data fr; fr_work_q := v |}.

(** The reference count of [shost_gendev]. *)
Definition krefg (k : kernel) : Z := dev_kref (shost_gendev (shost k)).

(** The state after [scsi_host_set_state target]. *)
Definition next_state (target s : scsi_host_state) : scsi_host_state :=
  if allowed s target then target else s.

(** What is known of the kernel at a point of a run: the frame of the
    host, a lower bound on the reference count of [shost_gendev], and the
    resources acquired and released by the calls so far. *)
Record at_point (k : kernel) (lo : Z) (fr : frame)
    (acq rel : list resource) : Prop := {
  at_frame : frame_of (shost k) = fr;
  at_kref : lo <= krefg k;
  at_acquired : acquired (trace k) = acq;
  at_released : released (trace k) = rel
}.

(** The failure conditions of the steps that look at the host: the tag
    step at the blk-mq flag, the two others at the transport template. *)
Definition tags_fail (E : env) (mq : bool) : bool :=
  if mq then negb (scsi_mq_setup_tags_ret E =? 0)
  else match blk_init_tags_res E with
       | None => true
       | Some _ => false
       end.

Definition shost_data_fail (E : env) (tp : scsi_transport_template) : bool :=
  negb (host_size tp =? 0)
  && match kzalloc_res E with
     | None => true
     | Some _ => false
     end.

Definition work_q_fail (E : env) (tp : scsi_transport_template) : bool :=
  create_work_queue tp && negb (create_workqueue_ok E).

(** What the tag step returns and hands out. *)
Definition tags_error (E : env) (mq : bool) : Z :=
  if mq then scsi_mq_setup_tags_ret E
  else match blk_init_tags_res E with
       | None => - ENOMEM
       | Some _ => 0
       end.

Definition tags_acquired (mq : bool) : list resource :=
  if mq then [Res_mq_tags] else [Res_legacy_tags].

(** What the unwinding gives back for the tags: the blk-mq set only. *)
Definition tags_released (mq : bool) : list resource :=
  if mq then [Res_mq_tags] else [].

Definition memory_of (p : option Z) : list resource :=
  match p with
  | Some a => [Res_memory a]
  | None => []
  end.

Definition workqueue_of (q : option workqueue) : list resource :=
  match q with
  | Some w => [Res_workqueue w]
  | None => []
  end.

(** The first step that fails for host [h] when the collaborators answer
    as [E] says, if any. *)
Definition first_failure (E : env) (h : Scsi_Host) : option publish_step :=
  if can_queue h =? 0 then Some Step_can_queue
  else if tags_fail E (use_blk_mq h) then Some Step_tags
  else if negb (scsi_setup_command_freelist_ret E =? 0)
  then Some Step_freelist
  else if negb (device_add_ret E Shost_gendev =? 0)
  then Some Step_device_add_gendev
  else if negb (device_add_ret E Shost_dev =? 0)
  then Some Step_device_add_shost_dev
  else if shost_data_fail E (transportt h) then Some Step_shost_data
  else if work_q_fail E (transportt h) then Some Step_work_queue
  else if negb (scsi_sysfs_add_host_ret E =? 0) then Some Step_sysfs
  else None.

(** The warning of [scsi_host_alloc] about the deadline. *)
Definition eh_deadline_warning : event :=
  Ev_shost_printk KERN_WARNING "eh_deadline %u too large, setting to %u".

(** What [scsi_add_host_with_dma] leaves behind when run on host [h] with
    an empty trace: the return value is zero exactly when no step fails;
    the state is the one before the call when the failing step precedes
    the transition and the one after the request for RUNNING otherwise;
    and, for a host as allocated whose caller holds a reference, a failed
    call has released what it acquired, last first, the legacy tag map
    apart (there is none with blk-mq). *)
Definition publish_post (E : env) (h : Scsi_Host) (r : Z) (k' : kernel)
  : Prop :=
  (r = 0 <-> first_failure E h = None)
  /\ cur_state k'
     = match first_failure E h with
       | Some s =>
           if precedes_transition s then shost_state h
           else next_state SHOST_RUNNING (shost_state h)
       | None => next_state SHOST_RUNNING (shost_state h)
       end
  /\ (0 < dev_kref (shost_gendev h) ->
      shost_data h = None -> work_q h = None -> r <> 0 ->
      released (trace k')
      = rev (filter not_legacy_tags (acquired (trace k')))
      /\ (use_blk_mq h = true ->
          filter not_legacy_tags (acquired (trace k'))
          = acquired (trace k'))).

(** A program made of state-preserving pieces that ends by returning [v]
    returns [v] with the state it started from. *)
Definition keeps_state_returning {A : Type} (c : M A) (v : A) : Prop :=
  forall k, runs c k (fun r k' => r = v /\ cur_state k' = cur_state k).

From Stdlib Require Import Permutation.

(** ** Sequences of requests *)

(** Calls of [scsi_host_set_state] made one after the other, as callers
    spread over the mid layer make them; the return codes in order. *)
Fixpoint set_states (targets : list scsi_host_state) : M (list Z) :=
  match targets with
  | [] => ret []
  | t :: ts =>
      r <- scsi_host_set_state t ;;
      rs <- set_states ts ;;
      ret (r :: rs)
  end.

(** Requests that take a host from [s] to DEL. *)
Definition path_to_del (s : scsi_host_state) : list scsi_host_state :=
  match s with
  | SHOST_CREATED | SHOST_RUNNING | SHOST_CANCEL_RECOVERY =>
      [SHOST_CANCEL; SHOST_DEL]
  | SHOST_RECOVERY => [SHOST_CANCEL_RECOVERY; SHOST_CANCEL; SHOST_DEL]
  | SHOST_CANCEL | SHOST_DEL_RECOVERY => [SHOST_DEL]
  | SHOST_DEL => []
  end.

(** ** Locks, read off the trace *)

Definition lock_ptr_eqb (a b : lock_ptr) : bool :=
  match a, b with
  | Default_lock, Default_lock => true
  | Driver_lock i, Driver_lock j => i =? j
  | _, _ => false
  end.

(** Lock bookkeeping: whether [scan_mutex] is held, and which spinlock
    if any.  Taking a lock while one is held, dropping a lock that is
    not the one held, sleeping ([mutex_lock], or any call into a
    collaborator) with a spinlock held, and forgetting the children
    without [scan_mutex] all break the discipline.  Logging a refused
    transition may happen anywhere. *)
Definition lock_step (st : bool * option lock_ptr) (e : event)
  : option (bool * option lock_ptr) :=
  let '(mutex, spin) := st in
  match e, spin with
  | Ev_mutex_lock_scan_mutex, None =>
      if mutex then None else Some (true, None)
  | Ev_mutex_unlock_scan_mutex, _ =>
      if mutex then Some (false, spin) else None
  | Ev_spin_lock_irqsave l, None => Some (mutex, Some l)
  | Ev_spin_unlock_irqrestore l, Some held =>
      if lock_ptr_eqb l held then Some (mutex, None) else None
  | Ev_illegal_transition _ _, _ => Some st
  | Ev_scsi_forget_host, None => if mutex then Some st else None
  | Ev_mutex_lock_scan_mutex, Some _
  | Ev_spin_lock_irqsave _, Some _
  | Ev_spin_unlock_irqrestore _, None
  | Ev_scsi_forget_host, Some _ => None
  | _, None => Some st
  | _, Some _ => None
  end.

Fixpoint check_locks (st : bool * option lock_ptr) (t : list event)
  : option (bool * option lock_ptr) :=
  match t with
  | [] => Some st
  | e :: t' =>
      match lock_step st e with
      | Some st' => check_locks st' t'
      | None => None
      end
  end.

(** The spinlock events of a trace all name [l]. *)
Definition names_lock (l : lock_ptr) (e : event) : bool :=
  match e with
  | Ev_spin_lock_irqsave l' | Ev_spin_unlock_irqrestore l' =>
      lock_ptr_eqb l' l
  | _ => true
  end.

(** Calls that neither touch a lock nor need one. *)
Definition is_plain (e : event) : bool :=
  match e with
  | Ev_mutex_lock_scan_mutex | Ev_mutex_unlock_scan_mutex
  | Ev_spin_lock_irqsave _ | Ev_spin_unlock_irqrestore _
  | Ev_scsi_forget_host => false
  | _ => true
  end.

(** A computation that returns and adds only calls satisfying [P] to the
    trace. *)
Definition emits (P : event -> bool) {A : Type} (c : M A) : Prop :=
  forall k, exists a k' new,
    c k = Done a k' /\ trace k' = trace k ++ new /\ forallb P new = true.

(** Several calls logged in a row. *)
Definition logs (es : list event) (k : kernel) : kernel :=
  fold_left (fun k' e => logged e k') es k.

(** The kernel [scsi_remove_host] has built when it reaches the
    unregistration of the devices (lines 161-180), by the state it
    started in. *)
Definition before_unregister (k : kernel) : kernel :=
  let lk := host_lock (shost k) in
  let enter := [Ev_mutex_lock_scan_mutex; Ev_spin_lock_irqsave lk] in
  let quiesce :=
    [Ev_spin_unlock_irqrestore lk; Ev_scsi_autopm_get_host;
     Ev_flush_workqueue (tmf_work_q (shost k)); Ev_scsi_forget_host;
     Ev_mutex_unlock_scan_mutex; Ev_scsi_proc_host_rm;
     Ev_spin_lock_irqsave lk] in
  match cur_state k with
  | SHOST_CREATED | SHOST_RUNNING | SHOST_CANCEL_RECOVERY =>
      logged (Ev_spin_unlock_irqrestore lk)
        (with_state SHOST_DEL
           (logs quiesce (with_state SHOST_CANCEL (logs enter k))))
  | SHOST_CANCEL =>
      logged (Ev_spin_unlock_irqrestore lk)
        (with_state SHOST_DEL (logs quiesce (logs enter k)))
  | SHOST_RECOVERY =>
      logged (Ev_spin_unlock_irqrestore lk)
        (with_state SHOST_DEL_RECOVERY
           (logs (quiesce
                  ++ [Ev_illegal_transition SHOST_CANCEL_RECOVERY SHOST_DEL])
              (with_state SHOST_CANCEL_RECOVERY
                 (logs (enter
                        ++ [Ev_illegal_transition SHOST_RECOVERY
                              SHOST_CANCEL])
                    k))))
  | _ => k
  end.

(** The kernel after a call of [scsi_remove_host] that gave up. *)
Definition after_refused_remove (k : kernel) : kernel :=
  let lk := host_lock (shost k) in
  logs [Ev_mutex_lock_scan_mutex; Ev_spin_lock_irqsave lk;
        Ev_illegal_transition (cur_state k) SHOST_CANCEL;
        Ev_illegal_transition (cur_state k) SHOST_CANCEL_RECOVERY;
        Ev_spin_unlock_irqrestore lk; Ev_mutex_unlock_scan_mutex] k.

(** ** The calls of the release callback *)

(** What [scsi_host_dev_release] calls for host [h], in order; each
    piece stands for one statement of the function. *)
Definition release_calls (h : Scsi_Host) : list event :=
  [Ev_scsi_proc_hostdir_rm]
  ++ match tmf_work_q h with
     | Some wq => [Ev_destroy_workqueue wq]
     | None => []
     end
  ++ match ehandler h with
     | Task_null => []
     | t => [Ev_kthread_stop t]
     end
  ++ match work_q h with
     | Some wq => [Ev_destroy_workqueue wq]
     | None => []
     end
  ++ match uspace_req_q h with
     | Some q => [Ev_blk_cleanup_queue; Ev_kfree (queuedata q)]
     | None => []
     end
  ++ (if state_is (shost_state h) SHOST_CREATED
      then [Ev_kfree_dev_name Shost_dev] else [])
  ++ [Ev_scsi_destroy_command_freelist]
  ++ (if use_blk_mq h
      then match tag_set_tags h with
           | Some _ => [Ev_scsi_mq_destroy_tags]
           | None => []
           end
      else match bqt h with
           | Some p => [Ev_blk_free_tags p]
           | None => []
           end)
  ++ [Ev_kfree (shost_data h)]
  ++ (if negb (state_is (shost_state h) SHOST_CREATED)
      then match dev_parent (shost_gendev h) with
           | Some p => [Ev_put_device p]
           | None => []
           end
      else [])
  ++ [Ev_kfree_shost].

Definition is_kfree_shost (e : event) : bool :=
  match e with
  | Ev_kfree_shost => true
  | _ => false
  end.

(** Kinds of calls, to pick them out of a trace. *)
Definition is_put_device (e : event) : bool :=
  match e with
  | Ev_put_device _ => true
  | _ => false
  end.

Definition is_kfree_dev_name (e : event) : bool :=
  match e with
  | Ev_kfree_dev_name _ => true
  | _ => false
  end.

Definition is_tag_release (e : event) : bool :=
  match e with
  | Ev_blk_free_tags _ | Ev_scsi_mq_destroy_tags => true
  | _ => false
  end.

Definition is_thread_or_queue_stop (e : event) : bool :=
  match e with
  | Ev_kthread_stop _ | Ev_destroy_workqueue _ => true
  | _ => false
  end.


(** ** Successive allocations *)

(** One request to [scsi_host_alloc]: what the allocators answer, the
    template and the private size. *)
Definition alloc_request : Type := (alloc_env * scsi_host_template * Z)%type.

(** Calls of [scsi_host_alloc] made one after the other, each starting
    from the globals the previous one left; the hosts returned, in
    order. *)
Fixpoint alloc_hosts (HZ : Z) (reqs : list alloc_request) (g : globals)
  : list Scsi_Host :=
  match reqs with
  | [] => []
  | (A, sht, privsize) :: rest =>
      match scsi_host_alloc HZ A g sht privsize with
      | (Some h, g', _) => h :: alloc_hosts HZ rest g'
      | (None, g', _) => alloc_hosts HZ rest g'
      end
  end.

(** The calls that give something back. *)
Definition is_release (e : event) : bool :=
  match e with
  | Ev_kfree_shost | Ev_kthread_stop _ | Ev_destroy_workqueue _
  | Ev_kfree _ | Ev_kfree_dev_name _ | Ev_put_device _
  | Ev_blk_free_tags _ | Ev_scsi_mq_destroy_tags
  | Ev_scsi_destroy_command_freelist | Ev_blk_cleanup_queue
  | Ev_device_del _ | Ev_device_unregister _
  | Ev_transport_unregister_device _
  | Ev_scsi_proc_host_rm | Ev_scsi_proc_hostdir_rm => true
  | _ => false
  end.

Definition is_hostdir_add (e : event) : bool :=
  match e with
  | Ev_scsi_proc_hostdir_add => true
  | _ => false
  end.

(** The host number [n] allocations after the counter read [c]. *)
Definition host_no_after (c n : Z) : Z := (to_uint c + n) mod 2 ^ 32.

(** ** The life of a host after allocation *)

(** A host as [scsi_host_alloc] leaves it, as far as publication, removal
    and release look at it.  A driver may have filled in the transport
    template and the limits since. *)
Definition as_allocated (h : Scsi_Host) : Prop :=
  shost_state h = SHOST_CREATED
  /\ dev_kref (shost_gendev h) = 1
  /\ dev_kref (shost_dev h) = 1
  /\ dev_parent (shost_gendev h) = None
  /\ bqt h = None /\ tag_set_tags h = None
  /\ shost_data h = None /\ work_q h = None /\ uspace_req_q h = None.

(** The parent handed to publication is not one of the host's own
    devices. *)
Definition external (d : option device_ptr) : Prop :=
  d <> Some Shost_gendev /\ d <> Some Shost_dev.

(** What a driver does with an allocated host: publish it and, if that
    worked, remove it later (lines 201-313 and 157-186) ... *)
Definition publish_and_remove (E : env) (dev dma_dev : option device_ptr)
  : M Z :=
  r <- scsi_add_host_with_dma E dev dma_dev ;;
  (if r =? 0 then scsi_remove_host else ret tt) ;;
  ret r.

(** ... and in either case give back the reference allocation gave it. *)
Definition host_life (E : env) (dev dma_dev : option device_ptr) : M Z :=
  r <- publish_and_remove E dev dma_dev ;;
  scsi_host_put ;;
  ret r.

(** The steps of publication in program order. *)
Definition step_index (s : publish_step) : nat :=
  match s with
  | Step_can_queue => 0
  | Step_tags => 1
  | Step_freelist => 2
  | Step_device_add_gendev => 3
  | Step_device_add_shost_dev => 4
  | Step_shost_data => 5
  | Step_work_queue => 6
  | Step_sysfs => 7
  end.

(** Whether a publication whose first failure is [ff] completed step
    [s]. *)
Definition got_past (s : publish_step) (ff : option publish_step) : bool :=
  match ff with
  | None => true
  | Some f => Nat.ltb (step_index s) (step_index f)
  end.

(** The parent publication settles on for a host without one. *)
Definition parent_of (dev : option device_ptr) : device_ptr :=
  match dev with
  | Some d => d
  | None => Platform_bus
  end.

(** The work queue publication creates for [h]. *)
Definition scsi_wq (h : Scsi_Host) : workqueue :=
  Wq ("scsi_wq_%d"%string, host_no h).

(** References on a device outside the host. *)
Definition is_parent_ref (e : event) : bool :=
  match e with
  | Ev_get_device Shost_gendev | Ev_get_device Shost_dev
  | Ev_put_device Shost_gendev | Ev_put_device Shost_dev => false
  | Ev_get_device _ | Ev_put_device _ => true
  | _ => false
  end.

Definition is_kfree (e : event) : bool :=
  match e with
  | Ev_kfree _ => true
  | _ => false
  end.

(** A kernel after publication, as far as removal and the release
    callback read the host, with the calls made so far of the kinds they
    make too and the resources in hand. *)
Record publish_summary : Type := {
  ps_ok : bool;
  ps_state : scsi_host_state;
  ps_krefg : Z;
  ps_krefd : Z;
  ps_freed : bool;
  ps_parent : option device_ptr;
  ps_work_q : option workqueue;
  ps_shost_data : option Z;
  ps_bqt : option Z;
  ps_tag_set_tags : option Z;
  ps_frees : list event;
  ps_parent_refs : list event;
  ps_tag_releases : list event;
  ps_stops : list event;
  ps_kfrees : list event;
  ps_acquired : list resource;
  ps_released : list resource
}.

Definition summary_of (r : Z) (k : kernel) : publish_summary :=
  {| ps_ok := r =? 0;
     ps_state := cur_state k;
     ps_krefg := krefg k;
     ps_krefd := dev_kref (shost_dev (shost k));
     ps_freed := shost_freed k;
     ps_parent := dev_parent (shost_gendev (shost k));
     ps_work_q := work_q (shost k);
     ps_shost_data := shost_data (shost k);
     ps_bqt := bqt (shost k);
     ps_tag_set_tags := tag_set_tags (shost k);
     ps_frees := filter is_kfree_shost (trace k);
     ps_parent_refs := filter is_parent_ref (trace k);
     ps_tag_releases := filter is_tag_release (trace k);
     ps_stops := filter is_thread_or_queue_stop (trace k);
     ps_kfrees := filter is_kfree (trace k);
     ps_acquired := acquired (trace k);
     ps_released := released (trace k) |}.

(** The transport data and the work queue a publication that got past the
    step has in hand. *)
Definition data_of (E : env) (h : Scsi_Host) (ff : option publish_step)
  : option Z :=
  if got_past Step_shost_data ff && negb (host_size (transportt h) =? 0)
  then kzalloc_res E else None.

Definition work_q_of (h : Scsi_Host) (ff : option publish_step)
  : option workqueue :=
  if got_past Step_work_queue ff && create_work_queue (transportt h)
  then Some (scsi_wq h) else None.

(** What publication has acquired when its first failure is [ff]. *)
Definition acquired_by (E : env) (h : Scsi_Host) (ff : option publish_step)
  : list resource :=
  (if got_past Step_tags ff then tags_acquired (use_blk_mq h) else [])
  ++ (if got_past Step_freelist ff then [Res_freelist] else [])
  ++ (if got_past Step_device_add_gendev ff
      then [Res_registration Shost_gendev] else [])
  ++ (if got_past Step_device_add_shost_dev ff
      then [Res_registration Shost_dev] else [])
  ++ memory_of (data_of E h ff)
  ++ workqueue_of (work_q_of h ff)
  ++ match ff with
     | None => [Res_sysfs; Res_proc]
     | Some _ => []
     end.

(** The summary worked out from the host before and the first failure
    of publication. *)
Definition expected_summary (E : env) (dev : option device_ptr)
    (h : Scsi_Host) : publish_summary :=
  let ff := first_failure E h in
  let running := got_past Step_device_add_gendev ff in
  {| ps_ok := match ff with
              | None => true
              | Some _ => false
              end;
     ps_state := if running then SHOST_RUNNING else SHOST_CREATED;
     ps_krefg := match ff with
                 | None => 2
                 | Some _ => 1
                 end;
     ps_krefd := match ff with
                 | None => 1
                 | Some _ => if running then 0 else 1
                 end;
     ps_freed := false;
     ps_parent := if got_past Step_freelist ff then Some (parent_of dev)
                  else None;
     ps_work_q := work_q_of h ff;
     ps_shost_data := data_of E h ff;
     ps_bqt := if (can_queue h =? 0) || use_blk_mq h then None
               else blk_init_tags_res E;
     ps_tag_set_tags := match ff with
                        | None => if use_blk_mq h
                                  then Some (scsi_mq_setup_tags_ptr E)
                                  else None
                        | Some _ => None
                        end;
     ps_frees := [];
     ps_parent_refs := if running then [Ev_get_device (parent_of dev)]
                       else [];
     ps_tag_releases := match ff with
                        | None => []
                        | Some _ => if got_past Step_tags ff && use_blk_mq h
                                    then [Ev_scsi_mq_destroy_tags] else []
                        end;
     ps_stops := match ff with
                 | Some Step_sysfs =>
                     if create_work_queue (transportt h)
                     then [Ev_destroy_workqueue (scsi_wq h)] else []
                 | _ => []
                 end;
     ps_kfrees := match ff with
                  | Some Step_work_queue | Some Step_sysfs =>
                      [Ev_kfree (data_of E h ff)]
                  | _ => []
                  end;
     ps_acquired := acquired_by E h ff;
     ps_released := match ff with
                    | None => []
                    | Some _ =>
                        rev (filter not_legacy_tags (acquired_by E h ff))
                    end |}.

(** The calls of [scsi_remove_host] on a published host, in order. *)
Definition remove_calls (h : Scsi_Host) : list event :=
  [ Ev_mutex_lock_scan_mutex;
    Ev_spin_lock_irqsave (host_lock h);
    Ev_spin_unlock_irqrestore (host_lock h);
    Ev_scsi_autopm_get_host;
    Ev_flush_workqueue (tmf_work_q h);
    Ev_scsi_forget_host;
    Ev_mutex_unlock_scan_mutex;
    Ev_scsi_proc_host_rm;
    Ev_spin_lock_irqsave (host_lock h);
    Ev_spin_unlock_irqrestore (host_lock h);
    Ev_transport_unregister_device Shost_gendev;
    Ev_device_unregister Shost_dev;
    Ev_device_del Shost_dev;
    Ev_put_device Shost_dev;
    Ev_put_device Shost_gendev;
    Ev_device_del Shost_gendev ].

(** The host the release callback finds at the end of [host_life]: the
    published one in DEL, or the one a failed publication left. *)
Definition released_host (r : Z) (k1 : kernel) : Scsi_Host :=
  if r =? 0 then set_shost_state SHOST_DEL (shost k1) else shost k1.

(** What the release callback gives back for the tags of [h]. *)
Definition tags_of (h : Scsi_Host) : list resource :=
  if use_blk_mq h
  then match tag_set_tags h with
       | Some _ => [Res_mq_tags]
       | None => []
       end
  else match bqt h with
       | Some _ => [Res_legacy_tags]
       | None => []
       end.

Definition not_sysfs (r : resource) : bool :=
  match r with
  | Res_sysfs => false
  | _ => true
  end.

Definition is_tags (r : resource) : bool :=
  match r with
  | Res_mq_tags | Res_legacy_tags => true
  | _ => false
  end.

(** What the release callback stops for [h] before it looks at the work
    queue of publication. *)
Definition early_stops (h : Scsi_Host) : list event :=
  match tmf_work_q h with
  | Some wq => [Ev_destroy_workqueue wq]
  | None => []
  end
  ++ match ehandler h with
     | Task_null => []
     | t => [Ev_kthread_stop t]
     end.

(** ** Looking a host up by number *)

(** The hosts registered with [shost_class], in the order of
    registration; each comes with the calls made on it so far.  A host
    pointer is a position in the class. *)
Definition class : Type := list kernel.

(** [__scsi_host_match]: the callback given to [class_find_device];
    [class_to_shost(dev)] is the host [dev] is embedded in. *)
Definition __scsi_host_match (h : Scsi_Host) (hostnum : Z) : bool :=
  host_no h =? hostnum.

(** The position of the first device of the class the callback
    accepts. *)
Fixpoint find_first (accepts : Scsi_Host -> bool) (cls : class)
  : option nat :=
  match cls with
  | [] => None
  | k :: rest =>
      if accepts (shost k) then Some O
      else option_map S (find_first accepts rest)
  end.

Fixpoint update (i : nat) (k' : kernel) (cls : class) : class :=
  match i, cls with
  | _, [] => []
  | O, _ :: rest => k' :: rest
  | S j, k :: rest => k :: update j k' rest
  end.

(** Run [c] on the [i]-th host of the class; [None] when there is no
    such host or [c] hits a [BUG_ON]. *)
Definition on_host {A : Type} (i : nat) (c : M A) (cls : class)
  : option (A * class) :=
  match nth_error cls i with
  | Some k =>
      match c k with
      | Done a k' => Some (a, update i k' cls)
      | Bug _ => None
      end
  | None => None
  end.

(** Modelled from the spec: [class_find_device] (drivers/base) walks the
    devices of the class and returns the first one the callback accepts,
    with a reference taken on it, or NULL. *)
Definition class_find_device (accepts : Scsi_Host -> bool) (cls : class)
  : option (option nat * class) :=
  match find_first accepts cls with
  | None => Some (None, cls)
  | Some i =>
      match on_host i (get_device Shost_dev) cls with
      | Some (_, cls') => Some (Some i, cls')
      | None => None
      end
  end.

(** [scsi_host_lookup]: get a reference to a Scsi_Host by host no.
    Returns the host or NULL, and the class afterwards. *)
Definition scsi_host_lookup (hostnum : Z) (cls : class)
  : option (option nat * class) :=
  match class_find_device (fun h => __scsi_host_match h hostnum) cls with
  | None => None
  | Some (None, cls1) => Some (None, cls1)
  | Some (Some cdev, cls1) =>
      match on_host cdev scsi_host_get cls1 with
      | None => None
      | Some (got, cls2) =>
          match on_host cdev (put_device Shost_dev) cls2 with
          | None => None
          | Some (_, cls3) => Some (if got then Some cdev else None, cls3)
          end
      end
  end.

(** The host a lookup found, afterwards: one more reference on
    [shost_gendev] unless the host is in DEL, and the calls made. *)
Definition looked_up (k : kernel) : kernel :=
  if state_is (cur_state k) SHOST_DEL then
    {| shost := shost k; shost_freed := shost_freed k;
       trace := trace k ++ [Ev_get_device Shost_dev;
                            Ev_put_device Shost_dev] |}
  else
    {| shost := set_shost_gendev
                  (set_dev_kref (krefg k + 1) (shost_gendev (shost k)))
                  (shost k);
       shost_freed := shost_freed k;
       trace := trace k ++ [Ev_get_device Shost_dev;
                            Ev_get_device Shost_gendev;
                            Ev_put_device Shost_dev] |}.

(* ================================================================== *)
(** * Properties *)

(** ** The state model *)

Lemma state_is_refl (s : scsi_host_state) : state_is s s = true.
Proof.
  unfold state_is. destruct (scsi_host_state_eq_dec s s); congruence.
Qed.

Lemma set_state_same (k : kernel) :
  scsi_host_set_state (shost_state (shost k)) k = Done 0 k.
Proof.
  unfold scsi_host_set_state, bind, get_shost.
  rewrite state_is_refl. reflexivity.
Qed.

Lemma allowed_spec (old target : scsi_host_state) :
  allowed old target = true <-> legal old target.
Proof.
  unfold listed.
  destruct old, target; vm_compute; split; intros H;
    try reflexivity; try discriminate; try tauto;
    try (destruct H as [H | H]; [discriminate H | ]);
    repeat (destruct H as [H | H]; [discriminate H | ]);
    try contradiction.
Qed.

(** What one call of [scsi_host_set_state] does, in closed form. *)
Lemma set_state_run (target : scsi_host_state) (k : kernel) :
  scsi_host_set_state target k =
  if state_is target (cur_state k) then Done 0 k
  else if allowed (cur_state k) target then Done 0 (with_state target k)
  else Done (- EINVAL) (logged (Ev_illegal_transition (cur_state k) target) k).
Proof.
  destruct k as [h f t]. unfold cur_state. cbn [shost].
  unfold scsi_host_set_state, bind, get_shost. cbn [shost].
  destruct (shost_state h), target; reflexivity.
Qed.

Lemma state_is_true (a b : scsi_host_state) : state_is a b = true <-> a = b.
Proof.
  unfold state_is. destruct (scsi_host_state_eq_dec a b); split;
    congruence.
Qed.

Lemma allowed_same (s : scsi_host_state) : allowed s s = true.
Proof. destruct s; reflexivity. Qed.

(** C1.  [scsi_host_set_state] returns 0 with the state equal to the
    target exactly when the target is the current state or the pair is in
    the transition table; for every other pair it returns [-EINVAL], logs
    the pair and leaves the host untouched.  No other state can be set to
    CREATED, and setting a state to itself is a no-op in every state. *)
Theorem scsi_host_set_state_table (k : kernel) (target : scsi_host_state) :
  ((exists k', scsi_host_set_state target k = Done 0 k'
               /\ cur_state k' = target)
   <-> legal (cur_state k) target)
  /\ (~ legal (cur_state k) target ->
      scsi_host_set_state target k =
        Done (- EINVAL)
             (logged (Ev_illegal_transition (cur_state k) target) k)
      /\ cur_state (logged (Ev_illegal_transition (cur_state k) target) k)
         = cur_state k)
  /\ (target = SHOST_CREATED -> cur_state k <> SHOST_CREATED ->
      returned (scsi_host_set_state target k) = Some (- EINVAL))
  /\ scsi_host_set_state (cur_state k) k = Done 0 k.
Proof.
  rewrite <- allowed_spec.
  pose proof (set_state_run target k) as Hrun.
  repeat split.
  - intros (k' & Hk' & _). rewrite Hrun in Hk'.
    destruct (state_is target (cur_state k)) eqn:Hsame.
    + apply state_is_true in Hsame. rewrite Hsame. apply allowed_same.
    + destruct (allowed (cur_state k) target); [reflexivity | ].
      discriminate Hk'.
  - intros Hall. rewrite Hrun.
    destruct (state_is target (cur_state k)) eqn:Hsame.
    + exists k. split; [reflexivity | ].
      apply state_is_true in Hsame. congruence.
    + rewrite Hall. exists (with_state target k). split; reflexivity.
  - rewrite Hrun.
    destruct (state_is target (cur_state k)) eqn:Hsame.
    + exfalso. apply H. apply state_is_true in Hsame. rewrite Hsame.
      apply allowed_same.
    + destruct (allowed (cur_state k) target); [exfalso; auto | reflexivity].
  - intros -> Hne. rewrite Hrun.
    destruct (cur_state k); try reflexivity. congruence.
  - apply set_state_same.
Qed.

(** C10.  [scsi_host_set_state] writes no member of the host other than
    [shost_state]: the host afterwards is the host before with at most
    that member replaced, and when the call fails the host is the very
    same record.  The host's memory is not released either. *)
Theorem scsi_host_set_state_frame (k : kernel) (target : scsi_host_state) :
  exists r k',
    scsi_host_set_state target k = Done r k'
    /\ (shost k' = shost k \/ shost k' = set_shost_state target (shost k))
    /\ (r <> 0 -> shost k' = shost k)
    /\ shost_freed k' = shost_freed k.
Proof.
  rewrite set_state_run.
  destruct (state_is target (cur_state k)).
  - exists 0, k. auto.
  - destruct (allowed (cur_state k) target).
    + exists 0, (with_state target k). cbn. split; [reflexivity | ].
      split; [now right | ]. split; [congruence | reflexivity].
    + eexists _, _. split; [reflexivity | ]. cbn. auto.
Qed.

(** ** Computations that leave the state alone *)

Lemma preserves_ret {A : Type} (a : A) : preserves_state (ret a).
Proof. intros k. exists a, k. split; reflexivity. Qed.

Lemma preserves_emit (e : event) : preserves_state (emit e).
Proof. intros k. eexists _, _. split; reflexivity. Qed.

Lemma preserves_get_shost : preserves_state get_shost.
Proof. intros k. eexists _, _. split; reflexivity. Qed.

Lemma preserves_bind {A B : Type} (c : M A) (f : A -> M B) :
  preserves_state c -> (forall a, preserves_state (f a)) ->
  preserves_state (bind c f).
Proof.
  intros Hc Hf k. destruct (Hc k) as (a & k1 & Hrun & Hst).
  destruct (Hf a k1) as (b & k2 & Hrun2 & Hst2).
  exists b, k2. unfold bind. rewrite Hrun, Hrun2. split; congruence.
Qed.

Lemma preserves_when (b : bool) (c : M unit) :
  preserves_state c -> preserves_state (when b c).
Proof. destruct b; [trivial | intros _; apply preserves_ret]. Qed.

Lemma preserves_modify (f : Scsi_Host -> Scsi_Host) :
  (forall h, shost_state (f h) = shost_state h) ->
  preserves_state (modify_shost f).
Proof.
  intros Hf k. eexists _, _. split; [reflexivity | ]. apply Hf.
Qed.

Lemma preserves_modify_gendev (f : device -> device) :
  preserves_state (modify_gendev f).
Proof. apply preserves_modify. reflexivity. Qed.

Lemma preserves_modify_shost_dev (f : device -> device) :
  preserves_state (modify_shost_dev f).
Proof. apply preserves_modify. reflexivity. Qed.

Create HintDb frame discriminated.
#[local] Hint Resolve preserves_ret preserves_emit preserves_get_shost
  preserves_when preserves_modify_gendev preserves_modify_shost_dev : frame.

Ltac frame_step :=
  first [ solve [ auto with frame ]
        | apply preserves_when
        | apply preserves_modify; reflexivity
        | apply preserves_bind; [ | intros ? ]
        | match goal with
          | |- preserves_state (match ?x with _ => _ end) => destruct x
          end ].

Ltac frame := repeat frame_step.

Lemma preserves_scsi_mq_destroy_tags : preserves_state scsi_mq_destroy_tags.
Proof. unfold scsi_mq_destroy_tags. frame. Qed.

Lemma preserves_kfree_shost : preserves_state kfree_shost.
Proof.
  unfold kfree_shost. apply preserves_bind; [apply preserves_emit | ].
  intros _ k. eexists _, _. split; reflexivity.
Qed.

#[local] Hint Resolve preserves_scsi_mq_destroy_tags preserves_kfree_shost
  : frame.

Lemma preserves_scsi_host_dev_release : preserves_state scsi_host_dev_release.
Proof.
  unfold scsi_host_dev_release, kfree, destroy_workqueue,
    scsi_destroy_command_freelist, put_device_other.
  frame.
Qed.

Lemma preserves_put_device_gendev : preserves_state put_device_gendev.
Proof.
  unfold put_device_gendev. pose proof preserves_scsi_host_dev_release.
  frame.
Qed.

Lemma preserves_put_device (d : device_ptr) : preserves_state (put_device d).
Proof.
  pose proof preserves_put_device_gendev.
  destruct d; cbn [put_device]; trivial;
    unfold put_device_other, put_device_shost_dev, scsi_host_cls_release;
    frame.
Qed.

Lemma preserves_get_device (d : device_ptr) : preserves_state (get_device d).
Proof. unfold get_device. frame. Qed.

Lemma preserves_device_del (d : device_ptr) : preserves_state (device_del d).
Proof. unfold device_del. frame. Qed.

#[local] Hint Resolve preserves_put_device preserves_get_device
  preserves_device_del : frame.

Lemma preserves_quiesce : preserves_state scsi_remove_host_quiesce.
Proof. unfold scsi_remove_host_quiesce. frame. Qed.

Lemma preserves_unregister : preserves_state scsi_remove_host_unregister.
Proof. unfold scsi_remove_host_unregister, device_unregister. frame. Qed.

(** ** Removal *)

Lemma listed_allowed (s s' : scsi_host_state) :
  listed s s' -> allowed s s' = true.
Proof. intros H. apply allowed_spec. right. exact H. Qed.

Lemma removing_step (s s' : scsi_host_state) :
  removing s = true -> listed s s' -> removing s' = true.
Proof.
  intros Hs Hl. apply listed_allowed in Hl.
  destruct s, s'; try reflexivity; try discriminate Hs; discriminate Hl.
Qed.

Lemma removing_closed (s s' : scsi_host_state) :
  clos_refl_trans scsi_host_state listed s s' ->
  removing s = true -> removing s' = true.
Proof.
  induction 1 as [s s' Hl | s | s m s' _ IH1 _ IH2]; intros Hs.
  - exact (removing_step s s' Hs Hl).
  - exact Hs.
  - auto.
Qed.

(** Requests made through [scsi_host_set_state] follow the state model,
    whatever the target. *)
Lemma set_state_follows_model (target : scsi_host_state) :
  follows_state_model (scsi_host_set_state target ;; ret tt).
Proof.
  intros k. unfold bind. rewrite set_state_run.
  destruct (state_is target (cur_state k)) eqn:Hsame.
  - exists k. split; [reflexivity | apply rt_refl].
  - destruct (allowed (cur_state k) target) eqn:Hall.
    + exists (with_state target k). split; [reflexivity | ].
      apply allowed_spec in Hall. destruct Hall as [Heq | Hl].
      * rewrite Heq, state_is_refl in Hsame. discriminate Hsame.
      * apply rt_step. exact Hl.
    + eexists. split; [reflexivity | apply rt_refl].
Qed.

(** The first locked section, by current state. *)
Lemma remove_begin_run (k : kernel) :
  let lk := host_lock (shost k) in
  let k0 := logged (Ev_spin_lock_irqsave lk)
              (logged Ev_mutex_lock_scan_mutex k) in
  scsi_remove_host_begin k =
  match cur_state k with
  | SHOST_CREATED | SHOST_RUNNING | SHOST_CANCEL_RECOVERY =>
      Done true
        (logged (Ev_spin_unlock_irqrestore lk) (with_state SHOST_CANCEL k0))
  | SHOST_CANCEL =>
      Done true (logged (Ev_spin_unlock_irqrestore lk) k0)
  | SHOST_RECOVERY =>
      Done true
        (logged (Ev_spin_unlock_irqrestore lk)
           (with_state SHOST_CANCEL_RECOVERY
              (logged (Ev_illegal_transition SHOST_RECOVERY SHOST_CANCEL)
                 k0)))
  | s =>
      Done false
        (logged Ev_mutex_unlock_scan_mutex
           (logged (Ev_spin_unlock_irqrestore lk)
              (logged (Ev_illegal_transition s SHOST_CANCEL_RECOVERY)
                 (logged (Ev_illegal_transition s SHOST_CANCEL) k0))))
  end.
Proof.
  destruct k as [h f t]. unfold cur_state. cbn [shost].
  destruct h. cbn [shost_state host_lock].
  match goal with |- context [match ?s with _ => _ end] => destruct s end;
    reflexivity.
Qed.

Lemma remove_begin_moves (k : kernel) :
  exists go k1,
    scsi_remove_host_begin k = Done go k1
    /\ (go = true ->
        cur_state k1 = SHOST_CANCEL \/ cur_state k1 = SHOST_CANCEL_RECOVERY)
    /\ (go = false -> cur_state k1 = cur_state k).
Proof.
  pose proof (remove_begin_run k) as Hrun. cbv zeta in Hrun.
  destruct (cur_state k) eqn:Hs; eexists _, _;
    (split; [exact Hrun | ]); split; intros Hgo; try discriminate Hgo;
    unfold cur_state in *; cbn; auto.
Qed.

(** The second locked section never reaches [BUG()] from a state of the
    removal branch. *)
Lemma remove_delete_succeeds (k : kernel) :
  removing (cur_state k) = true ->
  exists k',
    scsi_remove_host_delete k = Done tt k'
    /\ (cur_state k' = SHOST_DEL \/ cur_state k' = SHOST_DEL_RECOVERY).
Proof.
  destruct k as [h f t]. unfold cur_state. cbn [shost].
  destruct h. cbn [shost_state]. intros Hs.
  match goal with H : removing ?s = true |- _ => destruct s end;
    try discriminate Hs; eexists; (split; [reflexivity | ]); cbn; auto.
Qed.

Lemma remove_with_unfold (others : M unit) (k : kernel) :
  scsi_remove_host_with others k =
  match scsi_remove_host_begin k with
  | Done true k1 =>
      (scsi_remove_host_quiesce ;; others ;; scsi_remove_host_delete ;;
       scsi_remove_host_unregister) k1
  | Done false k1 => Done tt k1
  | Bug k1 => Bug k1
  end.
Proof.
  unfold scsi_remove_host_with. unfold bind at 1.
  destruct (scsi_remove_host_begin k) as [[|] k1 | k1]; reflexivity.
Qed.

(** C4.  [scsi_remove_host] next to other threads that change the state
    only along listed transitions while the host lock is dropped: when the
    first locked section proceeds it has put the host in CANCEL or
    CANCEL_RECOVERY, the whole call then returns without reaching the
    [BUG_ON], and the host ends in DEL or DEL_RECOVERY; when the first
    section gives up the call returns at once. *)
Theorem scsi_remove_host_never_bugs (others : M unit) (k : kernel) :
  follows_state_model others ->
  exists go k1,
    scsi_remove_host_begin k = Done go k1
    /\ if go then
         (cur_state k1 = SHOST_CANCEL \/ cur_state k1 = SHOST_CANCEL_RECOVERY)
         /\ exists k',
              scsi_remove_host_with others k = Done tt k'
              /\ (cur_state k' = SHOST_DEL
                  \/ cur_state k' = SHOST_DEL_RECOVERY)
       else scsi_remove_host_with others k = Done tt k1.
Proof.
  intros Hothers.
  destruct (remove_begin_moves k) as (go & k1 & Hbegin & Htrue & _).
  exists go, k1. split; [exact Hbegin | ].
  rewrite remove_with_unfold, Hbegin.
  destruct go; [ | reflexivity].
  specialize (Htrue eq_refl). split; [exact Htrue | ].
  destruct (preserves_quiesce k1) as (u1 & k2 & Hq & Hs2).
  destruct (Hothers k2) as (k3 & Ho & Hs3).
  assert (Hrem : removing (cur_state k3) = true).
  { apply (removing_closed _ _ Hs3). rewrite Hs2.
    destruct Htrue as [-> | ->]; reflexivity. }
  destruct (remove_delete_succeeds k3 Hrem) as (k4 & Hd & Hs4).
  destruct (preserves_unregister k4) as (u5 & k5 & Hu & Hs5).
  exists k5. unfold bind. rewrite Hq, Ho, Hd, Hu. destruct u5.
  split; [reflexivity | ]. rewrite Hs5. exact Hs4.
Qed.

(** A published host, and another thread that asks for CANCEL_RECOVERY
    between the two locked sections. *)
Lemma scsi_remove_host_never_bugs_witness :
  exists go k1,
    scsi_remove_host_begin published = Done go k1
    /\ if go then
         (cur_state k1 = SHOST_CANCEL \/ cur_state k1 = SHOST_CANCEL_RECOVERY)
         /\ exists k',
              scsi_remove_host_with
                (scsi_host_set_state SHOST_CANCEL_RECOVERY ;; ret tt)
                published = Done tt k'
              /\ (cur_state k' = SHOST_DEL
                  \/ cur_state k' = SHOST_DEL_RECOVERY)
       else scsi_remove_host_with
              (scsi_host_set_state SHOST_CANCEL_RECOVERY ;; ret tt)
              published = Done tt k1.
Proof.
  apply (scsi_remove_host_never_bugs
           (scsi_host_set_state SHOST_CANCEL_RECOVERY ;; ret tt) published).
  apply set_state_follows_model.
Defined.

(** Publication and removal of [sample_host], by running the model: the
    host goes RUNNING, then DEL, and keeps the caller's reference; with
    the other thread of the lemma above it ends in DEL_RECOVERY. *)
Example publish_then_remove :
  cur_state published = SHOST_RUNNING
  /\ cur_state removed = SHOST_DEL
  /\ krefg removed = 1
  /\ shost_freed removed = false
  /\ cur_state
       (final_kernel
          (scsi_remove_host_with
             (scsi_host_set_state SHOST_CANCEL_RECOVERY ;; ret tt)
             published))
     = SHOST_DEL_RECOVERY.
Proof. repeat split; vm_compute; reflexivity. Qed.

Lemma not_removable (s : scsi_host_state) :
  ~ legal s SHOST_CANCEL -> ~ legal s SHOST_CANCEL_RECOVERY ->
  s = SHOST_DEL \/ s = SHOST_DEL_RECOVERY.
Proof.
  rewrite <- !allowed_spec.
  destruct s; vm_compute; intros H1 H2; auto; exfalso; auto.
Qed.

(** C6.  When neither CANCEL nor CANCEL_RECOVERY may be requested from the
    current state, which then is DEL or DEL_RECOVERY, [scsi_remove_host]
    returns normally after taking and dropping its two locks: the host
    record is untouched, its memory is not released, and the only calls
    made are the lock operations and the two refused requests; no
    teardown call is among them. *)
Theorem scsi_remove_host_idempotent (k : kernel) :
  ~ legal (cur_state k) SHOST_CANCEL ->
  ~ legal (cur_state k) SHOST_CANCEL_RECOVERY ->
  exists k' new,
    scsi_remove_host k = Done tt k'
    /\ shost k' = shost k
    /\ shost_freed k' = shost_freed k
    /\ trace k' = trace k ++ new
    /\ new = [ Ev_mutex_lock_scan_mutex;
               Ev_spin_lock_irqsave (host_lock (shost k));
               Ev_illegal_transition (cur_state k) SHOST_CANCEL;
               Ev_illegal_transition (cur_state k) SHOST_CANCEL_RECOVERY;
               Ev_spin_unlock_irqrestore (host_lock (shost k));
               Ev_mutex_unlock_scan_mutex ]
    /\ existsb is_teardown new = false
    /\ (cur_state k = SHOST_DEL \/ cur_state k = SHOST_DEL_RECOVERY).
Proof.
  intros H1 H2. pose proof (not_removable _ H1 H2) as Hs.
  pose proof (remove_begin_run k) as Hrun. cbv zeta in Hrun.
  unfold scsi_remove_host. rewrite remove_with_unfold.
  destruct Hs as [Hs | Hs]; rewrite Hs in *; rewrite Hrun;
    eexists _, _; (split; [reflexivity | ]); cbn;
    rewrite <- ?app_assoc; cbn; repeat split; auto.
Qed.

(** [scsi_remove_host] called a second time on the published host. *)
Lemma scsi_remove_host_idempotent_witness :
  exists k' new,
    scsi_remove_host removed = Done tt k'
    /\ shost k' = shost removed
    /\ shost_freed k' = shost_freed removed
    /\ trace k' = trace removed ++ new
    /\ new = [ Ev_mutex_lock_scan_mutex;
               Ev_spin_lock_irqsave (host_lock (shost removed));
               Ev_illegal_transition (cur_state removed) SHOST_CANCEL;
               Ev_illegal_transition (cur_state removed)
                 SHOST_CANCEL_RECOVERY;
               Ev_spin_unlock_irqrestore (host_lock (shost removed));
               Ev_mutex_unlock_scan_mutex ]
    /\ existsb is_teardown new = false
    /\ (cur_state removed = SHOST_DEL
        \/ cur_state removed = SHOST_DEL_RECOVERY).
Proof.
  apply (scsi_remove_host_idempotent removed);
    rewrite <- allowed_spec; vm_compute; discriminate.
Defined.

(** ** References *)

(** C5.  On a host in DEL [scsi_host_get] returns NULL and changes
    nothing, the reference count included; in every other state it takes
    one reference on [shost_gendev], changes no other member, and returns
    the host. *)
Theorem scsi_host_get_refuses_deleted (k : kernel) :
  (cur_state k = SHOST_DEL -> scsi_host_get k = Done false k)
  /\ (cur_state k <> SHOST_DEL ->
      exists k',
        scsi_host_get k = Done true k'
        /\ dev_kref (shost_gendev (shost k'))
           = dev_kref (shost_gendev (shost k)) + 1
        /\ shost k'
           = set_shost_gendev
               (set_dev_kref (dev_kref (shost_gendev (shost k)) + 1)
                  (shost_gendev (shost k)))
               (shost k)
        /\ shost_freed k' = shost_freed k
        /\ trace k' = trace k ++ [Ev_get_device Shost_gendev]).
Proof.
  destruct k as [h f t]. unfold cur_state, scsi_host_get, bind, get_shost.
  cbn [shost]. split; intros Hs.
  - rewrite Hs. reflexivity.
  - destruct (state_is (shost_state h) SHOST_DEL) eqn:Hdel.
    + apply state_is_true in Hdel. contradiction.
    + eexists. split; [reflexivity | ]. cbn. auto.
Qed.

(** ** Work queue *)

(** C8.  Without a work queue [scsi_queue_work] returns [-EINVAL] and
    [scsi_flush_work] returns; each only prints its complaint and dumps the
    stack, so nothing is queued and nothing is flushed, and the host is
    untouched. *)
Theorem work_queue_not_configured (E : env) (work : Z) (k : kernel) :
  work_q (shost k) = None ->
  scsi_queue_work E work k
  = Done (- EINVAL)
      (logged Ev_dump_stack
         (logged
            (Ev_shost_printk KERN_ERR
               "ERROR: Scsi host '%s' attempted to queue scsi-work, when no workqueue created.")
            k))
  /\ scsi_flush_work k
     = Done tt
         (logged Ev_dump_stack
            (logged
               (Ev_shost_printk KERN_ERR
                  "ERROR: Scsi host '%s' attempted to flush scsi-work, when no workqueue created.")
               k)).
Proof.
  intros Hq. unfold scsi_queue_work, scsi_flush_work, bind, get_shost.
  rewrite Hq. split; reflexivity.
Qed.

Lemma work_queue_not_configured_witness :
  returned (scsi_queue_work sample_env 1 (boot sample_host))
  = Some (- EINVAL)
  /\ trace (final_kernel (scsi_flush_work (boot sample_host)))
     = [ Ev_shost_printk KERN_ERR
           "ERROR: Scsi host '%s' attempted to flush scsi-work, when no workqueue created.";
         Ev_dump_stack ].
Proof.
  destruct (work_queue_not_configured sample_env 1 (boot sample_host)
              eq_refl) as [Hq Hf].
  rewrite Hq, Hf. split; reflexivity.
Defined.

(** With a work queue both functions reach the queue. *)
Example work_queue_configured :
  let k := boot (set_work_q (Some (Wq ("scsi_wq_%d"%string, 0))) sample_host) in
  returned (scsi_queue_work sample_env 1 k) = Some 1
  /\ trace (final_kernel (scsi_flush_work k))
     = [Ev_flush_workqueue (Some (Wq ("scsi_wq_%d"%string, 0)))].
Proof. split; reflexivity. Qed.

(** ** Publication: the queue-depth check *)

(** C7.  A host whose [can_queue] is zero is turned away by
    [scsi_add_host_with_dma] with [-EINVAL] after two messages: no
    collaborator is asked for anything, the host record (its state
    included) is untouched.  [scsi_host_alloc] copies a zero [can_queue]
    from the template without complaint, so the refusal is met at
    publication only. *)
Theorem can_queue_zero_rejected_at_publish
    (E : env) (dev dma_dev : option device_ptr) :
  (forall k, can_queue (shost k) = 0 ->
     exists k' new,
       scsi_add_host_with_dma E dev dma_dev k = Done (- EINVAL) k'
       /\ shost k' = shost k
       /\ shost_freed k' = shost_freed k
       /\ trace k' = trace k ++ new
       /\ acquired new = []
       /\ new = [ Ev_shost_printk KERN_INFO
                    match sht_info (hostt (shost k)) with
                    | Some s => s
                    | None => sht_name (hostt (shost k))
                    end;
                  Ev_shost_printk KERN_ERR
                    "can_queue = 0 no longer supported" ])
  /\ (forall HZ A g sht privsize,
        sht_can_queue sht = 0 ->
        kzalloc_shost_ok A = true ->
        kthread_run_err A = None ->
        alloc_workqueue_ok A = true ->
        exists h g' t,
          scsi_host_alloc HZ A g sht privsize = (Some h, g', t)
          /\ can_queue h = 0
          /\ shost_state h = SHOST_CREATED
          /\ exists k',
               scsi_add_host_with_dma E dev dma_dev (boot h)
                 = Done (- EINVAL) k'
               /\ cur_state k' = SHOST_CREATED).
Proof.
  assert (Hpub : forall k, can_queue (shost k) = 0 ->
            scsi_add_host_with_dma E dev dma_dev k
            = Done (- EINVAL)
                (logged (Ev_shost_printk KERN_ERR
                           "can_queue = 0 no longer supported")
                   (logged (Ev_shost_printk KERN_INFO
                              match sht_info (hostt (shost k)) with
                              | Some s => s
                              | None => sht_name (hostt (shost k))
                              end) k))).
  { intros k Hcq. unfold scsi_add_host_with_dma, bind, get_shost, emit.
    cbn [shost]. rewrite Hcq. reflexivity. }
  split.
  - intros k Hcq. eexists _, _. split; [apply Hpub, Hcq | ].
    cbn. rewrite <- app_assoc. repeat split; reflexivity.
  - intros HZ A g sht privsize Hcq Hk Ht Hw.
    unfold scsi_host_alloc. rewrite Hk, Ht, Hw. cbn [negb].
    destruct (eh_deadline_init HZ (shost_eh_deadline g) sht) as [d w].
    eexists _, _, _. split; [reflexivity | ].
    split; [exact Hcq | ]. split; [reflexivity | ].
    eexists. split; [apply Hpub; exact Hcq | reflexivity].
Qed.

Example can_queue_zero_run :
  let sht := {| sht_name := "zero"; sht_info := None; sht_detect := false;
                sht_this_id := 7; sht_can_queue := 0;
                sht_sg_tablesize := 128; sht_sg_prot_tablesize := 0;
                sht_cmd_per_lun := 1; sht_unchecked_isa_dma := false;
                sht_use_clustering := true; sht_no_write_same := false;
                sht_eh_host_reset_handler := true;
                sht_supported_mode := MODE_UNKNOWN;
                sht_max_host_blocked := 0; sht_max_sectors := 0;
                sht_dma_boundary := 0; sht_disable_blk_mq := false;
                sht_tag_alloc_policy := 0 |} in
  match scsi_host_alloc 250 sample_alloc_env sample_globals sht 0 with
  | (Some h, _, _) =>
      returned (scsi_add_host_with_dma sample_env None None (boot h))
      = Some (- EINVAL)
  | _ => False
  end.
Proof. vm_compute. reflexivity. Qed.

(** ** Allocation: the error-handler deadline *)

Lemma to_ulong_small (x : Z) : 0 <= x < ULONG_MODULUS -> to_ulong x = x.
Proof. intros H. unfold to_ulong. apply Z.mod_small. exact H. Qed.

Lemma to_ulong_negative (x : Z) :
  - ULONG_MODULUS <= x < 0 -> to_ulong x = x + ULONG_MODULUS.
Proof.
  intros H. unfold to_ulong. symmetry.
  apply (Z.mod_unique x ULONG_MODULUS (-1)); unfold ULONG_MODULUS in *; lia.
Qed.

Lemma to_int_small (x : Z) : INT_MIN <= x <= INT_MAX -> to_int x = x.
Proof.
  intros H. unfold to_int, INT_MIN, INT_MAX in *.
  rewrite Z.mod_small; lia.
Qed.

(** The unsigned product the code compares with [INT_MAX]. *)
Lemma ulong_product (HZ d : Z) :
  0 < HZ <= INT_MAX -> INT_MIN <= d <= INT_MAX ->
  to_ulong (to_ulong d * to_ulong HZ)
  = if d <? 0 then d * HZ + ULONG_MODULUS else d * HZ.
Proof.
  intros HHZ Hd. unfold INT_MIN, INT_MAX in *.
  rewrite (to_ulong_small HZ) by (unfold ULONG_MODULUS; lia).
  destruct (Z.ltb_spec d 0) as [Hneg | Hpos].
  - rewrite (to_ulong_negative d) by (unfold ULONG_MODULUS; lia).
    unfold to_ulong. symmetry.
    apply (Z.mod_unique _ ULONG_MODULUS (HZ - 1));
      unfold ULONG_MODULUS in *; nia.
  - rewrite (to_ulong_small d) by (unfold ULONG_MODULUS; lia).
    apply to_ulong_small. unfold ULONG_MODULUS. nia.
Qed.

(** Lines 442-450 in terms of the signed setting. *)
Lemma eh_deadline_init_cases (HZ d : Z) (sht : scsi_host_template) :
  0 < HZ <= INT_MAX -> INT_MIN <= d <= INT_MAX ->
  eh_deadline_init HZ d sht
  = if (d =? -1) || negb (sht_eh_host_reset_handler sht) then (-1, [])
    else if (d <? 0) || (d * HZ >? INT_MAX)
         then (INT_MAX, [eh_deadline_warning])
         else (d * HZ, []).
Proof.
  intros HHZ Hd. unfold eh_deadline_init.
  destruct ((d =? -1) || negb (sht_eh_host_reset_handler sht));
    [reflexivity | ].
  rewrite (ulong_product HZ d HHZ Hd).
  unfold INT_MIN, INT_MAX, ULONG_MODULUS in *.
  destruct (Z.ltb_spec d 0) as [Hneg | Hpos]; cbn [orb].
  - destruct (Z.gtb_spec (d * HZ + 2 ^ 64) 2147483647) as [_ | Hle];
      [reflexivity | nia].
  - destruct (Z.gtb_spec (d * HZ) 2147483647) as [_ | Hle];
      [reflexivity | ].
    rewrite to_int_small; [reflexivity | unfold INT_MIN, INT_MAX; nia].
Qed.

Lemma alloc_succeeds (HZ : Z) (A : alloc_env) (g : globals)
    (sht : scsi_host_template) (privsize : Z) :
  kzalloc_shost_ok A = true ->
  kthread_run_err A = None ->
  alloc_workqueue_ok A = true ->
  exists h g' t,
    scsi_host_alloc HZ A g sht privsize = (Some h, g', t)
    /\ shost_state h = SHOST_CREATED
    /\ can_queue h = sht_can_queue sht
    /\ eh_deadline h = fst (eh_deadline_init HZ (shost_eh_deadline g) sht)
    /\ (In eh_deadline_warning t
        <-> In eh_deadline_warning
              (snd (eh_deadline_init HZ (shost_eh_deadline g) sht))).
Proof.
  intros Hk Ht Hw. unfold scsi_host_alloc. rewrite Hk, Ht, Hw. cbn [negb].
  destruct (eh_deadline_init HZ (shost_eh_deadline g) sht) as [d w].
  eexists _, _, _. split; [reflexivity | ]. repeat split.
  - cbn [fst snd]. intros Hin.
    apply in_app_or in Hin. destruct Hin as [Hin | Hin].
    + apply in_app_or in Hin. destruct Hin as [Hin | Hin].
      * destruct Hin as [Hin | []]. discriminate Hin.
      * apply in_app_or in Hin. destruct Hin as [Hin | Hin]; [exact Hin | ].
        destruct Hin as [Hin | []]. discriminate Hin.
    + destruct Hin as [Hin | [Hin | []]]; discriminate Hin.
  - cbn [fst snd]. intros Hin. apply in_or_app. left.
    apply in_or_app. right. apply in_or_app. left. exact Hin.
Qed.

(** C9, as amended.  When the allocators succeed, the new host's deadline
    is: -1 when the setting is -1 or the template has no host-reset
    handler; otherwise [INT_MAX], with the warning printed, when the
    setting is negative or seconds times the tick rate exceeds [INT_MAX];
    otherwise exactly seconds times the tick rate, without warning. *)
Theorem eh_deadline_at_alloc (HZ : Z) (A : alloc_env) (g : globals)
    (sht : scsi_host_template) (privsize : Z) :
  0 < HZ <= INT_MAX ->
  INT_MIN <= shost_eh_deadline g <= INT_MAX ->
  kzalloc_shost_ok A = true ->
  kthread_run_err A = None ->
  alloc_workqueue_ok A = true ->
  exists h g' t,
    scsi_host_alloc HZ A g sht privsize = (Some h, g', t)
    /\ (shost_eh_deadline g = -1 \/ sht_eh_host_reset_handler sht = false ->
        eh_deadline h = -1 /\ ~ In eh_deadline_warning t)
    /\ (shost_eh_deadline g <> -1 -> sht_eh_host_reset_handler sht = true ->
        shost_eh_deadline g < 0 \/ shost_eh_deadline g * HZ > INT_MAX ->
        eh_deadline h = INT_MAX /\ In eh_deadline_warning t)
    /\ (shost_eh_deadline g <> -1 -> sht_eh_host_reset_handler sht = true ->
        0 <= shost_eh_deadline g -> shost_eh_deadline g * HZ <= INT_MAX ->
        eh_deadline h = shost_eh_deadline g * HZ
        /\ ~ In eh_deadline_warning t).
Proof.
  intros HHZ Hd Hk Ht Hw.
  destruct (alloc_succeeds HZ A g sht privsize Hk Ht Hw)
    as (h & g' & t & Hrun & _ & _ & Hdl & Hwarn).
  exists h, g', t. split; [exact Hrun | ].
  rewrite Hdl, Hwarn. rewrite (eh_deadline_init_cases HZ _ sht HHZ Hd).
  set (d := shost_eh_deadline g) in *.
  repeat split.
  - assert (Hc : (d =? -1) || negb (sht_eh_host_reset_handler sht) = true).
    { destruct H as [-> | ->]; [reflexivity | apply orb_true_r]. }
    rewrite Hc. reflexivity.
  - assert (Hc : (d =? -1) || negb (sht_eh_host_reset_handler sht) = true).
    { destruct H as [-> | ->]; [reflexivity | apply orb_true_r]. }
    rewrite Hc. intros [].
  - rewrite H0. destruct (Z.eqb_spec d (-1)); [contradiction | ].
    cbn [negb orb].
    destruct (Z.ltb_spec d 0); destruct (Z.gtb_spec (d * HZ) INT_MAX);
      cbn [orb fst]; try reflexivity; lia.
  - rewrite H0. destruct (Z.eqb_spec d (-1)); [contradiction | ].
    cbn [negb orb].
    destruct (Z.ltb_spec d 0); destruct (Z.gtb_spec (d * HZ) INT_MAX);
      cbn [orb snd]; try (left; reflexivity); lia.
  - rewrite H0. destruct (Z.eqb_spec d (-1)); [contradiction | ].
    cbn [negb orb].
    destruct (Z.ltb_spec d 0); destruct (Z.gtb_spec (d * HZ) INT_MAX);
      cbn [orb fst]; try reflexivity; lia.
  - rewrite H0. destruct (Z.eqb_spec d (-1)); [contradiction | ].
    cbn [negb orb].
    destruct (Z.ltb_spec d 0); destruct (Z.gtb_spec (d * HZ) INT_MAX);
      cbn [orb snd]; try lia. intros [].
Qed.

(** A tick rate of 250 and a deadline of 30 seconds. *)
Lemma eh_deadline_at_alloc_witness :
  exists h,
    fst (fst (scsi_host_alloc 250 sample_alloc_env
                {| scsi_host_next_hn := 0; shost_eh_deadline := 30;
                   scsi_use_blk_mq := false |} sample_sht 0)) = Some h
    /\ eh_deadline h = 7500.
Proof.
  destruct (eh_deadline_at_alloc 250 sample_alloc_env
              {| scsi_host_next_hn := 0; shost_eh_deadline := 30;
                 scsi_use_blk_mq := false |} sample_sht 0)
    as (h & g' & t & Hrun & _ & _ & Hexact);
    try (unfold INT_MIN, INT_MAX; cbn; lia); try reflexivity.
  exists h. rewrite Hrun. split; [reflexivity | ].
  apply Hexact; cbn; unfold INT_MAX; try lia; try reflexivity.
Defined.

(** C9, as worded, fails for a negative setting other than -1: with a
    reset handler, a tick rate of 250 and a setting of -2 seconds the host
    gets [INT_MAX], where the wording gives -500. *)
Lemma eh_deadline_negative_setting :
  exists h,
    fst (fst (scsi_host_alloc 250 sample_alloc_env
                {| scsi_host_next_hn := 0; shost_eh_deadline := -2;
                   scsi_use_blk_mq := false |} sample_sht 0)) = Some h
    /\ eh_deadline h = INT_MAX
    /\ eh_deadline_spec 250 (-2) (sht_eh_host_reset_handler sample_sht)
       = -500
    /\ eh_deadline h
       <> eh_deadline_spec 250 (-2) (sht_eh_host_reset_handler sample_sht).
Proof.
  eexists. split; [vm_compute; reflexivity | ].
  split; [reflexivity | ]. split; [reflexivity | ].
  vm_compute. discriminate.
Qed.

(** ** Running publication step by step *)

Lemma runs_ret {A : Type} (a : A) (k : kernel) (Q : A -> kernel -> Prop) :
  Q a k -> runs (ret a) k Q.
Proof. intros HQ. exists a, k. split; [reflexivity | exact HQ]. Qed.

Lemma runs_bind {A B : Type} (c : M A) (f : A -> M B) (k : kernel)
    (Q : B -> kernel -> Prop) :
  runs c k (fun a k1 => runs (f a) k1 Q) -> runs (bind c f) k Q.
Proof.
  intros (a & k1 & Hc & b & k2 & Hf & HQ). exists b, k2.
  unfold bind. rewrite Hc. split; [exact Hf | exact HQ].
Qed.

Lemma runs_get (k : kernel) (Q : Scsi_Host -> kernel -> Prop) :
  Q (shost k) k -> runs get_shost k Q.
Proof. intros HQ. exists (shost k), k. split; [reflexivity | exact HQ]. Qed.

Lemma runs_emit (e : event) (k : kernel) (Q : unit -> kernel -> Prop) :
  Q tt (logged e k) -> runs (emit e) k Q.
Proof. intros HQ. exists tt, (logged e k). split; [reflexivity | exact HQ]. Qed.

Lemma runs_modify (f : Scsi_Host -> Scsi_Host) (k : kernel)
    (Q : unit -> kernel -> Prop) :
  Q tt (modified f k) -> runs (modify_shost f) k Q.
Proof.
  intros HQ. exists tt, (modified f k). split; [reflexivity | exact HQ].
Qed.

Lemma runs_mono {A : Type} (c : M A) (k : kernel)
    (Q Q' : A -> kernel -> Prop) :
  runs c k Q -> (forall a k', Q a k' -> Q' a k') -> runs c k Q'.
Proof.
  intros (a & k' & Hc & HQ) Himp. exists a, k'. split; auto.
Qed.

Lemma acquired_app (t u : list event) :
  acquired (t ++ u) = acquired t ++ acquired u.
Proof. apply flat_map_app. Qed.

Lemma released_app (t u : list event) :
  released (t ++ u) = released t ++ released u.
Proof. apply flat_map_app. Qed.

(** The assertion after one more call, and after a write that keeps the
    frame. *)
Lemma at_logged (e : event) (k : kernel) (lo : Z) (fr : frame)
    (acq rel : list resource) :
  at_point k lo fr acq rel ->
  at_point (logged e k) lo fr (acq ++ acquires e) (rel ++ releases e).
Proof.
  intros [Hf Hk Ha Hr]. split; cbn [logged shost trace].
  - exact Hf.
  - exact Hk.
  - rewrite acquired_app, Ha. cbn. rewrite app_nil_r. reflexivity.
  - rewrite released_app, Hr. cbn. rewrite app_nil_r. reflexivity.
Qed.

Lemma at_logged_eq (e : event) (k : kernel) (lo : Z) (fr : frame)
    (acq rel acq' rel' : list resource) :
  at_point k lo fr acq rel ->
  acq' = acq ++ acquires e -> rel' = rel ++ releases e ->
  at_point (logged e k) lo fr acq' rel'.
Proof. intros Hat -> ->. apply at_logged, Hat. Qed.

Ltac logged_from Hat :=
  eapply at_logged_eq;
  [ exact Hat
  | cbn [acquires releases]; rewrite ?app_nil_r; try reflexivity
  | cbn [acquires releases]; rewrite ?app_nil_r; try reflexivity ].

(** Run the primitive at the head of the program. *)
Ltac step_in :=
  lazymatch goal with
  | |- runs (bind _ _) _ _ => apply runs_bind; step_in
  | |- runs get_shost _ _ => apply runs_get; cbv beta
  | |- runs (emit _) _ _ => apply runs_emit; cbv beta
  | |- runs (modify_shost _) _ _ => apply runs_modify; cbv beta
  | |- runs (ret _) _ _ => apply runs_ret; cbv beta
  end.

Lemma at_kept (f : Scsi_Host -> Scsi_Host) (k : kernel) (lo : Z)
    (fr : frame) (acq rel : list resource) :
  (forall h, frame_of (f h) = frame_of h) ->
  (forall h, dev_kref (shost_gendev (f h)) = dev_kref (shost_gendev h)) ->
  at_point k lo fr acq rel -> at_point (modified f k) lo fr acq rel.
Proof.
  intros Hfr Hkr [Hf Hk Ha Hr]. split; cbn [modified shost trace]; auto.
  - rewrite Hfr. exact Hf.
  - unfold krefg in *. cbn [modified shost]. rewrite Hkr. exact Hk.
Qed.

(** Read the frame back into the host the assertion speaks of. *)
Ltac open_frame Hat :=
  let Hf := fresh "Hf" in
  let Hk := fresh "Hk" in
  let Ha := fresh "Ha" in
  let Hr := fresh "Hr" in
  destruct Hat as [Hf Hk Ha Hr]; subst;
  cbn [frame_of fr_state fr_can_queue fr_mq fr_transportt fr_host_no
       fr_parent fr_data fr_work_q] in *.

(** *** The steps on the way in *)

Lemma wp_emit (e : event) (k : kernel) (lo : Z) (fr : frame)
    (acq rel : list resource) (Q : unit -> kernel -> Prop) :
  at_point k lo fr acq rel ->
  (forall k',
      at_point k' lo fr (acq ++ acquires e) (rel ++ releases e) -> Q tt k') ->
  runs (emit e) k Q.
Proof. intros Hat HQ. apply runs_emit, HQ, at_logged, Hat. Qed.

Lemma wp_setup_tags (E : env) (k : kernel) (lo : Z) (fr : frame)
    (acq rel : list resource) (Q : Z -> kernel -> Prop) :
  at_point k lo fr acq rel ->
  (forall k',
      at_point k' lo fr
        (acq ++ if tags_fail E (fr_mq fr) then []
                else tags_acquired (fr_mq fr)) rel ->
      Q (tags_error E (fr_mq fr)) k') ->
  runs (setup_tags E) k Q.
Proof.
  intros Hat HQ.
  assert (Hmq : use_blk_mq (shost k) = fr_mq fr)
    by (rewrite <- (at_frame _ _ _ _ _ Hat); reflexivity).
  unfold setup_tags. step_in. unfold shost_use_blk_mq. rewrite Hmq.
  unfold tags_fail, tags_error, tags_acquired in HQ.
  destruct (fr_mq fr).
  - unfold scsi_mq_setup_tags, when. step_in.
    destruct (scsi_mq_setup_tags_ret E =? 0) eqn:Hret; cbn [negb] in HQ;
      step_in; step_in; apply HQ; try (apply at_kept; auto);
      logged_from Hat; rewrite ?Hret, ?app_nil_r; reflexivity.
  - unfold blk_init_tags. step_in. step_in. step_in.
    destruct (blk_init_tags_res E) eqn:Hres; step_in; apply HQ;
      apply at_kept; auto; logged_from Hat.
Qed.

Lemma wp_scsi_setup_command_freelist (E : env) (k : kernel) (lo : Z)
    (fr : frame) (acq rel : list resource) (Q : Z -> kernel -> Prop) :
  at_point k lo fr acq rel ->
  (forall k',
      at_point k' lo fr
        (acq ++ if scsi_setup_command_freelist_ret E =? 0
                then [Res_freelist] else []) rel ->
      Q (scsi_setup_command_freelist_ret E) k') ->
  runs (scsi_setup_command_freelist E) k Q.
Proof.
  intros Hat HQ. unfold scsi_setup_command_freelist. step_in. step_in.
  apply HQ. logged_from Hat.
Qed.

Lemma wp_device_add (E : env) (dev : device_ptr) (k : kernel) (lo : Z)
    (fr : frame) (acq rel : list resource) (Q : Z -> kernel -> Prop) :
  at_point k lo fr acq rel ->
  (forall k',
      at_point k' lo fr
        (acq ++ if device_add_ret E dev =? 0
                then [Res_registration dev] else []) rel ->
      Q (device_add_ret E dev) k') ->
  runs (device_add E dev) k Q.
Proof.
  intros Hat HQ. unfold device_add. step_in. step_in. apply HQ.
  logged_from Hat.
Qed.

Lemma wp_scsi_sysfs_add_host (E : env) (k : kernel) (lo : Z) (fr : frame)
    (acq rel : list resource) (Q : Z -> kernel -> Prop) :
  at_point k lo fr acq rel ->
  (forall k',
      at_point k' lo fr
        (acq ++ if scsi_sysfs_add_host_ret E =? 0 then [Res_sysfs] else [])
        rel ->
      Q (scsi_sysfs_add_host_ret E) k') ->
  runs (scsi_sysfs_add_host E) k Q.
Proof.
  intros Hat HQ. unfold scsi_sysfs_add_host. step_in. step_in. apply HQ.
  logged_from Hat.
Qed.

(** After lines 242-247 the host has a parent. *)
Lemma wp_resolve_parent (dev dma_dev : option device_ptr) (k : kernel)
    (lo : Z) (fr : frame) (acq rel : list resource)
    (Q : unit -> kernel -> Prop) :
  at_point k lo fr acq rel ->
  (forall k' p',
      at_point k' lo (with_fr_parent (Some p') fr) acq rel -> Q tt k') ->
  runs (resolve_parent dev dma_dev) k Q.
Proof.
  intros Hat HQ. open_frame Hat.
  unfold resolve_parent. step_in.
  destruct (dev_parent (shost_gendev (shost k))) as [p0 | ] eqn:Hp.
  - step_in. step_in. step_in.
    apply (HQ _ p0). split; cbn [modified shost trace]; auto.
    unfold with_fr_parent, frame_of. cbn. rewrite ?Hp. reflexivity.
  - unfold modify_gendev. step_in. step_in. step_in.
    eapply HQ. split; cbn [modified shost trace]; auto.
    unfold with_fr_parent, frame_of. cbn. reflexivity.
Qed.

Lemma wp_scsi_host_set_state (target : scsi_host_state) (k : kernel)
    (lo : Z) (fr : frame) (acq rel : list resource)
    (Q : Z -> kernel -> Prop) :
  at_point k lo fr acq rel ->
  (forall r k',
      at_point k' lo
        (with_fr_state (next_state target (fr_state fr)) fr) acq rel ->
      Q r k') ->
  runs (scsi_host_set_state target) k Q.
Proof.
  intros Hat HQ. open_frame Hat.
  unfold runs. rewrite set_state_run. unfold cur_state.
  unfold next_state in HQ.
  destruct (state_is target (shost_state (shost k))) eqn:Hsame.
  - apply state_is_true in Hsame. rewrite <- Hsame in HQ.
    rewrite allowed_same in HQ. eexists _, _. split; [reflexivity | ].
    apply HQ. split; auto. unfold with_fr_state. cbn. rewrite Hsame.
    reflexivity.
  - destruct (allowed (shost_state (shost k)) target).
    + eexists _, _. split; [reflexivity | ]. apply HQ.
      split; cbn [with_state shost trace]; auto.
    + eexists _, _. split; [reflexivity | ]. apply HQ.
      split; cbn [logged shost trace]; auto.
      * rewrite acquired_app. cbn. apply app_nil_r.
      * rewrite released_app. cbn. apply app_nil_r.
Qed.

(** Taking a reference changes reference counts only; on [shost_gendev]
    the known lower bound moves up. *)
Lemma wp_get_device (dev : device_ptr) (k : kernel) (lo : Z) (fr : frame)
    (acq rel : list resource) (Q : option device_ptr -> kernel -> Prop) :
  at_point k lo fr acq rel ->
  (forall k',
      at_point k' (match dev with Shost_gendev => lo + 1 | _ => lo end)
        fr acq rel ->
      Q (Some dev) k') ->
  runs (get_device dev) k Q.
Proof.
  intros Hat HQ.
  assert (Hat1 : at_point (logged (Ev_get_device dev) k) lo fr acq rel)
    by logged_from Hat.
  destruct Hat1 as [Hf Hk Ha Hr].
  unfold get_device. step_in.
  destruct dev; unfold modify_gendev, modify_shost_dev;
    step_in; step_in; apply HQ; split; cbn [modified shost trace]; auto;
    unfold krefg in *; cbn in *; lia.
Qed.

(** Lines 264-271. *)
Lemma wp_alloc_shost_data (E : env) (k : kernel) (lo : Z) (fr : frame)
    (acq rel : list resource) (Q : Z -> kernel -> Prop) :
  at_point k lo fr acq rel ->
  (forall k',
      at_point k' lo
        (with_fr_data
           (if host_size (fr_transportt fr) =? 0 then fr_data fr
            else kzalloc_res E) fr)
        (acq ++ if host_size (fr_transportt fr) =? 0 then []
                else memory_of (kzalloc_res E)) rel ->
      Q (if shost_data_fail E (fr_transportt fr) then - ENOMEM else 0) k') ->
  runs (alloc_shost_data E) k Q.
Proof.
  intros Hat HQ.
  assert (Htp : transportt (shost k) = fr_transportt fr)
    by (rewrite <- (at_frame _ _ _ _ _ Hat); reflexivity).
  unfold alloc_shost_data. step_in. rewrite Htp.
  unfold shost_data_fail in HQ.
  destruct (host_size (fr_transportt fr) =? 0) eqn:Hsz;
    cbn [negb andb] in *.
  - step_in. apply HQ. rewrite app_nil_r. destruct Hat as [Hf Hk Ha Hr].
    split; auto. rewrite <- Hf. reflexivity.
  - unfold kzalloc. step_in. step_in. step_in.
    assert (Hat2 : at_point
                     (modified (set_shost_data (kzalloc_res E))
                        (logged (Ev_kzalloc (host_size (fr_transportt fr))
                                   (kzalloc_res E)) k))
                     lo (with_fr_data (kzalloc_res E) fr)
                     (acq ++ memory_of (kzalloc_res E)) rel).
    { assert (Hat1 : at_point
                       (logged (Ev_kzalloc (host_size (fr_transportt fr))
                                  (kzalloc_res E)) k)
                       lo fr (acq ++ memory_of (kzalloc_res E)) rel).
      { logged_from Hat. }
      destruct Hat1 as [Hf Hk Ha Hr].
      split; cbn [modified shost trace]; auto.
      rewrite <- Hf. reflexivity. }
    destruct (kzalloc_res E); step_in; apply HQ; exact Hat2.
Qed.

(** Lines 273-282. *)
Lemma wp_create_work_q (E : env) (k : kernel) (lo : Z) (fr : frame)
    (acq rel : list resource) (Q : Z -> kernel -> Prop) :
  at_point k lo fr acq rel ->
  (forall k',
      at_point k' lo
        (with_fr_work_q
           (if create_work_queue (fr_transportt fr)
            then (if create_workqueue_ok E
                  then Some (Wq ("scsi_wq_%d"%string, fr_host_no fr))
                  else None)
            else fr_work_q fr) fr)
        (acq ++ if create_work_queue (fr_transportt fr)
                   && create_workqueue_ok E
                then [Res_workqueue (Wq ("scsi_wq_%d"%string, fr_host_no fr))]
                else []) rel ->
      Q (if work_q_fail E (fr_transportt fr) then - EINVAL else 0) k') ->
  runs (create_work_q E) k Q.
Proof.
  intros Hat HQ.
  assert (Htp : transportt (shost k) = fr_transportt fr)
    by (rewrite <- (at_frame _ _ _ _ _ Hat); reflexivity).
  assert (Hno : host_no (shost k) = fr_host_no fr)
    by (rewrite <- (at_frame _ _ _ _ _ Hat); reflexivity).
  unfold create_work_q. step_in. rewrite Htp, Hno.
  unfold work_q_fail in HQ.
  destruct (create_work_queue (fr_transportt fr)) eqn:Hc;
    cbn [negb andb] in *.
  - unfold create_singlethread_workqueue. step_in. step_in. step_in.
    step_in.
    destruct Hat as [Hf Hk Ha Hr].
    destruct (create_workqueue_ok E); cbn [negb] in *; step_in; apply HQ;
      split; cbn [modified logged shost trace]; auto;
      try (rewrite <- Hf; reflexivity);
      try (rewrite acquired_app, Ha; cbn; rewrite ?app_nil_r; reflexivity);
      try (rewrite released_app, Hr; cbn; apply app_nil_r).
  - step_in. apply HQ. rewrite app_nil_r. destruct Hat as [Hf Hk Ha Hr].
    split; auto. rewrite <- Hf. reflexivity.
Qed.

(** *** The unwinding labels *)

Lemma runs_both {A : Type} (c : M A) (k : kernel)
    (Q1 Q2 : A -> kernel -> Prop) (G : Prop) :
  runs c k Q1 -> (G -> runs c k Q2) ->
  runs c k (fun a k' => Q1 a k' /\ (G -> Q2 a k')).
Proof.
  intros (a & k' & Hc & H1) H2. exists a, k'. split; [exact Hc | ].
  split; [exact H1 | ]. intros HG.
  destruct (H2 HG) as (a' & k'' & Hc' & HQ2).
  rewrite Hc in Hc'. injection Hc' as <- <-. exact HQ2.
Qed.

Lemma keeps_ret {A : Type} (v : A) : keeps_state_returning (ret v) v.
Proof. intros k. apply runs_ret. split; reflexivity. Qed.

Lemma keeps_bind {A B : Type} (c : M A) (f : A -> M B) (v : B) :
  preserves_state c -> (forall a, keeps_state_returning (f a) v) ->
  keeps_state_returning (bind c f) v.
Proof.
  intros Hc Hf k. destruct (Hc k) as (a & k1 & Hrun & Hst).
  destruct (Hf a k1) as (r & k2 & Hrun2 & -> & Hst2).
  exists v, k2. unfold bind. rewrite Hrun. split; [exact Hrun2 | ].
  split; [reflexivity | congruence].
Qed.

Lemma keeps_out_destroy_tags (error : Z) :
  keeps_state_returning (out_destroy_tags error) error.
Proof.
  unfold out_destroy_tags, fail.
  apply keeps_bind; [frame | intros h].
  apply keeps_bind; [frame | intros _]. apply keeps_ret.
Qed.

Lemma keeps_out_destroy_freelist (error : Z) :
  keeps_state_returning (out_destroy_freelist error) error.
Proof.
  unfold out_destroy_freelist, scsi_destroy_command_freelist.
  apply keeps_bind; [frame | intros _]. apply keeps_out_destroy_tags.
Qed.

Lemma keeps_out_del_gendev (error : Z) :
  keeps_state_returning (out_del_gendev error) error.
Proof.
  unfold out_del_gendev.
  apply keeps_bind; [frame | intros _].
  apply keeps_bind; [frame | intros _]. apply keeps_out_destroy_freelist.
Qed.

Lemma keeps_out_del_dev (error : Z) :
  keeps_state_returning (out_del_dev error) error.
Proof.
  unfold out_del_dev.
  apply keeps_bind; [frame | intros _]. apply keeps_out_del_gendev.
Qed.

Lemma keeps_out_free_shost_data (error : Z) :
  keeps_state_returning (out_free_shost_data error) error.
Proof.
  unfold out_free_shost_data, kfree.
  apply keeps_bind; [frame | intros h].
  apply keeps_bind; [frame | intros _]. apply keeps_out_del_dev.
Qed.

Lemma keeps_out_destroy_host (error : Z) :
  keeps_state_returning (out_destroy_host error) error.
Proof.
  unfold out_destroy_host, destroy_workqueue.
  apply keeps_bind; [frame | intros h].
  apply keeps_bind; [frame | intros _]. apply keeps_out_free_shost_data.
Qed.

Lemma wp_out_destroy_tags (error : Z) (k : kernel) (lo : Z) (fr : frame)
    (acq rel : list resource) (Q : Z -> kernel -> Prop) :
  at_point k lo fr acq rel ->
  (forall k',
      at_point k' lo fr acq (rel ++ tags_released (fr_mq fr)) ->
      Q error k') ->
  runs (out_destroy_tags error) k Q.
Proof.
  intros Hat HQ.
  assert (Hmq : use_blk_mq (shost k) = fr_mq fr)
    by (rewrite <- (at_frame _ _ _ _ _ Hat); reflexivity).
  unfold out_destroy_tags, fail. step_in.
  unfold shost_use_blk_mq. rewrite Hmq. unfold tags_released in HQ.
  destruct (fr_mq fr); unfold when.
  - unfold scsi_mq_destroy_tags. step_in. step_in. step_in. apply HQ.
    apply at_kept; auto. logged_from Hat.
  - step_in. step_in. apply HQ. rewrite app_nil_r. exact Hat.
Qed.

Lemma wp_out_destroy_freelist (error : Z) (k : kernel) (lo : Z)
    (fr : frame) (acq rel : list resource) (Q : Z -> kernel -> Prop) :
  at_point k lo fr acq rel ->
  (forall k',
      at_point k' lo fr acq
        (rel ++ Res_freelist :: tags_released (fr_mq fr)) ->
      Q error k') ->
  runs (out_destroy_freelist error) k Q.
Proof.
  intros Hat HQ. unfold out_destroy_freelist, scsi_destroy_command_freelist.
  apply runs_bind. eapply wp_emit; [exact Hat | ]. intros k1 Hat1.
  cbn [acquires releases] in Hat1. rewrite app_nil_r in Hat1.
  eapply wp_out_destroy_tags; [exact Hat1 | ]. intros k2 Hat2.
  apply HQ. rewrite <- app_assoc in Hat2. exact Hat2.
Qed.

(** Dropping the reference on [shost_dev] while somebody else holds one
    on [shost_gendev]: at most the two reference counts change. *)
Lemma wp_put_device_shost_dev (k : kernel) (lo : Z) (fr : frame)
    (acq rel : list resource) (Q : unit -> kernel -> Prop) :
  at_point k lo fr acq rel ->
  1 < lo ->
  (forall k', at_point k' (lo - 1) fr acq rel -> Q tt k') ->
  runs (put_device Shost_dev) k Q.
Proof.
  intros Hat Hlo HQ.
  assert (Hat1 : at_point (logged (Ev_put_device Shost_dev) k) lo fr acq rel)
    by logged_from Hat.
  cbn [put_device]. unfold put_device_shost_dev, modify_shost_dev.
  step_in. step_in. step_in. unfold when.
  match goal with |- context [if ?c then _ else _] => destruct c end.
  - unfold scsi_host_cls_release, put_device_gendev, modify_gendev.
    step_in. step_in. step_in. unfold when.
    destruct Hat1 as [Hf Hk Ha Hr].
    match goal with
    | |- context [if ?c then _ else _] => destruct c eqn:Hzero
    end.
    + exfalso. apply Z.eqb_eq in Hzero. unfold krefg in Hk.
      cbn in Hzero, Hk. lia.
    + step_in. apply HQ. split; cbn [modified logged shost trace].
      * rewrite <- Hf. reflexivity.
      * unfold krefg in *. cbn in *. lia.
      * rewrite acquired_app. cbn in *. rewrite app_nil_r. exact Ha.
      * rewrite released_app. cbn in *. rewrite app_nil_r. exact Hr.
  - step_in. apply HQ. destruct Hat1 as [Hf Hk Ha Hr].
    split; cbn [modified logged shost trace]; auto.
    unfold krefg in *. cbn in *. lia.
Qed.

Lemma wp_out_del_gendev (error : Z) (k : kernel) (lo : Z) (fr : frame)
    (acq rel : list resource) (Q : Z -> kernel -> Prop) :
  at_point k lo fr acq rel ->
  1 < lo ->
  (forall k',
      at_point k' (lo - 1) fr acq
        (rel ++ Res_registration Shost_gendev :: Res_freelist
             :: tags_released (fr_mq fr)) ->
      Q error k') ->
  runs (out_del_gendev error) k Q.
Proof.
  intros Hat Hlo HQ. unfold out_del_gendev, device_del.
  apply runs_bind. eapply wp_put_device_shost_dev; [exact Hat | exact Hlo | ].
  intros k1 Hat1.
  apply runs_bind. eapply wp_emit; [exact Hat1 | ]. intros k2 Hat2.
  cbn [acquires releases] in Hat2. rewrite app_nil_r in Hat2.
  eapply wp_out_destroy_freelist; [exact Hat2 | ]. intros k3 Hat3.
  apply HQ. rewrite <- app_assoc in Hat3. exact Hat3.
Qed.

Lemma wp_out_del_dev (error : Z) (k : kernel) (lo : Z) (fr : frame)
    (acq rel : list resource) (Q : Z -> kernel -> Prop) :
  at_point k lo fr acq rel ->
  1 < lo ->
  (forall k',
      at_point k' (lo - 1) fr acq
        (rel ++ Res_registration Shost_dev :: Res_registration Shost_gendev
             :: Res_freelist :: tags_released (fr_mq fr)) ->
      Q error k') ->
  runs (out_del_dev error) k Q.
Proof.
  intros Hat Hlo HQ. unfold out_del_dev, device_del.
  apply runs_bind. eapply wp_emit; [exact Hat | ]. intros k1 Hat1.
  cbn [acquires releases] in Hat1. rewrite app_nil_r in Hat1.
  eapply wp_out_del_gendev; [exact Hat1 | exact Hlo | ]. intros k2 Hat2.
  apply HQ. rewrite <- app_assoc in Hat2. exact Hat2.
Qed.

Lemma wp_out_free_shost_data (error : Z) (k : kernel) (lo : Z) (fr : frame)
    (acq rel : list resource) (Q : Z -> kernel -> Prop) :
  at_point k lo fr acq rel ->
  1 < lo ->
  (forall k',
      at_point k' (lo - 1) fr acq
        (rel ++ memory_of (fr_data fr)
             ++ Res_registration Shost_dev :: Res_registration Shost_gendev
             :: Res_freelist :: tags_released (fr_mq fr)) ->
      Q error k') ->
  runs (out_free_shost_data error) k Q.
Proof.
  intros Hat Hlo HQ.
  assert (Hd : shost_data (shost k) = fr_data fr)
    by (rewrite <- (at_frame _ _ _ _ _ Hat); reflexivity).
  unfold out_free_shost_data, kfree. step_in. rewrite Hd.
  apply runs_bind. eapply wp_emit; [exact Hat | ]. intros k1 Hat1.
  cbn [acquires] in Hat1. rewrite app_nil_r in Hat1.
  eapply wp_out_del_dev; [exact Hat1 | exact Hlo | ]. intros k2 Hat2.
  apply HQ. rewrite <- app_assoc in Hat2.
  destruct (fr_data fr); exact Hat2.
Qed.

Lemma wp_out_destroy_host (error : Z) (k : kernel) (lo : Z) (fr : frame)
    (acq rel : list resource) (Q : Z -> kernel -> Prop) :
  at_point k lo fr acq rel ->
  1 < lo ->
  (forall k',
      at_point k' (lo - 1) fr acq
        (rel ++ workqueue_of (fr_work_q fr) ++ memory_of (fr_data fr)
             ++ Res_registration Shost_dev :: Res_registration Shost_gendev
             :: Res_freelist :: tags_released (fr_mq fr)) ->
      Q error k') ->
  runs (out_destroy_host error) k Q.
Proof.
  intros Hat Hlo HQ.
  assert (Hw : work_q (shost k) = fr_work_q fr)
    by (rewrite <- (at_frame _ _ _ _ _ Hat); reflexivity).
  unfold out_destroy_host, destroy_workqueue. step_in. rewrite Hw.
  unfold workqueue_of in HQ.
  destruct (fr_work_q fr) as [wq | ].
  - apply runs_bind. eapply wp_emit; [exact Hat | ]. intros k1 Hat1.
    cbn [acquires releases] in Hat1. rewrite app_nil_r in Hat1.
    eapply wp_out_free_shost_data; [exact Hat1 | exact Hlo | ].
    intros k2 Hat2. apply HQ. rewrite <- app_assoc in Hat2. exact Hat2.
  - step_in.
    eapply wp_out_free_shost_data; [exact Hat | exact Hlo | ].
    intros k2 Hat2. apply HQ. exact Hat2.
Qed.

Lemma at_state (k : kernel) (lo : Z) (fr : frame) (acq rel : list resource) :
  at_point k lo fr acq rel -> cur_state k = fr_state fr.
Proof. intros [Hf _ _ _]. rewrite <- Hf. reflexivity. Qed.

(** The labels reached after the transition, state and ledger together. *)
Lemma late_out_del_gendev (error : Z) (k : kernel) (lo : Z) (fr : frame)
    (acq rel : list resource) :
  at_point k lo fr acq rel ->
  runs (out_del_gendev error) k
    (fun r k' =>
       (r = error /\ cur_state k' = cur_state k)
       /\ (1 < lo ->
           at_point k' (lo - 1) fr acq
             (rel ++ Res_registration Shost_gendev :: Res_freelist
                  :: tags_released (fr_mq fr)))).
Proof.
  intros Hat. apply runs_both; [apply keeps_out_del_gendev | ].
  intros Hlo. eapply wp_out_del_gendev; [exact Hat | exact Hlo | ].
  intros k' Hat'. exact Hat'.
Qed.

Lemma late_out_del_dev (error : Z) (k : kernel) (lo : Z) (fr : frame)
    (acq rel : list resource) :
  at_point k lo fr acq rel ->
  runs (out_del_dev error) k
    (fun r k' =>
       (r = error /\ cur_state k' = cur_state k)
       /\ (1 < lo ->
           at_point k' (lo - 1) fr acq
             (rel ++ Res_registration Shost_dev
                  :: Res_registration Shost_gendev :: Res_freelist
                  :: tags_released (fr_mq fr)))).
Proof.
  intros Hat. apply runs_both; [apply keeps_out_del_dev | ].
  intros Hlo. eapply wp_out_del_dev; [exact Hat | exact Hlo | ].
  intros k' Hat'. exact Hat'.
Qed.

Lemma late_out_free_shost_data (error : Z) (k : kernel) (lo : Z)
    (fr : frame) (acq rel : list resource) :
  at_point k lo fr acq rel ->
  runs (out_free_shost_data error) k
    (fun r k' =>
       (r = error /\ cur_state k' = cur_state k)
       /\ (1 < lo ->
           at_point k' (lo - 1) fr acq
             (rel ++ memory_of (fr_data fr)
                  ++ Res_registration Shost_dev
                  :: Res_registration Shost_gendev :: Res_freelist
                  :: tags_released (fr_mq fr)))).
Proof.
  intros Hat. apply runs_both; [apply keeps_out_free_shost_data | ].
  intros Hlo. eapply wp_out_free_shost_data; [exact Hat | exact Hlo | ].
  intros k' Hat'. exact Hat'.
Qed.

Lemma late_out_destroy_host (error : Z) (k : kernel) (lo : Z) (fr : frame)
    (acq rel : list resource) :
  at_point k lo fr acq rel ->
  runs (out_destroy_host error) k
    (fun r k' =>
       (r = error /\ cur_state k' = cur_state k)
       /\ (1 < lo ->
           at_point k' (lo - 1) fr acq
             (rel ++ workqueue_of (fr_work_q fr) ++ memory_of (fr_data fr)
                  ++ Res_registration Shost_dev
                  :: Res_registration Shost_gendev :: Res_freelist
                  :: tags_released (fr_mq fr)))).
Proof.
  intros Hat. apply runs_both; [apply keeps_out_destroy_host | ].
  intros Hlo. eapply wp_out_destroy_host; [exact Hat | exact Hlo | ].
  intros k' Hat'. exact Hat'.
Qed.

Lemma tags_error_zero (E : env) (mq : bool) :
  (tags_error E mq =? 0) = negb (tags_fail E mq).
Proof.
  unfold tags_error, tags_fail. destruct mq.
  - rewrite negb_involutive. reflexivity.
  - destruct (blk_init_tags_res E); reflexivity.
Qed.

Lemma nonzero_of_eqb (r : Z) : (r =? 0) = false -> r <> 0.
Proof. apply Z.eqb_neq. Qed.

Lemma tags_fail_nonzero (E : env) (mq : bool) :
  tags_fail E mq = true -> tags_error E mq <> 0.
Proof.
  intros Hf. apply Z.eqb_neq. rewrite tags_error_zero, Hf. reflexivity.
Qed.

(** *** The whole call *)

Ltac frame_simpl :=
  cbn [frame_of fr_state fr_can_queue fr_mq fr_transportt fr_host_no
       fr_parent fr_data fr_work_q with_fr_state with_fr_parent
       with_fr_data with_fr_work_q] in *.

(** The ledger of a failed call, once the assertion at its end is known. *)
Ltac ledger Hat :=
  let Ha := fresh "Ha" in
  let Hr := fresh "Hr" in
  destruct Hat as [_ _ Ha Hr]; rewrite Ha, Hr; clear Ha Hr;
  unfold tags_fail, shost_data_fail, work_q_fail, tags_acquired,
    tags_released, memory_of, workqueue_of in *;
  frame_simpl;
  repeat match goal with
         | |- context [if ?c then _ else _] =>
             first [ is_var c; fail 1 | destruct c eqn:? ]
         | |- context [match ?c with Some _ => _ | None => _ end] =>
             destruct c eqn:?
         | H : context [if ?c then _ else _] |- _ =>
             destruct c eqn:?
         | H : context [match ?c with Some _ => _ | None => _ end] |- _ =>
             destruct c eqn:?
         end;
  cbn in *; try discriminate; try congruence;
  (split; [ | intros ? ]); try discriminate; try congruence;
  try reflexivity.

Lemma publish_run (E : env) (dev dma_dev : option device_ptr)
    (h : Scsi_Host) :
  runs (scsi_add_host_with_dma E dev dma_dev) (boot h) (publish_post E h).
Proof.
  assert (Hat0 : at_point (boot h) (dev_kref (shost_gendev h)) (frame_of h)
                   [] []).
  { split; reflexivity. }
  unfold scsi_add_host_with_dma. step_in. cbn [boot shost].
  apply runs_bind. eapply wp_emit; [exact Hat0 | ]. clear Hat0.
  intros k1 Hat1. cbn [acquires releases app] in Hat1.
  unfold publish_post, first_failure.
  (* the queue depth *)
  destruct (can_queue h =? 0) eqn:Hcq.
  { apply runs_bind. eapply wp_emit; [exact Hat1 | ]. intros k2 Hat2.
    unfold fail. step_in. cbn [precedes_transition].
    split; [split; discriminate | ].
    split; [rewrite (at_state _ _ _ _ _ Hat2); reflexivity | ].
    intros _ _ _ _. ledger Hat2. }
  (* the tags *)
  apply runs_bind. eapply wp_setup_tags; [exact Hat1 | ]. intros k2 Hat2.
  frame_simpl. rewrite tags_error_zero, negb_involutive.
  destruct (tags_fail E (use_blk_mq h)) eqn:Htags.
  { unfold fail. step_in. cbn [precedes_transition].
    pose proof (tags_fail_nonzero _ _ Htags) as Hne.
    split; [split; [contradiction | discriminate] | ].
    split; [rewrite (at_state _ _ _ _ _ Hat2); reflexivity | ].
    intros _ _ _ _. ledger Hat2. }
  (* the command freelist *)
  apply runs_bind. eapply wp_scsi_setup_command_freelist; [exact Hat2 | ].
  intros k3 Hat3.
  destruct (scsi_setup_command_freelist_ret E =? 0) eqn:Hfl; cbn [negb].
  2: { eapply wp_out_destroy_tags; [exact Hat3 | ]. intros k4 Hat4.
       cbn [precedes_transition]. apply nonzero_of_eqb in Hfl.
       split; [split; [contradiction | discriminate] | ].
       split; [rewrite (at_state _ _ _ _ _ Hat4); reflexivity | ].
       intros _ _ _ _. ledger Hat4. }
  (* the parent and the primary device *)
  apply runs_bind. eapply wp_resolve_parent; [exact Hat3 | ].
  intros k4 p' Hat4.
  apply runs_bind. eapply wp_device_add; [exact Hat4 | ]. intros k5 Hat5.
  destruct (device_add_ret E Shost_gendev =? 0) eqn:Hgd; cbn [negb].
  2: { eapply wp_out_destroy_freelist; [exact Hat5 | ]. intros k6 Hat6.
       cbn [precedes_transition]. apply nonzero_of_eqb in Hgd.
       split; [split; [contradiction | discriminate] | ].
       split; [rewrite (at_state _ _ _ _ _ Hat6); reflexivity | ].
       intros _ _ _ _. ledger Hat6. }
  (* power management, the transition, the references *)
  apply runs_bind. eapply wp_emit; [exact Hat5 | ]. intros k6 Hat6.
  apply runs_bind. eapply wp_emit; [exact Hat6 | ]. intros k7 Hat7.
  cbn [acquires releases] in Hat7. rewrite !app_nil_r in Hat7.
  apply runs_bind. eapply wp_scsi_host_set_state; [exact Hat7 | ].
  intros r8 k8 Hat8.
  step_in.
  assert (Hp8 : dev_parent (shost_gendev (shost k8)) = Some p')
    by (change (fr_parent (frame_of (shost k8)) = Some p');
        rewrite (at_frame _ _ _ _ _ Hat8); reflexivity).
  rewrite Hp8.
  apply runs_bind. apply runs_bind.
  eapply wp_get_device; [exact Hat8 | ]. intros k9 Hat9. step_in.
  apply runs_bind. eapply wp_get_device; [exact Hat9 | ]. intros k10 Hat10.
  cbv iota in Hat10.
  set (lo := match p' with
             | Shost_gendev => dev_kref (shost_gendev h) + 1
             | _ => dev_kref (shost_gendev h)
             end + 1) in *.
  assert (Hlo : 0 < dev_kref (shost_gendev h) -> 1 < lo)
    by (subst lo; destruct p'; lia).
  clearbody lo.
  (* the secondary device *)
  apply runs_bind. eapply wp_device_add; [exact Hat10 | ]. intros k11 Hat11.
  destruct (device_add_ret E Shost_dev =? 0) eqn:Hsd; cbn [negb].
  2: { eapply runs_mono; [eapply late_out_del_gendev; exact Hat11 | ].
       intros r k' ((-> & Hst) & Hled). cbn [precedes_transition].
       apply nonzero_of_eqb in Hsd.
       split; [split; [contradiction | discriminate] | ].
       split; [rewrite Hst, (at_state _ _ _ _ _ Hat11); reflexivity | ].
       intros Hk Hd Hw _. specialize (Hled (Hlo Hk)). ledger Hled. }
  (* the transport data *)
  apply runs_bind. eapply wp_alloc_shost_data; [exact Hat11 | ].
  intros k12 Hat12. frame_simpl.
  destruct (shost_data_fail E (transportt h)) eqn:Hdata.
  { cbn [Z.eqb negb ENOMEM Z.opp].
    eapply runs_mono; [eapply late_out_del_dev; exact Hat12 | ].
    intros r k' ((-> & Hst) & Hled). cbn [precedes_transition].
    split; [split; discriminate | ].
    split.
    { rewrite Hst, (at_state _ _ _ _ _ Hat12). reflexivity. }
    intros Hk Hd Hw _. specialize (Hled (Hlo Hk)). ledger Hled. }
  cbn [Z.eqb negb].
  (* the work queue *)
  apply runs_bind. eapply wp_create_work_q; [exact Hat12 | ].
  intros k13 Hat13.
  frame_simpl.
  destruct (work_q_fail E (transportt h)) eqn:Hwq.
  { cbn [Z.eqb negb EINVAL Z.opp].
    eapply runs_mono; [eapply late_out_free_shost_data; exact Hat13 | ].
    intros r k' ((-> & Hst) & Hled). cbn [precedes_transition].
    split; [split; discriminate | ].
    split.
    { rewrite Hst, (at_state _ _ _ _ _ Hat13). reflexivity. }
    intros Hk Hd Hw _. specialize (Hled (Hlo Hk)). ledger Hled. }
  cbn [Z.eqb negb].
  (* sysfs *)
  apply runs_bind. eapply wp_scsi_sysfs_add_host; [exact Hat13 | ].
  intros k14 Hat14.
  destruct (scsi_sysfs_add_host_ret E =? 0) eqn:Hsys; cbn [negb].
  2: { eapply runs_mono; [eapply late_out_destroy_host; exact Hat14 | ].
       intros r k' ((-> & Hst) & Hled). cbn [precedes_transition].
       apply nonzero_of_eqb in Hsys.
       split; [split; [contradiction | discriminate] | ].
       split.
       { rewrite Hst, (at_state _ _ _ _ _ Hat14). reflexivity. }
       intros Hk Hd Hw _. specialize (Hled (Hlo Hk)). ledger Hled. }
  (* success *)
  apply runs_bind. eapply wp_emit; [exact Hat14 | ]. intros k15 Hat15.
  step_in. apply Z.eqb_eq in Hsys.
  split; [split; [reflexivity | exact (fun _ => Hsys)] | ].
  split.
  { rewrite (at_state _ _ _ _ _ Hat15). reflexivity. }
  intros _ _ _ Hne. contradiction.
Qed.

(** ** Publication: state and unwinding *)

(** C2.  [scsi_add_host_with_dma] returns 0 exactly when no step fails,
    from whatever state it is called in.  It looks neither at the state
    nor at what its request for RUNNING returns, so the state afterwards
    is the state before when the failing step comes before that request
    (the queue-depth check, the tag setup, the command freelist, the
    registration of [shost_gendev]) and otherwise, on success as on a
    later failure, the state the request leaves: RUNNING when the request
    is legal from the state before, and the state before when it is not.
    On a host in CREATED that is: 0 with RUNNING; or non-zero with
    CREATED for the steps before the request and RUNNING for the
    registration of [shost_dev], the transport data, the work queue and
    sysfs; and no other state. *)
Theorem scsi_add_host_state (E : env) (dev dma_dev : option device_ptr)
    (h : Scsi_Host) :
  exists r k',
    scsi_add_host_with_dma E dev dma_dev (boot h) = Done r k'
    /\ (r = 0 <-> first_failure E h = None)
    /\ cur_state k'
       = match first_failure E h with
         | Some s =>
             if precedes_transition s then shost_state h
             else if allowed (shost_state h) SHOST_RUNNING
                  then SHOST_RUNNING else shost_state h
         | None =>
             if allowed (shost_state h) SHOST_RUNNING
             then SHOST_RUNNING else shost_state h
         end
    /\ (cur_state k' = SHOST_RUNNING \/ cur_state k' = shost_state h)
    /\ (r = 0 ->
        (cur_state k' = SHOST_RUNNING
         <-> legal (shost_state h) SHOST_RUNNING))
    /\ (shost_state h = SHOST_CREATED ->
        match first_failure E h with
        | None => r = 0 /\ cur_state k' = SHOST_RUNNING
        | Some s =>
            r <> 0
            /\ cur_state k'
               = if precedes_transition s then SHOST_CREATED
                 else SHOST_RUNNING
        end
        /\ (r = 0 -> cur_state k' = SHOST_RUNNING)
        /\ (r <> 0 ->
            cur_state k' = SHOST_CREATED \/ cur_state k' = SHOST_RUNNING)).
Proof.
  destruct (publish_run E dev dma_dev h) as (r & k' & Hrun & Hret & Hst & _).
  exists r, k'. split; [exact Hrun | ]. split; [exact Hret | ].
  unfold next_state in Hst. split; [exact Hst | ]. split; [ | split].
  - rewrite Hst.
    destruct (first_failure E h) as [s | ];
      [destruct (precedes_transition s) | ];
      destruct (allowed (shost_state h) SHOST_RUNNING); auto.
  - intros Hz. apply Hret in Hz. rewrite Hz in Hst. rewrite Hst.
    rewrite <- allowed_spec.
    destruct (allowed (shost_state h) SHOST_RUNNING) eqn:Hall.
    + split; reflexivity.
    + split; [ | discriminate]. intros Hs. rewrite Hs in Hall.
      discriminate Hall.
  - intros Hcreated. rewrite Hcreated in Hst.
    change (allowed SHOST_CREATED SHOST_RUNNING) with true in Hst.
    cbv iota in Hst.
    destruct (first_failure E h) as [s | ].
    + assert (Hne : r <> 0).
      { intros Hz. apply Hret in Hz. discriminate Hz. }
      split; [split; [exact Hne | exact Hst] | ].
      split; [intros Hz; contradiction | ].
      intros _. rewrite Hst. destruct (precedes_transition s); auto.
    + assert (Hz : r = 0) by (apply Hret; reflexivity).
      split; [split; [exact Hz | exact Hst] | ].
      split; [intros _; exact Hst | intros Hne; contradiction].
Qed.

Lemma scsi_add_host_state_witness :
  exists r k',
    scsi_add_host_with_dma failing_sysfs_env None None (boot sample_mq_host)
      = Done r k'
    /\ r <> 0
    /\ cur_state k' = SHOST_RUNNING.
Proof.
  destruct (scsi_add_host_state failing_sysfs_env None None sample_mq_host)
    as (r & k' & Hrun & _ & _ & _ & _ & Hcreated).
  destruct (Hcreated eq_refl) as ((Hne & Hst) & _).
  exists r, k'. split; [exact Hrun | ]. split; [exact Hne | exact Hst].
Defined.

(** C2, as worded, fails on a host that is not in CREATED: published
    from CANCEL, or from DEL after a removal, the call succeeds and
    returns 0 although its request for RUNNING was refused, and the host
    is left in the state it was in, not in RUNNING. *)
Lemma scsi_add_host_outside_created :
  (exists k',
     scsi_add_host_with_dma sample_env None None
       (boot (set_shost_state SHOST_CANCEL sample_host)) = Done 0 k'
     /\ cur_state k' = SHOST_CANCEL
     /\ cur_state k' <> SHOST_RUNNING
     /\ In (Ev_illegal_transition SHOST_CANCEL SHOST_RUNNING) (trace k'))
  /\ (exists k',
        scsi_add_host_with_dma sample_env None None
          (boot (set_shost_state SHOST_DEL sample_host)) = Done 0 k'
        /\ cur_state k' = SHOST_DEL
        /\ cur_state k' <> SHOST_RUNNING).
Proof.
  split.
  - eexists. split; [vm_compute; reflexivity | ].
    split; [reflexivity | ]. split; [discriminate | ].
    cbn. tauto.
  - eexists. split; [vm_compute; reflexivity | ].
    split; [reflexivity | discriminate].
Qed.

(** Three runs of the model: success, an early and a late failure. *)
Example publish_succeeds :
  returned (scsi_add_host_with_dma sample_env None None (boot sample_host))
    = Some 0
  /\ cur_state
       (final_kernel
          (scsi_add_host_with_dma sample_env None None (boot sample_host)))
     = SHOST_RUNNING.
Proof. split; vm_compute; reflexivity. Qed.

Example publish_fails_early :
  returned
    (scsi_add_host_with_dma failing_freelist_env None None
       (boot sample_host)) = Some (- ENOMEM)
  /\ cur_state
       (final_kernel
          (scsi_add_host_with_dma failing_freelist_env None None
             (boot sample_host)))
     = SHOST_CREATED.
Proof. split; vm_compute; reflexivity. Qed.

Example publish_fails_late :
  returned
    (scsi_add_host_with_dma failing_sysfs_env None None
       (boot sample_mq_host)) = Some (- EINVAL)
  /\ cur_state
       (final_kernel
          (scsi_add_host_with_dma failing_sysfs_env None None
             (boot sample_mq_host)))
     = SHOST_RUNNING
  /\ released
       (trace
          (final_kernel
             (scsi_add_host_with_dma failing_sysfs_env None None
                (boot sample_mq_host))))
     = [ Res_workqueue (Wq ("scsi_wq_%d"%string, 0)); Res_memory 12288;
         Res_registration Shost_dev; Res_registration Shost_gendev;
         Res_freelist; Res_mq_tags ].
Proof. repeat split; vm_compute; reflexivity. Qed.

(** C3, as amended.  On a host as allocated (no transport data, no work
    queue) whose caller holds a reference, a call of
    [scsi_add_host_with_dma] in which some step fails returns non-zero,
    and by then it has released the resources it acquired, last acquired
    first, except the legacy tag map of [blk_init_tags], which stays with
    the host; under blk-mq that is every resource it acquired. *)
Theorem scsi_add_host_unwinds (E : env) (dev dma_dev : option device_ptr)
    (h : Scsi_Host) :
  0 < dev_kref (shost_gendev h) ->
  shost_data h = None ->
  work_q h = None ->
  exists r k',
    scsi_add_host_with_dma E dev dma_dev (boot h) = Done r k'
    /\ (r = 0 <-> first_failure E h = None)
    /\ (r <> 0 ->
        released (trace k')
        = rev (filter not_legacy_tags (acquired (trace k')))
        /\ (use_blk_mq h = true ->
            released (trace k') = rev (acquired (trace k')))).
Proof.
  intros Hk Hd Hw.
  destruct (publish_run E dev dma_dev h) as (r & k' & Hrun & Hret & _ & Hled).
  exists r, k'. split; [exact Hrun | ]. split; [exact Hret | ].
  intros Hne. destruct (Hled Hk Hd Hw Hne) as [Hrev Hmq].
  split; [exact Hrev | ]. intros Hmq'. rewrite Hrev, (Hmq Hmq').
  reflexivity.
Qed.

Lemma scsi_add_host_unwinds_witness :
  exists r k',
    scsi_add_host_with_dma failing_sysfs_env None None (boot sample_mq_host)
      = Done r k'
    /\ (r = 0 <-> first_failure failing_sysfs_env sample_mq_host = None)
    /\ (r <> 0 ->
        released (trace k')
        = rev (filter not_legacy_tags (acquired (trace k')))
        /\ (use_blk_mq sample_mq_host = true ->
            released (trace k') = rev (acquired (trace k')))).
Proof.
  apply (scsi_add_host_unwinds failing_sysfs_env None None sample_mq_host).
  - cbn. lia.
  - reflexivity.
  - reflexivity.
Defined.

(** C3, as worded, fails without blk-mq: when the command freelist cannot
    be set up after [blk_init_tags] succeeded, the call returns [-ENOMEM]
    having acquired the tag map and released nothing; the map is still in
    [bqt]. *)
Lemma scsi_add_host_keeps_legacy_tags :
  exists k',
    scsi_add_host_with_dma failing_freelist_env None None (boot sample_host)
      = Done (- ENOMEM) k'
    /\ acquired (trace k') = [Res_legacy_tags]
    /\ released (trace k') = []
    /\ released (trace k') <> rev (acquired (trace k'))
    /\ bqt (shost k') = Some 8192.
Proof.
  eexists. split; [vm_compute; reflexivity | ].
  repeat split; try reflexivity. cbn. discriminate.
Qed.

(* ================================================================== *)
(** * Further properties *)

(** ** The state model under sequences of requests *)

Lemma set_states_cons (t : scsi_host_state) (ts : list scsi_host_state)
    (k : kernel) :
  set_states (t :: ts) k
  = match scsi_host_set_state t k with
    | Done r k1 =>
        match set_states ts k1 with
        | Done rs k2 => Done (r :: rs) k2
        | Bug k2 => Bug k2
        end
    | Bug k1 => Bug k1
    end.
Proof.
  cbn [set_states]. unfold bind at 1.
  destruct (scsi_host_set_state t k) as [r k1 | k1]; [ | reflexivity].
  unfold bind. destruct (set_states ts k1); reflexivity.
Qed.

(** One request: the state afterwards is [next_state], nothing else in
    the host changes, and the code is 0 exactly when the request is
    allowed. *)
Lemma set_state_step (t : scsi_host_state) (k : kernel) :
  exists r k1,
    scsi_host_set_state t k = Done r k1
    /\ cur_state k1 = next_state t (cur_state k)
    /\ shost k1 = set_shost_state (next_state t (cur_state k)) (shost k)
    /\ shost_freed k1 = shost_freed k
    /\ r = (if allowed (cur_state k) t then 0 else - EINVAL).
Proof.
  rewrite set_state_run. unfold next_state.
  destruct (state_is t (cur_state k)) eqn:Hsame.
  - apply state_is_true in Hsame. subst t. rewrite allowed_same.
    exists 0, k. repeat split. destruct k as [h f tr]. destruct h.
    reflexivity.
  - destruct (allowed (cur_state k) t); eexists _, _;
      (split; [reflexivity | ]); repeat split.
    destruct k as [h f tr]. destruct h. reflexivity.
Qed.

(** X1.  Once a host is in a state of the removal branch (CANCEL,
    CANCEL_RECOVERY, DEL_RECOVERY, DEL), no sequence of calls of
    [scsi_host_set_state] takes it out of that branch: CREATED, RUNNING
    and RECOVERY are never entered again. *)
Theorem removal_is_irreversible (targets : list scsi_host_state)
    (k : kernel) :
  removing (cur_state k) = true ->
  exists rs k',
    set_states targets k = Done rs k'
    /\ removing (cur_state k') = true.
Proof.
  revert k. induction targets as [ | t ts IH]; intros k Hrem.
  - exists [], k. split; [reflexivity | exact Hrem].
  - destruct (set_state_step t k) as (r & k1 & Hrun & Hst & _).
    assert (Hrem1 : removing (cur_state k1) = true).
    { rewrite Hst. unfold next_state.
      destruct (cur_state k), t; try discriminate Hrem; reflexivity. }
    destruct (IH k1 Hrem1) as (rs & k' & Hrun' & Hrem').
    exists (r :: rs), k'. rewrite set_states_cons, Hrun, Hrun'.
    split; [reflexivity | exact Hrem'].
Qed.

Lemma removal_is_irreversible_witness :
  exists rs k',
    set_states [SHOST_RUNNING; SHOST_CANCEL_RECOVERY; SHOST_RECOVERY;
                SHOST_CREATED]
      (boot (set_shost_state SHOST_CANCEL sample_host)) = Done rs k'
    /\ removing (cur_state k') = true.
Proof.
  apply (removal_is_irreversible
           [SHOST_RUNNING; SHOST_CANCEL_RECOVERY; SHOST_RECOVERY;
            SHOST_CREATED]
           (boot (set_shost_state SHOST_CANCEL sample_host))).
  reflexivity.
Defined.

(** X2.  DEL is final: on a host in DEL every request for another state
    is refused with [-EINVAL], every request for DEL returns 0, and after
    any sequence of requests the host record is the one it was. *)
Theorem del_is_final (targets : list scsi_host_state) (k : kernel) :
  cur_state k = SHOST_DEL ->
  exists k',
    set_states targets k
    = Done (map (fun t => if state_is t SHOST_DEL then 0 else - EINVAL)
              targets) k'
    /\ shost k' = shost k
    /\ shost_freed k' = shost_freed k.
Proof.
  revert k. induction targets as [ | t ts IH]; intros k Hdel.
  - exists k. repeat split.
  - destruct (set_state_step t k) as (r & k1 & Hrun & Hst & Hh & Hf & Hr).
    rewrite Hdel in *.
    assert (Hnext : next_state t SHOST_DEL = SHOST_DEL)
      by (destruct t; reflexivity).
    rewrite Hnext in *.
    assert (Hh1 : shost k1 = shost k).
    { rewrite Hh. destruct k as [h f tr]. destruct h.
      unfold cur_state in Hdel. cbn in *. rewrite Hdel. reflexivity. }
    destruct (IH k1 Hst) as (k' & Hrun' & Hh' & Hf').
    exists k'. rewrite set_states_cons, Hrun, Hrun'. cbn [map].
    split; [ | split; congruence].
    rewrite Hr. destruct t; reflexivity.
Qed.

Lemma del_is_final_witness :
  exists k',
    set_states [SHOST_RUNNING; SHOST_DEL; SHOST_CANCEL] removed
    = Done [- EINVAL; 0; - EINVAL] k'
    /\ shost k' = shost removed
    /\ shost_freed k' = shost_freed removed.
Proof.
  apply (del_is_final [SHOST_RUNNING; SHOST_DEL; SHOST_CANCEL] removed).
  vm_compute. reflexivity.
Defined.

(** X3.  CREATED is only ever the state a host starts in: if a host is in
    CREATED after a sequence of requests, it was in CREATED before it and
    the sequence changed nothing in the host record. *)
Theorem created_is_initial_only (targets : list scsi_host_state)
    (k : kernel) :
  exists rs k',
    set_states targets k = Done rs k'
    /\ (cur_state k' = SHOST_CREATED ->
        cur_state k = SHOST_CREATED /\ shost k' = shost k).
Proof.
  revert k. induction targets as [ | t ts IH]; intros k.
  - exists [], k. split; [reflexivity | auto].
  - destruct (set_state_step t k) as (r & k1 & Hrun & Hst & Hh & _).
    destruct (IH k1) as (rs & k' & Hrun' & Hback).
    exists (r :: rs), k'. rewrite set_states_cons, Hrun, Hrun'.
    split; [reflexivity | ]. intros Hc.
    destruct (Hback Hc) as [Hc1 Hh1]. rewrite Hst in Hc1.
    assert (Hk : cur_state k = SHOST_CREATED).
    { unfold next_state in Hc1.
      destruct (cur_state k), t; cbn in Hc1; congruence. }
    split; [exact Hk | ]. rewrite Hh1, Hh, Hc1.
    destruct k as [h f tr]. destruct h. unfold cur_state in Hk.
    cbn in *. rewrite Hk. reflexivity.
Qed.

(** X4.  No state is a dead end short of DEL: from every state at most
    three requests, each of them accepted, take the host to DEL. *)
Theorem del_is_reachable (k : kernel) :
  exists k',
    set_states (path_to_del (cur_state k)) k
    = Done (map (fun _ => 0) (path_to_del (cur_state k))) k'
    /\ cur_state k' = SHOST_DEL
    /\ (List.length (path_to_del (cur_state k)) <= 3)%nat.
Proof.
  destruct k as [h f tr]. destruct h. unfold cur_state. cbn [shost shost_state].
  match goal with
  | |- context [path_to_del ?s] => destruct s
  end; eexists; (split; [reflexivity | ]); split; try reflexivity;
    cbn; lia.
Qed.

(** X5.  Asking twice is the same as asking once: a second identical
    request returns the code of the first and leaves the host as the first
    left it. *)
Theorem set_state_twice (t : scsi_host_state) (k : kernel) :
  exists r k1 k2,
    scsi_host_set_state t k = Done r k1
    /\ scsi_host_set_state t k1 = Done r k2
    /\ shost k2 = shost k1.
Proof.
  destruct (set_state_step t k) as (r & k1 & Hrun & Hst & _ & _ & Hr).
  destruct (set_state_step t k1) as (r' & k2 & Hrun' & Hst' & Hh' & _ & Hr').
  exists r, k1, k2. split; [exact Hrun | ].
  assert (Hnn : next_state t (cur_state k1) = cur_state k1).
  { rewrite Hst. unfold next_state.
    destruct (cur_state k), t; reflexivity. }
  assert (Hrr : r' = r).
  { rewrite Hr, Hr', Hst. unfold next_state.
    destruct (cur_state k), t; reflexivity. }
  rewrite <- Hrr. split; [exact Hrun' | ].
  rewrite Hh', Hnn. destruct k1 as [h f tr]. destruct h. reflexivity.
Qed.

(** ** Removal: shape of a sequential run *)

Lemma trace_logs (es : list event) (k : kernel) :
  trace (logs es k) = trace k ++ es.
Proof.
  revert k. induction es as [ | e es IH]; intros k.
  - cbn. symmetry. apply app_nil_r.
  - cbn [logs fold_left]. change (fold_left _ es ?x) with (logs es x).
    rewrite IH. cbn [logged trace]. rewrite <- app_assoc. reflexivity.
Qed.

Lemma shost_logs (es : list event) (k : kernel) :
  shost (logs es k) = shost k /\ shost_freed (logs es k) = shost_freed k.
Proof.
  revert k. induction es as [ | e es IH]; intros k; [split; reflexivity | ].
  cbn [logs fold_left]. change (fold_left _ es ?x) with (logs es x).
  destruct (IH (logged e k)) as [H1 H2]. rewrite H1, H2. split; reflexivity.
Qed.

(** A sequential [scsi_remove_host] either gives up at once (in DEL and
    DEL_RECOVERY) or goes all the way to the unregistration. *)
Lemma remove_shape (k : kernel) :
  scsi_remove_host k
  = match cur_state k with
    | SHOST_DEL | SHOST_DEL_RECOVERY => Done tt (after_refused_remove k)
    | _ => scsi_remove_host_unregister (before_unregister k)
    end.
Proof.
  destruct k as [h f t]. destruct h. unfold cur_state, before_unregister,
    after_refused_remove. cbn [shost shost_state host_lock cur_state].
  match goal with
  | |- context [match ?s with SHOST_CREATED => _ | _ => _ end] => destruct s
  end; reflexivity.
Qed.

(** ** Computations that only add harmless calls *)

Section Emits.

Variable P : event -> bool.

Lemma emits_ret {A : Type} (a : A) : emits P (ret a).
Proof.
  intros k. exists a, k, []. rewrite app_nil_r. repeat split.
Qed.

Lemma emits_get_shost : emits P get_shost.
Proof.
  intros k. exists (shost k), k, []. rewrite app_nil_r. repeat split.
Qed.

Lemma emits_emit (e : event) : P e = true -> emits P (emit e).
Proof.
  intros He k. exists tt, (logged e k), [e]. repeat split.
  cbn. rewrite He. reflexivity.
Qed.

Lemma emits_modify (f : Scsi_Host -> Scsi_Host) : emits P (modify_shost f).
Proof.
  intros k. exists tt, (modified f k), []. rewrite app_nil_r. repeat split.
Qed.

Lemma emits_bind {A B : Type} (c : M A) (f : A -> M B) :
  emits P c -> (forall a, emits P (f a)) -> emits P (bind c f).
Proof.
  intros Hc Hf k. destruct (Hc k) as (a & k1 & n1 & Hrun & Ht & Hp).
  destruct (Hf a k1) as (b & k2 & n2 & Hrun2 & Ht2 & Hp2).
  exists b, k2, (n1 ++ n2). unfold bind. rewrite Hrun.
  split; [exact Hrun2 | ]. split.
  - rewrite Ht2, Ht. symmetry. apply app_assoc.
  - rewrite forallb_app, Hp, Hp2. reflexivity.
Qed.

Lemma emits_when (b : bool) (c : M unit) : emits P c -> emits P (when b c).
Proof. destruct b; [trivial | intros _; apply emits_ret]. Qed.

Lemma emits_kfree_shost : P Ev_kfree_shost = true -> emits P kfree_shost.
Proof.
  intros He. unfold kfree_shost.
  apply emits_bind; [apply emits_emit, He | ].
  intros _ k. eexists tt, _, []. rewrite app_nil_r. cbn. repeat split.
Qed.

End Emits.

Ltac emits_step :=
  first [ apply emits_ret | apply emits_get_shost | apply emits_modify
        | apply emits_emit; reflexivity
        | apply emits_kfree_shost; reflexivity
        | apply emits_when
        | assumption
        | lazymatch goal with
          | |- emits _ (bind _ _) => apply emits_bind; [ | intros ? ]
          | |- emits _ (match ?x with _ => _ end) => destruct x
          end ].

Ltac emits_all := repeat emits_step.

Lemma emits_plain_dev_release : emits is_plain scsi_host_dev_release.
Proof.
  unfold scsi_host_dev_release, kfree, destroy_workqueue,
    scsi_destroy_command_freelist, put_device_other, scsi_mq_destroy_tags.
  emits_all.
Qed.

Lemma emits_plain_put_device (d : device_ptr) : emits is_plain (put_device d).
Proof.
  pose proof emits_plain_dev_release as Hrel.
  assert (Hg : emits is_plain put_device_gendev).
  { unfold put_device_gendev, modify_gendev. emits_all. }
  destruct d; cbn [put_device]; trivial;
    unfold put_device_other, put_device_shost_dev, scsi_host_cls_release,
      modify_shost_dev; emits_all.
Qed.

Lemma emits_plain_unregister : emits is_plain scsi_remove_host_unregister.
Proof.
  pose proof (emits_plain_put_device Shost_dev) as Hput.
  unfold scsi_remove_host_unregister, device_unregister, device_del.
  emits_all.
Qed.

Lemma check_locks_app (st : bool * option lock_ptr) (t u : list event) :
  check_locks st (t ++ u)
  = match check_locks st t with
    | Some st' => check_locks st' u
    | None => None
    end.
Proof.
  revert st. induction t as [ | e t IH]; intros st; [reflexivity | ].
  cbn. destruct (lock_step st e); [apply IH | reflexivity].
Qed.

Lemma check_locks_plain (mutex : bool) (t : list event) :
  forallb is_plain t = true ->
  check_locks (mutex, None) t = Some (mutex, None)
  /\ forall l, forallb (names_lock l) t = true.
Proof.
  induction t as [ | e t IH]; intros Hp; [split; reflexivity | ].
  cbn in Hp. apply andb_prop in Hp. destruct Hp as [He Ht].
  destruct (IH Ht) as [IH1 IH2]. split.
  - cbn [check_locks]. destruct e; try discriminate He; cbn; exact IH1.
  - intros l. cbn [forallb]. rewrite IH2.
    destruct e; try discriminate He; reflexivity.
Qed.

Lemma lock_ptr_eqb_refl (l : lock_ptr) : lock_ptr_eqb l l = true.
Proof. destruct l; [reflexivity | apply Z.eqb_refl]. Qed.

Lemma before_unregister_host (k : kernel) :
  cur_state k <> SHOST_DEL -> cur_state k <> SHOST_DEL_RECOVERY ->
  exists s,
    (s = SHOST_DEL \/ s = SHOST_DEL_RECOVERY)
    /\ shost (before_unregister k) = set_shost_state s (shost k)
    /\ shost_freed (before_unregister k) = shost_freed k.
Proof.
  destruct k as [h f t]. destruct h. unfold cur_state, before_unregister.
  cbn [shost shost_state host_lock cur_state]. intros H1 H2.
  match goal with
  | |- context [match ?s with SHOST_CREATED => _ | _ => _ end] => destruct s
  end; try contradiction; eexists; (split; [ | split; reflexivity]); auto.
Qed.

Lemma refused_remove_host (k : kernel) :
  shost (after_refused_remove k) = shost k
  /\ shost_freed (after_refused_remove k) = shost_freed k
  /\ trace (after_refused_remove k)
     = trace k
       ++ [ Ev_mutex_lock_scan_mutex;
            Ev_spin_lock_irqsave (host_lock (shost k));
            Ev_illegal_transition (cur_state k) SHOST_CANCEL;
            Ev_illegal_transition (cur_state k) SHOST_CANCEL_RECOVERY;
            Ev_spin_unlock_irqrestore (host_lock (shost k));
            Ev_mutex_unlock_scan_mutex ].
Proof.
  unfold after_refused_remove. rewrite trace_logs.
  destruct (shost_logs
              [ Ev_mutex_lock_scan_mutex;
                Ev_spin_lock_irqsave (host_lock (shost k));
                Ev_illegal_transition (cur_state k) SHOST_CANCEL;
                Ev_illegal_transition (cur_state k) SHOST_CANCEL_RECOVERY;
                Ev_spin_unlock_irqrestore (host_lock (shost k));
                Ev_mutex_unlock_scan_mutex ] k) as [H1 H2].
  repeat split; assumption.
Qed.

(** Where a sequential [scsi_remove_host] ends. *)
Lemma remove_ends_deleted (k : kernel) :
  exists k1,
    scsi_remove_host k = Done tt k1
    /\ (cur_state k1 = SHOST_DEL \/ cur_state k1 = SHOST_DEL_RECOVERY).
Proof.
  rewrite remove_shape.
  destruct (scsi_host_state_eq_dec (cur_state k) SHOST_DEL) as [Hd | Hd].
  { rewrite Hd. eexists. split; [reflexivity | ].
    unfold cur_state in *. destruct (refused_remove_host k) as (-> & _).
    auto. }
  destruct (scsi_host_state_eq_dec (cur_state k) SHOST_DEL_RECOVERY)
    as [Hr | Hr].
  { rewrite Hr. eexists. split; [reflexivity | ].
    unfold cur_state in *. destruct (refused_remove_host k) as (-> & _).
    auto. }
  destruct (before_unregister_host k Hd Hr) as (s & Hs & Hh & _).
  destruct (preserves_unregister (before_unregister k))
    as ([] & k1 & Hrun & Hst).
  exists k1. split.
  - destruct (cur_state k); try contradiction; exact Hrun.
  - rewrite Hst. unfold cur_state. rewrite Hh.
    destruct Hs as [-> | ->]; auto.
Qed.

Lemma unregister_keeps_host (k : kernel) :
  krefg k <> 1 ->
  exists k',
    scsi_remove_host_unregister k = Done tt k'
    /\ shost_freed k' = shost_freed k
    /\ (krefg k' = krefg k \/ krefg k' = krefg k - 1).
Proof.
  destruct k as [h f t]. unfold krefg. cbn [shost]. intros Hk.
  unfold scsi_remove_host_unregister, device_unregister, device_del,
    put_device, put_device_shost_dev, modify_shost_dev, bind, emit,
    modify_shost, get_shost, when.
  cbn.
  destruct (dev_kref (shost_dev h) - 1 =? 0).
  - unfold scsi_host_cls_release, put_device_gendev, modify_gendev, bind,
      emit, modify_shost, get_shost, when. cbn.
    destruct (dev_kref (shost_gendev h) - 1 =? 0) eqn:Hz.
    + apply Z.eqb_eq in Hz. lia.
    + eexists. split; [reflexivity | ]. cbn. auto.
  - eexists. split; [reflexivity | ]. cbn. auto.
Qed.

(** [scsi_remove_host] on a host somebody else holds as well: it
    returns, the host is not released, and it is in DEL or DEL_RECOVERY
    afterwards. *)
Lemma remove_survives (k : kernel) :
  krefg k <> 1 ->
  exists k',
    scsi_remove_host k = Done tt k'
    /\ shost_freed k' = shost_freed k
    /\ (cur_state k' = SHOST_DEL \/ cur_state k' = SHOST_DEL_RECOVERY).
Proof.
  intros Hk. destruct (remove_ends_deleted k) as (k' & Hrun & Hs).
  exists k'. split; [exact Hrun | ]. split; [ | exact Hs].
  rewrite remove_shape in Hrun.
  destruct (scsi_host_state_eq_dec (cur_state k) SHOST_DEL) as [Hd | Hd].
  { rewrite Hd in Hrun. cbv iota in Hrun.
    assert (Hk' : k' = after_refused_remove k) by congruence.
    rewrite Hk'. apply refused_remove_host. }
  destruct (scsi_host_state_eq_dec (cur_state k) SHOST_DEL_RECOVERY)
    as [Hr | Hr].
  { rewrite Hr in Hrun. cbv iota in Hrun.
    assert (Hk' : k' = after_refused_remove k) by congruence.
    rewrite Hk'. apply refused_remove_host. }
  destruct (before_unregister_host k Hd Hr) as (s & _ & Hh & Hf).
  destruct (unregister_keeps_host (before_unregister k))
    as (k2 & Hrun2 & Hf2 & _).
  { unfold krefg. rewrite Hh. exact Hk. }
  assert (Heq : k' = k2).
  { assert (Hd' : Done tt k' = Done tt k2).
    { rewrite <- Hrun2, <- Hrun. destruct (cur_state k);
        try reflexivity; contradiction. }
    congruence. }
  rewrite Heq, Hf2. exact Hf.
Qed.



(** X7.  [scsi_remove_host] keeps its locking discipline, from every
    state of a host that outlives the call: the only spinlock it touches
    is the host's [host_lock]; it never takes a lock while it holds one
    of the two kinds already, drops only the lock it holds, holds the
    host lock only around its requests to the state model and never
    across a call that may sleep, forgets the children with [scan_mutex]
    held and the host lock dropped, and holds no lock when it returns, on
    the early return as well. *)
Theorem scsi_remove_host_locking (k : kernel) :
  krefg k <> 1 ->
  exists k' new,
    scsi_remove_host k = Done tt k'
    /\ shost_freed k' = shost_freed k
    /\ trace k' = trace k ++ new
    /\ check_locks (false, None) new = Some (false, None)
    /\ forallb (names_lock (host_lock (shost k))) new = true.
Proof.
  intros Hk. destruct (remove_survives k Hk) as (k' & Hrun & Hf & _).
  assert (Hnew : exists new,
             trace k' = trace k ++ new
             /\ check_locks (false, None) new = Some (false, None)
             /\ forallb (names_lock (host_lock (shost k))) new = true).
  2: { destruct Hnew as (new & Hnew). exists k', new. auto. }
  rewrite remove_shape in Hrun.
  destruct (emits_plain_unregister (before_unregister k))
    as ([] & k2 & tail & Hrun2 & Ht & Hp).
  destruct (check_locks_plain false tail Hp) as [Htail Hnames].
  specialize (Hnames (host_lock (shost k))).
  pose proof (lock_ptr_eqb_refl (host_lock (shost k))) as Hrefl.
  unfold before_unregister, after_refused_remove in *.
  destruct (cur_state k);
    try (assert (Hk2 : k' = k2) by congruence; rewrite Hk2, Ht;
         cbn [logged with_state shost trace];
         rewrite !trace_logs; cbn [logged with_state shost trace];
         rewrite ?trace_logs; rewrite <- !app_assoc;
         eexists; split; [reflexivity | ];
         rewrite check_locks_app, forallb_app;
         repeat (progress
                   (cbn [app check_locks lock_step forallb names_lock andb];
                    rewrite ?Hrefl));
         split; [exact Htail | exact Hnames]);
    (match type of Hrun with
     | Done tt ?x = _ => assert (Hk1 : k' = x) by congruence
     end;
     rewrite Hk1, trace_logs; eexists; split; [reflexivity | ];
     repeat (progress
               (cbn [app check_locks lock_step forallb names_lock andb];
                rewrite ?Hrefl));
     split; reflexivity).
Qed.

Lemma scsi_remove_host_locking_witness :
  exists k' new,
    scsi_remove_host published = Done tt k'
    /\ shost_freed k' = shost_freed published
    /\ trace k' = trace published ++ new
    /\ check_locks (false, None) new = Some (false, None)
    /\ forallb (names_lock (host_lock (shost published))) new = true.
Proof.
  apply (scsi_remove_host_locking published).
  vm_compute. discriminate.
Defined.



(** ** The release callback and the last reference *)

Lemma runs_logs {A : Type} (c : M A) (a : A) (es : list event) (k : kernel)
    (Q : A -> kernel -> Prop) :
  c k = Done a (logs es k) -> Q a (logs es k) -> runs c k Q.
Proof. intros Hc HQ. exists a, (logs es k). split; assumption. Qed.

Lemma dev_release_run (k : kernel) :
  exists k',
    scsi_host_dev_release k = Done tt k'
    /\ shost_freed k' = true
    /\ trace k' = trace k ++ release_calls (shost k)
    /\ cur_state k' = cur_state k.
Proof.
  assert (Hgoal : runs scsi_host_dev_release k
                    (fun _ k' =>
                       shost_freed k' = true
                       /\ trace k' = trace k ++ release_calls (shost k)
                       /\ cur_state k' = cur_state k)).
  2: { destruct Hgoal as ([] & k' & Hrun & HQ). exists k'. auto. }
  unfold scsi_host_dev_release, release_calls.
  set (h := shost k).
  step_in. fold h.
  apply runs_bind.
  eapply (runs_logs _ tt [Ev_scsi_proc_hostdir_rm]); [reflexivity | ].
  apply runs_bind.
  eapply (runs_logs _ tt (match tmf_work_q h with
                          | Some wq => [Ev_destroy_workqueue wq]
                          | None => []
                          end));
    [destruct (tmf_work_q h); reflexivity | ].
  apply runs_bind.
  eapply (runs_logs _ tt (match ehandler h with
                          | Task_null => []
                          | t => [Ev_kthread_stop t]
                          end));
    [destruct (ehandler h); reflexivity | ].
  apply runs_bind.
  eapply (runs_logs _ tt (match work_q h with
                          | Some wq => [Ev_destroy_workqueue wq]
                          | None => []
                          end));
    [destruct (work_q h); reflexivity | ].
  apply runs_bind.
  eapply (runs_logs _ tt (match uspace_req_q h with
                          | Some q =>
                              [Ev_blk_cleanup_queue; Ev_kfree (queuedata q)]
                          | None => []
                          end));
    [destruct (uspace_req_q h); reflexivity | ].
  apply runs_bind.
  eapply (runs_logs _ tt (if state_is (shost_state h) SHOST_CREATED
                          then [Ev_kfree_dev_name Shost_dev] else []));
    [destruct (state_is (shost_state h) SHOST_CREATED); reflexivity | ].
  apply runs_bind.
  eapply (runs_logs _ tt [Ev_scsi_destroy_command_freelist]);
    [reflexivity | ].
  apply runs_bind.
  match goal with
  | |- runs _ ?kk _ => set (k0 := kk)
  end.
  assert (Hh0 : shost k0 = h).
  { subst k0.
    repeat match goal with
           | |- shost (logs ?es ?x) = _ => rewrite (proj1 (shost_logs es x))
           end.
    reflexivity. }
  assert (Hs0 : cur_state k0 = cur_state k)
    by (unfold cur_state; rewrite Hh0; reflexivity).
  assert (Hf0 : trace k0
                = trace k
                  ++ [Ev_scsi_proc_hostdir_rm]
                  ++ match tmf_work_q h with
                     | Some wq => [Ev_destroy_workqueue wq]
                     | None => []
                     end
                  ++ match ehandler h with
                     | Task_null => []
                     | t => [Ev_kthread_stop t]
                     end
                  ++ match work_q h with
                     | Some wq => [Ev_destroy_workqueue wq]
                     | None => []
                     end
                  ++ match uspace_req_q h with
                     | Some q =>
                         [Ev_blk_cleanup_queue; Ev_kfree (queuedata q)]
                     | None => []
                     end
                  ++ (if state_is (shost_state h) SHOST_CREATED
                      then [Ev_kfree_dev_name Shost_dev] else [])
                  ++ [Ev_scsi_destroy_command_freelist])
    by (subst k0; rewrite !trace_logs, <- !app_assoc; reflexivity).
  clearbody k0.
  (* the tags, then the rest *)
  assert (Htail :
            forall (tags : list event) (k1 : kernel),
              shost_freed k1 = shost_freed k1 ->
              cur_state k1 = cur_state k ->
              trace k1 = trace k0 ++ tags ->
              runs
                (kfree (shost_data h) ;;
                 when (negb (state_is (shost_state h) SHOST_CREATED))
                   match dev_parent (shost_gendev h) with
                   | Some p => put_device_other p
                   | None => ret tt
                   end ;;
                 kfree_shost) k1
                (fun _ k' =>
                   shost_freed k' = true
                   /\ trace k'
                      = trace k0 ++ tags ++ [Ev_kfree (shost_data h)]
                        ++ (if negb (state_is (shost_state h) SHOST_CREATED)
                            then match dev_parent (shost_gendev h) with
                                 | Some p => [Ev_put_device p]
                                 | None => []
                                 end
                            else [])
                        ++ [Ev_kfree_shost]
                   /\ cur_state k' = cur_state k)).
  { intros tags k1 _ Hs1 Ht1. unfold kfree, kfree_shost, put_device_other.
    step_in. unfold when.
    destruct (negb (state_is (shost_state h) SHOST_CREATED));
      [destruct (dev_parent (shost_gendev h)) | ];
      step_in; step_in;
      (eexists tt, _; split; [reflexivity | ]);
      cbn [logged shost shost_freed trace cur_state];
      rewrite Ht1, <- ?app_assoc; repeat split; try reflexivity;
      exact Hs1. }
  assert (Hfinish :
            forall (tags : list event),
              (if use_blk_mq h
               then match tag_set_tags h with
                    | Some _ => [Ev_scsi_mq_destroy_tags]
                    | None => []
                    end
               else match bqt h with
                    | Some p => [Ev_blk_free_tags p]
                    | None => []
                    end) = tags ->
              forall k',
                trace k'
                = trace k0 ++ tags ++ [Ev_kfree (shost_data h)]
                  ++ (if negb (state_is (shost_state h) SHOST_CREATED)
                      then match dev_parent (shost_gendev h) with
                           | Some p => [Ev_put_device p]
                           | None => []
                           end
                      else [])
                  ++ [Ev_kfree_shost] ->
                trace k'
                = trace k
                  ++ [Ev_scsi_proc_hostdir_rm]
                  ++ match tmf_work_q h with
                     | Some wq => [Ev_destroy_workqueue wq]
                     | None => []
                     end
                  ++ match ehandler h with
                     | Task_null => []
                     | t => [Ev_kthread_stop t]
                     end
                  ++ match work_q h with
                     | Some wq => [Ev_destroy_workqueue wq]
                     | None => []
                     end
                  ++ match uspace_req_q h with
                     | Some q =>
                         [Ev_blk_cleanup_queue; Ev_kfree (queuedata q)]
                     | None => []
                     end
                  ++ (if state_is (shost_state h) SHOST_CREATED
                      then [Ev_kfree_dev_name Shost_dev] else [])
                  ++ [Ev_scsi_destroy_command_freelist]
                  ++ (if use_blk_mq h
                      then match tag_set_tags h with
                           | Some _ => [Ev_scsi_mq_destroy_tags]
                           | None => []
                           end
                      else match bqt h with
                           | Some p => [Ev_blk_free_tags p]
                           | None => []
                           end)
                  ++ [Ev_kfree (shost_data h)]
                  ++ (if negb (state_is (shost_state h) SHOST_CREATED)
                      then match dev_parent (shost_gendev h) with
                           | Some p => [Ev_put_device p]
                           | None => []
                           end
                      else [])
                  ++ [Ev_kfree_shost]).
  { intros tags Htags k' Ht. rewrite Ht, Hf0, Htags, <- !app_assoc.
    reflexivity. }
  unfold shost_use_blk_mq.
  destruct (use_blk_mq h) eqn:Hmq.
  - step_in. rewrite Hh0.
    destruct (tag_set_tags h) eqn:Htags.
    + unfold scsi_mq_destroy_tags. step_in. step_in.
      eapply runs_mono; [apply (Htail [Ev_scsi_mq_destroy_tags]) | ];
        try reflexivity; try exact Hs0.
      intros [] k' (Hf & Ht & Hs). split; [exact Hf | ].
      split; [ | exact Hs]. apply (Hfinish _ eq_refl), Ht.
    + step_in.
      eapply runs_mono; [apply (Htail []) | ];
        try reflexivity; try exact Hs0; [symmetry; apply app_nil_r | ].
      intros [] k' (Hf & Ht & Hs). split; [exact Hf | ].
      split; [ | exact Hs]. apply (Hfinish _ eq_refl), Ht.
  - destruct (bqt h) eqn:Hbqt.
    + step_in.
      eapply runs_mono; [apply (Htail [Ev_blk_free_tags z]) | ];
        try reflexivity; try exact Hs0.
      intros [] k' (Hf & Ht & Hs). split; [exact Hf | ].
      split; [ | exact Hs]. apply (Hfinish _ eq_refl), Ht.
    + step_in.
      eapply runs_mono; [apply (Htail []) | ];
        try reflexivity; try exact Hs0; [symmetry; apply app_nil_r | ].
      intros [] k' (Hf & Ht & Hs). split; [exact Hf | ].
      split; [ | exact Hs]. apply (Hfinish _ eq_refl), Ht.
Qed.

Ltac split_release_fields :=
  repeat match goal with
         | |- context [match ?x with _ => _ end] =>
             first [ is_var x; destruct x | destruct x eqn:? ]
         end.

Lemma release_calls_free_once (h : Scsi_Host) :
  filter is_kfree_shost (release_calls h) = [Ev_kfree_shost]
  /\ last (release_calls h) Ev_dump_stack = Ev_kfree_shost.
Proof.
  unfold release_calls. split.
  - rewrite !filter_app.
    destruct (tmf_work_q h), (ehandler h), (work_q h), (uspace_req_q h),
      (state_is (shost_state h) SHOST_CREATED), (use_blk_mq h),
      (tag_set_tags h), (bqt h), (dev_parent (shost_gendev h));
      reflexivity.
  - rewrite !app_assoc. apply last_last.
Qed.

Lemma release_calls_kinds (h : Scsi_Host) :
  filter is_thread_or_queue_stop (release_calls h)
  = match tmf_work_q h with
    | Some wq => [Ev_destroy_workqueue wq]
    | None => []
    end
    ++ match ehandler h with
       | Task_null => []
       | t => [Ev_kthread_stop t]
       end
    ++ match work_q h with
       | Some wq => [Ev_destroy_workqueue wq]
       | None => []
       end
  /\ filter is_put_device (release_calls h)
     = (if state_is (shost_state h) SHOST_CREATED then []
        else match dev_parent (shost_gendev h) with
             | Some p => [Ev_put_device p]
             | None => []
             end)
  /\ filter is_kfree_dev_name (release_calls h)
     = (if state_is (shost_state h) SHOST_CREATED
        then [Ev_kfree_dev_name Shost_dev] else [])
  /\ filter is_tag_release (release_calls h)
     = (if use_blk_mq h
        then match tag_set_tags h with
             | Some _ => [Ev_scsi_mq_destroy_tags]
             | None => []
             end
        else match bqt h with
             | Some p => [Ev_blk_free_tags p]
             | None => []
             end).
Proof.
  unfold release_calls. rewrite !filter_app.
  destruct (tmf_work_q h), (ehandler h), (work_q h), (uspace_req_q h),
    (state_is (shost_state h) SHOST_CREATED), (use_blk_mq h),
    (tag_set_tags h), (bqt h), (dev_parent (shost_gendev h));
    repeat split; reflexivity.
Qed.

Lemma put_gendev_run (k : kernel) :
  exists k',
    scsi_host_put k = Done tt k'
    /\ cur_state k' = cur_state k
    /\ if krefg k =? 1
       then shost_freed k' = true
            /\ trace k'
               = trace k ++ Ev_put_device Shost_gendev
                 :: release_calls (shost k)
       else shost_freed k' = shost_freed k
            /\ trace k' = trace k ++ [Ev_put_device Shost_gendev]
            /\ shost k'
               = set_shost_gendev
                   (set_dev_kref (krefg k - 1) (shost_gendev (shost k)))
                   (shost k).
Proof.
  unfold scsi_host_put. cbn [put_device].
  unfold put_device_gendev, modify_gendev, bind at 1, emit.
  unfold bind at 1, modify_shost. unfold bind at 1, get_shost. cbn [shost].
  cbn [dev_kref set_dev_kref shost_gendev set_shost_gendev].
  unfold krefg.
  replace (dev_kref (shost_gendev (shost k)) - 1 =? 0)
    with (dev_kref (shost_gendev (shost k)) =? 1)
    by (destruct (Z.eqb_spec (dev_kref (shost_gendev (shost k))) 1),
          (Z.eqb_spec (dev_kref (shost_gendev (shost k)) - 1) 0);
        try reflexivity; lia).
  destruct (dev_kref (shost_gendev (shost k)) =? 1); unfold when.
  - match goal with
    | |- context [scsi_host_dev_release ?k0] =>
        destruct (dev_release_run k0) as (k' & Hrun & Hf & Ht & Hs)
    end.
    exists k'. split; [exact Hrun | ]. split; [exact Hs | ].
    split; [exact Hf | ]. rewrite Ht. cbn. rewrite <- app_assoc.
    reflexivity.
  - eexists. split; [reflexivity | ]. cbn. repeat split.
Qed.

(** X9.  Taking a reference with [scsi_host_get] and giving it back with
    [scsi_host_put] leaves a referenced host that is not in DEL exactly
    as it was: same record, not released, two calls logged. *)
Theorem scsi_host_get_put_round_trip (k : kernel) :
  cur_state k <> SHOST_DEL ->
  krefg k <> 0 ->
  exists k',
    (got <- scsi_host_get ;; scsi_host_put) k = Done tt k'
    /\ shost k' = shost k
    /\ shost_freed k' = shost_freed k
    /\ trace k'
       = trace k ++ [Ev_get_device Shost_gendev; Ev_put_device Shost_gendev].
Proof.
  intros Hs Hk. destruct k as [h f t]. unfold cur_state, krefg in *.
  cbn [shost] in *.
  unfold scsi_host_get, scsi_host_put, bind, get_shost. cbn [shost].
  destruct (state_is (shost_state h) SHOST_DEL) eqn:Hdel.
  { apply state_is_true in Hdel. contradiction. }
  unfold get_device, put_device, put_device_gendev, modify_gendev, bind,
    emit, modify_shost, get_shost, when. cbn.
  destruct (dev_kref (shost_gendev h) + 1 - 1 =? 0) eqn:Hz.
  { apply Z.eqb_eq in Hz. lia. }
  eexists. split; [reflexivity | ]. cbn.
  split; [ | split; [reflexivity | rewrite <- app_assoc; reflexivity]].
  replace (dev_kref (shost_gendev h) + 1 - 1)
    with (dev_kref (shost_gendev h)) by lia.
  destruct h as []. cbn [shost_gendev].
  repeat match goal with d : device |- _ => destruct d end.
  reflexivity.
Qed.

Lemma scsi_host_get_put_round_trip_witness :
  exists k',
    (got <- scsi_host_get ;; scsi_host_put) published = Done tt k'
    /\ shost k' = shost published
    /\ shost_freed k' = shost_freed published
    /\ trace k'
       = trace published
         ++ [Ev_get_device Shost_gendev; Ev_put_device Shost_gendev].
Proof.
  apply (scsi_host_get_put_round_trip published);
    vm_compute; discriminate.
Defined.


(** X11.  What the last [scsi_host_put] tears down: the task-management
    queue, the error-handler thread and the work queue, each if present
    and in that order; the tag set under blk-mq if it is still there, else
    the legacy tag map if there is one; the reference on the parent unless
    the host is still in CREATED, in which case the name of [shost_dev] is
    freed instead. *)
Theorem scsi_host_put_teardown (k : kernel) :
  krefg k = 1 ->
  exists k' new,
    scsi_host_put k = Done tt k'
    /\ trace k' = trace k ++ Ev_put_device Shost_gendev :: new
    /\ filter is_thread_or_queue_stop new
       = match tmf_work_q (shost k) with
         | Some wq => [Ev_destroy_workqueue wq]
         | None => []
         end
         ++ match ehandler (shost k) with
            | Task_null => []
            | t => [Ev_kthread_stop t]
            end
         ++ match work_q (shost k) with
            | Some wq => [Ev_destroy_workqueue wq]
            | None => []
            end
    /\ filter is_put_device new
       = (if state_is (cur_state k) SHOST_CREATED then []
          else match dev_parent (shost_gendev (shost k)) with
               | Some p => [Ev_put_device p]
               | None => []
               end)
    /\ filter is_kfree_dev_name new
       = (if state_is (cur_state k) SHOST_CREATED
          then [Ev_kfree_dev_name Shost_dev] else [])
    /\ filter is_tag_release new
       = (if use_blk_mq (shost k)
          then match tag_set_tags (shost k) with
               | Some _ => [Ev_scsi_mq_destroy_tags]
               | None => []
               end
          else match bqt (shost k) with
               | Some p => [Ev_blk_free_tags p]
               | None => []
               end).
Proof.
  intros Hone. destruct (put_gendev_run k) as (k' & Hrun & _ & Hcases).
  rewrite Hone in Hcases. cbn in Hcases. destruct Hcases as [_ Ht].
  exists k', (release_calls (shost k)). split; [exact Hrun | ].
  split; [exact Ht | ]. apply release_calls_kinds.
Qed.

Lemma scsi_host_put_teardown_witness :
  krefg (boot sample_host) = 1
  /\ exists k' new,
    scsi_host_put (boot sample_host) = Done tt k'
    /\ trace k' = Ev_put_device Shost_gendev :: new
    /\ filter is_thread_or_queue_stop new
       = [Ev_destroy_workqueue (Wq ("scsi_tmf_%d"%string, 0));
          Ev_kthread_stop (Task ("scsi_eh_%d"%string, 0))]
    /\ filter is_put_device new = []
    /\ filter is_kfree_dev_name new = [Ev_kfree_dev_name Shost_dev]
    /\ filter is_tag_release new = [].
Proof.
  split; [reflexivity | ].
  exact (scsi_host_put_teardown (boot sample_host) eq_refl).
Defined.

(** ** Allocation *)

Lemma eh_deadline_init_warning (HZ d : Z) (sht : scsi_host_template) :
  snd (eh_deadline_init HZ d sht) = []
  \/ (snd (eh_deadline_init HZ d sht) = [eh_deadline_warning]
      /\ fst (eh_deadline_init HZ d sht) = INT_MAX).
Proof.
  unfold eh_deadline_init.
  destruct ((d =? -1) || negb (sht_eh_host_reset_handler sht));
    [now left | ].
  destruct (to_ulong (to_ulong d * to_ulong HZ) >? INT_MAX);
    [right; split; reflexivity | now left].
Qed.

(** X12.  [scsi_host_alloc] returns a host exactly when its three
    allocators succeed.  The calls it makes to give something back when
    it fails are [kfree(shost)], once, if [kzalloc] had succeeded, and
    before it [kthread_stop] on the error-handler thread if that had
    been started (the work queue failed); it makes no other on any path:
    in particular neither name given to the two devices by
    [dev_set_name] is freed.  The proc directory is added only on
    success. *)
Theorem scsi_host_alloc_outcome (HZ : Z) (A : alloc_env) (g : globals)
    (sht : scsi_host_template) (privsize : Z) :
  let res := scsi_host_alloc HZ A g sht privsize in
  let no := to_uint (to_int (scsi_host_next_hn g + 1) - 1) in
  (fst (fst res) <> None
   <-> kzalloc_shost_ok A = true /\ kthread_run_err A = None
       /\ alloc_workqueue_ok A = true)
  /\ filter is_kfree_shost (snd res)
     = (if kzalloc_shost_ok A
        then match kthread_run_err A with
             | Some _ => [Ev_kfree_shost]
             | None =>
                 if alloc_workqueue_ok A then [] else [Ev_kfree_shost]
             end
        else [])
  /\ filter is_thread_or_queue_stop (snd res)
     = (if kzalloc_shost_ok A
        then match kthread_run_err A with
             | Some _ => []
             | None =>
                 if alloc_workqueue_ok A then []
                 else [Ev_kthread_stop (Task ("scsi_eh_%d"%string, no))]
             end
        else [])
  /\ existsb is_hostdir_add (snd res)
     = match fst (fst res) with
       | Some _ => true
       | None => false
       end
  /\ filter is_release (snd res)
     = filter is_thread_or_queue_stop (snd res)
       ++ filter is_kfree_shost (snd res)
  /\ filter is_kfree_dev_name (snd res) = [].
Proof.
  cbv zeta. unfold scsi_host_alloc.
  destruct (kzalloc_shost_ok A); cbn [negb].
  2: { cbn. repeat split; try discriminate; try tauto.
       intros (H & _). discriminate H. }
  pose proof (eh_deadline_init_warning HZ (shost_eh_deadline g) sht) as Hw.
  destruct (eh_deadline_init HZ (shost_eh_deadline g) sht) as [dl w].
  cbn [fst snd] in Hw.
  assert (Hplain : w = [] \/ w = [eh_deadline_warning]) by tauto.
  clear Hw.
  destruct (kthread_run_err A) as [e | ], (alloc_workqueue_ok A);
    cbn [fst snd]; rewrite !filter_app, !existsb_app;
    destruct Hplain as [-> | ->]; cbn;
    repeat split; try discriminate; try tauto;
    try (intros (_ & H & _); discriminate H);
    try (intros (_ & _ & H); discriminate H);
    try (intros H; exfalso; apply H; reflexivity).
Qed.

Lemma to_uint_to_int (x : Z) : to_uint (to_int x) = to_uint x.
Proof.
  unfold to_uint, to_int.
  rewrite <- (Zminus_mod_idemp_l ((x + 2 ^ 31) mod 2 ^ 32)).
  rewrite Z.mod_mod by lia.
  rewrite Zminus_mod_idemp_l. f_equal. lia.
Qed.

Lemma host_no_of_counter (c : Z) :
  to_uint (to_int (c + 1) - 1) = to_uint c.
Proof.
  unfold to_uint at 1. rewrite <- Zminus_mod_idemp_l.
  change (to_int (c + 1) mod 2 ^ 32) with (to_uint (to_int (c + 1))).
  rewrite to_uint_to_int. unfold to_uint.
  rewrite Zminus_mod_idemp_l. f_equal. lia.
Qed.

(** X13.  The host number: a successful [scsi_host_alloc] numbers its host
    with the value the counter had, as an unsigned int; the counter moves
    on by one as soon as the host's memory was obtained, also when the
    allocation then fails, and stays put otherwise; the other file-scope
    variables are not written. *)
Theorem scsi_host_alloc_host_no (HZ : Z) (A : alloc_env) (g : globals)
    (sht : scsi_host_template) (privsize : Z) :
  let res := scsi_host_alloc HZ A g sht privsize in
  scsi_host_next_hn (snd (fst res))
  = (if kzalloc_shost_ok A then to_int (scsi_host_next_hn g + 1)
     else scsi_host_next_hn g)
  /\ shost_eh_deadline (snd (fst res)) = shost_eh_deadline g
  /\ scsi_use_blk_mq (snd (fst res)) = scsi_use_blk_mq g
  /\ match fst (fst res) with
     | Some h =>
         host_no h = to_uint (scsi_host_next_hn g)
         /\ 0 <= host_no h < 2 ^ 32
     | None => True
     end.
Proof.
  cbv zeta. unfold scsi_host_alloc.
  destruct (kzalloc_shost_ok A); cbn [negb]; [ | cbn; auto].
  destruct (eh_deadline_init HZ (shost_eh_deadline g) sht) as [dl w].
  destruct (kthread_run_err A) as [e | ], (alloc_workqueue_ok A);
    cbn [fst snd scsi_host_next_hn shost_eh_deadline scsi_use_blk_mq];
    repeat split; cbn [init_host host_no];
    try apply host_no_of_counter;
    rewrite host_no_of_counter; unfold to_uint;
    apply Z.mod_pos_bound; lia.
Qed.

(** What one allocation does to the counter, and the number it gives. *)
Lemma alloc_counter (HZ : Z) (A : alloc_env) (g : globals)
    (sht : scsi_host_template) (privsize : Z) (r : option Scsi_Host)
    (g' : globals) (t : list event) :
  scsi_host_alloc HZ A g sht privsize = (r, g', t) ->
  (r = None /\ g' = g)
  \/ (scsi_host_next_hn g' = to_int (scsi_host_next_hn g + 1)
      /\ forall h, r = Some h -> host_no h = to_uint (scsi_host_next_hn g)).
Proof.
  unfold scsi_host_alloc.
  destruct (kzalloc_shost_ok A); cbn [negb].
  2: { intros H. injection H as <- <- _. now left. }
  destruct (eh_deadline_init HZ (shost_eh_deadline g) sht) as [dl w].
  destruct (kthread_run_err A) as [e | ], (alloc_workqueue_ok A);
    intros H; injection H as <- <- _; right;
    (split; [reflexivity | ]); intros h Hh; try discriminate Hh;
    injection Hh as <-; apply host_no_of_counter.
Qed.

Lemma host_no_after_shift (c j : Z) :
  host_no_after (to_int (c + 1)) j = host_no_after c (j + 1).
Proof.
  unfold host_no_after. rewrite to_uint_to_int.
  unfold to_uint. rewrite !Zplus_mod_idemp_l. f_equal. lia.
Qed.

Lemma host_no_after_injective (c x y : Z) :
  0 <= x < 2 ^ 32 -> 0 <= y < 2 ^ 32 ->
  host_no_after c x = host_no_after c y -> x = y.
Proof.
  unfold host_no_after. intros Hx Hy Heq.
  assert (Hm : 2 ^ 32 <> 0) by lia.
  pose proof (Z.div_mod (to_uint c + x) (2 ^ 32) Hm) as Ha.
  pose proof (Z.div_mod (to_uint c + y) (2 ^ 32) Hm) as Hb.
  rewrite Heq in Ha.
  set (qa := (to_uint c + x) / 2 ^ 32) in *.
  set (qb := (to_uint c + y) / 2 ^ 32) in *.
  assert (Hq : x - y = 2 ^ 32 * (qa - qb)) by lia.
  assert (Hz : qa - qb = 0) by lia.
  lia.
Qed.

(** The numbers of the hosts of successive allocations are the counter
    plus distinct offsets, each below the number of requests. *)
Lemma alloc_hosts_numbers (HZ : Z) (reqs : list alloc_request) :
  forall g : globals,
  exists js : list Z,
    map host_no (alloc_hosts HZ reqs g)
    = map (host_no_after (scsi_host_next_hn g)) js
    /\ NoDup js
    /\ Forall (fun j => 0 <= j < Z.of_nat (List.length reqs)) js.
Proof.
  induction reqs as [ | [[A sht] privsize] rest IH]; intros g.
  { exists []. repeat split; constructor. }
  cbn [alloc_hosts].
  pose proof (alloc_counter HZ A g sht privsize) as Hno.
  destruct (scsi_host_alloc HZ A g sht privsize) as [[r g'] t].
  specialize (Hno r g' t eq_refl).
  destruct (IH g') as (js & Hmap & Hnodup & Hbound).
  clear IH.
  destruct Hno as [[-> ->] | [Hnext Hh]].
  - (* nothing was allocated *)
    exists js. split; [exact Hmap | ]. split; [exact Hnodup | ].
    revert Hbound. apply Forall_impl; intros ? ?; cbn beta in *;
      cbn [List.length]; rewrite ?Nat2Z.inj_succ; lia.
  - (* the counter moved on *)
    assert (Hrest : map host_no (alloc_hosts HZ rest g')
                    = map (host_no_after (scsi_host_next_hn g))
                        (map (fun j => j + 1) js)).
    { rewrite Hmap, map_map, Hnext. apply map_ext.
      intros j. apply host_no_after_shift. }
    assert (Hnodup' : NoDup (map (fun j => j + 1) js)).
    { apply NoDup_map_NoDup_ForallPairs; [ | exact Hnodup].
      intros x y _ _ Hxy. lia. }
    assert (Hbound' : Forall
                        (fun j => 0 < j < Z.of_nat (List.length rest) + 1)
                        (map (fun j => j + 1) js)).
    { rewrite Forall_map. revert Hbound. apply Forall_impl; intros ? ?; cbn beta in *;
      cbn [List.length]; rewrite ?Nat2Z.inj_succ; lia. }
    destruct r as [h | ].
    + exists (0 :: map (fun j => j + 1) js). cbn [map]. split.
      * f_equal; [ | exact Hrest]. rewrite (Hh h eq_refl).
        unfold host_no_after, to_uint. rewrite Z.add_0_r.
        symmetry. apply Z.mod_mod. lia.
      * split.
        -- constructor; [ | exact Hnodup'].
           intros Hin. rewrite Forall_forall in Hbound'.
           specialize (Hbound' 0 Hin). lia.
        -- constructor; [cbn [List.length]; lia | ].
           revert Hbound'. apply Forall_impl; intros ? ?; cbn beta in *;
      cbn [List.length]; rewrite ?Nat2Z.inj_succ; lia.
    + exists (map (fun j => j + 1) js). split; [exact Hrest | ].
      split; [exact Hnodup' | ].
      revert Hbound'. apply Forall_impl; intros ? ?; cbn beta in *;
      cbn [List.length]; rewrite ?Nat2Z.inj_succ; lia.
Qed.

(** X14.  Hosts allocated one after the other get different numbers, as
    long as no more than 2^32 allocations are made: whatever the
    templates, and whichever of the allocations fail in between. *)
Theorem scsi_host_alloc_distinct_numbers (HZ : Z)
    (reqs : list alloc_request) (g : globals) :
  Z.of_nat (List.length reqs) <= 2 ^ 32 ->
  NoDup (map host_no (alloc_hosts HZ reqs g)).
Proof.
  intros Hlen.
  destruct (alloc_hosts_numbers HZ reqs g) as (js & -> & Hnodup & Hbound).
  apply NoDup_map_NoDup_ForallPairs; [ | exact Hnodup].
  rewrite Forall_forall in Hbound.
  intros x y Hx Hy. apply Hbound in Hx, Hy.
  apply host_no_after_injective; lia.
Qed.

Lemma scsi_host_alloc_distinct_numbers_witness :
  NoDup
    (map host_no
       (alloc_hosts 100
          [ (sample_alloc_env, sample_sht, 0);
            ({| kzalloc_shost_ok := true; kthread_run_err := Some (-12);
                alloc_workqueue_ok := true |}, sample_sht, 0);
            (sample_alloc_env, sample_sht, 16) ]
          {| scsi_host_next_hn := INT_MAX; shost_eh_deadline := -1;
             scsi_use_blk_mq := false |})).
Proof.
  apply scsi_host_alloc_distinct_numbers. vm_compute. discriminate.
Defined.

(** X15.  The deadline of an allocated host is either disabled or a
    tick count an [int] can hold without being negative, whatever the
    setting and the tick rate; and the warning is printed only when the
    deadline was clamped to [INT_MAX]. *)
Theorem eh_deadline_in_range (HZ : Z) (setting : Z)
    (sht : scsi_host_template) :
  (fst (eh_deadline_init HZ setting sht) = -1
   \/ 0 <= fst (eh_deadline_init HZ setting sht) <= INT_MAX)
  /\ (snd (eh_deadline_init HZ setting sht) <> [] ->
      fst (eh_deadline_init HZ setting sht) = INT_MAX).
Proof.
  split.
  2: { destruct (eh_deadline_init_warning HZ setting sht) as [-> | [_ H]];
         [intros C; now contradiction C | intros _; exact H]. }
  unfold eh_deadline_init.
  destruct ((setting =? -1) || negb (sht_eh_host_reset_handler sht));
    [now left | ].
  destruct (Z.gtb_spec (to_ulong (to_ulong setting * to_ulong HZ)) INT_MAX)
    as [Hbig | Hsmall]; cbn [fst]; right; [unfold INT_MAX; lia | ].
  unfold to_ulong, ULONG_MODULUS in Hsmall.
  rewrite <- Z.mul_mod in Hsmall by lia.
  unfold to_int, INT_MAX in *.
  pose proof (Z.mod_pos_bound (setting * HZ) (2 ^ 64) ltac:(lia)) as Hpos.
  pose proof (Z.div_mod (setting * HZ) (2 ^ 64) ltac:(lia)) as Hdiv.
  set (v := (setting * HZ) mod 2 ^ 64) in *.
  set (q := (setting * HZ) / 2 ^ 64) in *.
  assert (Hmod : (setting * HZ + 2 ^ 31) mod 2 ^ 32 = v + 2 ^ 31).
  { symmetry. apply (Z.mod_unique _ _ (2 ^ 32 * q)); lia. }
  rewrite Hmod. lia.
Qed.

(** X16.  A host as [scsi_host_alloc] returns it: in CREATED, each of its
    two devices holding one reference, only [shost_gendev] of the
    host type and [shost_dev] its child, both named after the host number
    like the thread and the queue started for it; the limits a template
    leaves at zero replaced by defaults, so that none is zero and the
    mode is known; and nothing yet of what publication sets up. *)
Theorem scsi_host_alloc_fresh_host (HZ : Z) (A : alloc_env) (g : globals)
    (sht : scsi_host_template) (privsize : Z) (h : Scsi_Host)
    (g' : globals) (t : list event) :
  scsi_host_alloc HZ A g sht privsize = (Some h, g', t) ->
  shost_state h = SHOST_CREATED
  /\ dev_kref (shost_gendev h) = 1 /\ dev_kref (shost_dev h) = 1
  /\ scsi_is_host_device (shost_gendev h) = true
  /\ scsi_is_host_device (shost_dev h) = false
  /\ dev_parent (shost_dev h) = Some Shost_gendev
  /\ dev_parent (shost_gendev h) = None
  /\ dev_name (shost_gendev h) = Some ("host%d"%string, host_no h)
  /\ dev_name (shost_dev h) = Some ("host%d"%string, host_no h)
  /\ ehandler h = Task ("scsi_eh_%d"%string, host_no h)
  /\ tmf_work_q h = Some (Wq ("scsi_tmf_%d"%string, host_no h))
  /\ max_host_blocked h <> 0 /\ max_sectors h <> 0 /\ dma_boundary h <> 0
  /\ active_mode h <> MODE_UNKNOWN
  /\ (use_blk_mq h = true ->
      scsi_use_blk_mq g = true /\ sht_disable_blk_mq sht = false)
  /\ bqt h = None /\ tag_set_tags h = None /\ shost_data h = None
  /\ work_q h = None /\ dma_dev h = None.
Proof.
  unfold scsi_host_alloc.
  destruct (kzalloc_shost_ok A); cbn [negb]; [ | discriminate].
  destruct (eh_deadline_init HZ (shost_eh_deadline g) sht) as [dl w].
  destruct (kthread_run_err A) as [e | ]; [discriminate | ].
  destruct (alloc_workqueue_ok A); [ | discriminate].
  intros H. injection H as <- _ _. cbn.
  repeat split.
  - destruct (Z.eqb_spec (sht_max_host_blocked sht) 0); cbn;
      [discriminate | assumption].
  - destruct (Z.eqb_spec (sht_max_sectors sht) 0); cbn;
      [discriminate | assumption].
  - destruct (Z.eqb_spec (sht_dma_boundary sht) 0); cbn;
      [discriminate | assumption].
  - destruct (Z.eqb_spec (sht_supported_mode sht) MODE_UNKNOWN);
      [discriminate | assumption].
  - apply andb_true_iff in H. tauto.
  - apply andb_true_iff in H. destruct H as [_ H].
    now apply negb_true_iff in H.
Qed.

Lemma scsi_host_alloc_fresh_host_witness :
  shost_state sample_host = SHOST_CREATED
  /\ dev_kref (shost_gendev sample_host) = 1
  /\ dev_kref (shost_dev sample_host) = 1
  /\ scsi_is_host_device (shost_gendev sample_host) = true
  /\ scsi_is_host_device (shost_dev sample_host) = false
  /\ dev_parent (shost_dev sample_host) = Some Shost_gendev
  /\ dev_parent (shost_gendev sample_host) = None
  /\ dev_name (shost_gendev sample_host)
     = Some ("host%d"%string, host_no sample_host)
  /\ dev_name (shost_dev sample_host)
     = Some ("host%d"%string, host_no sample_host)
  /\ ehandler sample_host = Task ("scsi_eh_%d"%string, host_no sample_host)
  /\ tmf_work_q sample_host
     = Some (Wq ("scsi_tmf_%d"%string, host_no sample_host))
  /\ max_host_blocked sample_host <> 0 /\ max_sectors sample_host <> 0
  /\ dma_boundary sample_host <> 0
  /\ active_mode sample_host <> MODE_UNKNOWN
  /\ (use_blk_mq sample_host = true ->
      scsi_use_blk_mq sample_globals = true
      /\ sht_disable_blk_mq sample_sht = false)
  /\ bqt sample_host = None /\ tag_set_tags sample_host = None
  /\ shost_data sample_host = None
  /\ work_q sample_host = None /\ dma_dev sample_host = None.
Proof.
  apply (scsi_host_alloc_fresh_host 100 sample_alloc_env sample_globals
           sample_sht 0 sample_host
           {| scsi_host_next_hn := 1; shost_eh_deadline := -1;
              scsi_use_blk_mq := false |}
           (snd (scsi_host_alloc 100 sample_alloc_env sample_globals
                   sample_sht 0))).
  reflexivity.
Defined.

(** ** The life of a host after allocation *)

Ltac open_host :=
  repeat match goal with
         | x : Scsi_Host |- _ => destruct x
         end;
  cbn in *;
  repeat match goal with
         | x : device |- _ => destruct x
         | x : scsi_transport_template |- _ => destruct x
         | x : env |- _ => destruct x
         end; cbn in *; subst.

Ltac match_headed f :=
  lazymatch f with
  | match _ with _ => _ end => constr:(true)
  | ?g _ => match_headed g
  | _ => constr:(false)
  end.

(** The test a stuck run waits for. *)
Ltac head_of t :=
  lazymatch t with
  | match ?x with _ => _ end => head_of x
  | ?f ?a =>
      let b := match_headed f in
      lazymatch b with
      | true => head_of f
      | false => t
      end
  | _ => t
  end.

Ltac fold_known_in Ho :=
  repeat match goal with
         | H : ?x = _ |- _ =>
             lazymatch x with _ _ => rewrite H in Ho end
         end.

Ltac fold_known :=
  repeat match goal with
         | H : ?x = _ |- _ =>
             lazymatch x with _ _ => rewrite H end
         end.

(** Run the program of [Ho : o = program] to its outcomes, splitting on
    each test it gets stuck on. *)
Ltac run_in Ho :=
  vm_compute in Ho; fold_known_in Ho;
  lazymatch type of Ho with
  | _ = Done _ _ => idtac
  | _ = Bug _ => idtac
  | _ = ?rhs =>
      let x := head_of rhs in
      (tryif is_var x then destruct x else destruct x eqn:?);
      try congruence;
      run_in Ho
  end.

Lemma publish_run_allocated (E : env) (dev dma_dev : option device_ptr)
    (h : Scsi_Host) :
  as_allocated h -> external dev ->
  exists r k1,
    scsi_add_host_with_dma E dev dma_dev (boot h) = Done r k1
    /\ summary_of r k1 = expected_summary E dev h
    /\ tmf_work_q (shost k1) = tmf_work_q h
    /\ ehandler (shost k1) = ehandler h
    /\ uspace_req_q (shost k1) = None
    /\ use_blk_mq (shost k1) = use_blk_mq h
    /\ host_lock (shost k1) = host_lock h.
Proof.
  intros Ha [Hd1 Hd2]. unfold as_allocated in Ha. open_host.
  destruct Ha as (-> & Hg & Hs & Hp & -> & -> & -> & -> & ->).
  subst.
  match goal with
  | |- exists r k1, ?c = _ /\ _ => remember c as o eqn:Ho
  end.
  run_in Ho.
  all: subst o; eexists _, _; (split; [reflexivity | ]).
  all: vm_compute; fold_known; vm_compute.
  all: repeat split; reflexivity.
Qed.

(** [scsi_remove_host] on a host that was published and is referenced by
    its allocator only. *)
Lemma remove_published_run (k : kernel) :
  cur_state k = SHOST_RUNNING ->
  krefg k = 2 ->
  dev_kref (shost_dev (shost k)) = 1 ->
  exists k',
    scsi_remove_host k = Done tt k'
    /\ shost k'
       = set_shost_gendev (set_dev_kref 1 (shost_gendev (shost k)))
           (set_shost_dev (set_dev_kref 0 (shost_dev (shost k)))
              (set_shost_state SHOST_DEL (shost k)))
    /\ shost_freed k' = shost_freed k
    /\ trace k' = trace k ++ remove_calls (shost k).
Proof.
  destruct k as [h f t]. unfold cur_state, krefg. cbn [shost].
  intros Hs Hg Hd. destruct h.
  repeat match goal with d : device |- _ => destruct d end.
  cbn in Hs, Hg, Hd. subst.
  unfold scsi_remove_host, scsi_remove_host_with, scsi_remove_host_begin,
    scsi_remove_host_quiesce, scsi_remove_host_delete,
    scsi_remove_host_unregister, device_unregister, device_del, put_device,
    put_device_shost_dev, scsi_host_cls_release, put_device_gendev,
    modify_shost_dev, modify_gendev, scsi_host_set_state, BUG_ON, bind,
    emit, modify_shost, get_shost, when, ret.
  cbn. eexists. split; [reflexivity | ]. cbn.
  repeat split. rewrite <- !app_assoc. reflexivity.
Qed.

(** X27.  [scsi_remove_host] on a published host that only its
    allocator still holds: the host ends in DEL and is not released; the
    reference of [shost_dev] is dropped and, through its class release
    callback, the one it held on [shost_gendev], so that exactly the
    allocator's reference is left; [shost_dev] is unregistered before
    [shost_gendev] is deleted. *)
Theorem scsi_remove_host_published (k : kernel) :
  cur_state k = SHOST_RUNNING ->
  krefg k = 2 ->
  dev_kref (shost_dev (shost k)) = 1 ->
  exists k',
    scsi_remove_host k = Done tt k'
    /\ cur_state k' = SHOST_DEL
    /\ krefg k' = 1
    /\ dev_kref (shost_dev (shost k')) = 0
    /\ shost_freed k' = shost_freed k
    /\ trace k' = trace k ++ remove_calls (shost k).
Proof.
  intros Hs Hg Hd.
  destruct (remove_published_run k Hs Hg Hd) as (k' & Hrun & Hh & Hf & Ht).
  exists k'. split; [exact Hrun | ].
  unfold cur_state, krefg. rewrite Hh. repeat split; assumption.
Qed.

Lemma scsi_remove_host_published_witness :
  exists k',
    scsi_remove_host published = Done tt k'
    /\ cur_state k' = SHOST_DEL
    /\ krefg k' = 1
    /\ dev_kref (shost_dev (shost k')) = 0
    /\ shost_freed k' = shost_freed published
    /\ trace k' = trace published ++ remove_calls (shost published).
Proof.
  apply (scsi_remove_host_published published); reflexivity.
Defined.

(** More of what the release callback calls, by kind. *)
Lemma release_calls_more (h : Scsi_Host) :
  filter is_parent_ref (release_calls h)
  = (if state_is (shost_state h) SHOST_CREATED then []
     else match dev_parent (shost_gendev h) with
          | Some p => filter is_parent_ref [Ev_put_device p]
          | None => []
          end)
  /\ filter is_kfree (release_calls h)
     = match uspace_req_q h with
       | Some q => [Ev_kfree (queuedata q)]
       | None => []
       end ++ [Ev_kfree (shost_data h)]
  /\ acquired (release_calls h) = []
  /\ released (release_calls h)
     = workqueue_of (tmf_work_q h) ++ workqueue_of (work_q h)
       ++ match uspace_req_q h with
          | Some q => memory_of (queuedata q)
          | None => []
          end
       ++ [Res_freelist] ++ tags_of h ++ memory_of (shost_data h)
  /\ exists front, release_calls h = front ++ [Ev_kfree_shost].
Proof.
  unfold release_calls, acquired, released, tags_of.
  rewrite !filter_app, !flat_map_app.
  repeat split.
  - destruct (tmf_work_q h), (ehandler h), (work_q h), (uspace_req_q h),
      (state_is (shost_state h) SHOST_CREATED), (use_blk_mq h),
      (tag_set_tags h), (bqt h), (dev_parent (shost_gendev h));
      try reflexivity;
      match goal with d : device_ptr |- _ => destruct d end; reflexivity.
  - destruct (tmf_work_q h), (ehandler h), (work_q h), (uspace_req_q h),
      (state_is (shost_state h) SHOST_CREATED), (use_blk_mq h),
      (tag_set_tags h), (bqt h), (dev_parent (shost_gendev h));
      reflexivity.
  - destruct (tmf_work_q h), (ehandler h), (work_q h), (uspace_req_q h),
      (state_is (shost_state h) SHOST_CREATED), (use_blk_mq h),
      (tag_set_tags h), (bqt h), (dev_parent (shost_gendev h));
      reflexivity.
  - destruct (tmf_work_q h), (ehandler h), (work_q h), (uspace_req_q h),
      (state_is (shost_state h) SHOST_CREATED), (use_blk_mq h),
      (tag_set_tags h), (bqt h), (dev_parent (shost_gendev h)),
      (shost_data h);
      try destruct (queuedata r); reflexivity.
  - eexists. rewrite !app_assoc. reflexivity.
Qed.

(** The release callback does not read the reference counts. *)
Lemma release_calls_krefs (n m : Z) (s : scsi_host_state) (h : Scsi_Host) :
  release_calls
    (set_shost_gendev (set_dev_kref n (shost_gendev h))
       (set_shost_dev (set_dev_kref m (shost_dev h))
          (set_shost_state s h)))
  = release_calls (set_shost_state s h).
Proof. reflexivity. Qed.

(** The whole life, in terms of the kernel publication left. *)
Lemma host_life_run (E : env) (dev dma_dev : option device_ptr)
    (h : Scsi_Host) :
  as_allocated h -> external dev ->
  exists r k1 k',
    scsi_add_host_with_dma E dev dma_dev (boot h) = Done r k1
    /\ host_life E dev dma_dev (boot h) = Done r k'
    /\ summary_of r k1 = expected_summary E dev h
    /\ tmf_work_q (shost k1) = tmf_work_q h
    /\ ehandler (shost k1) = ehandler h
    /\ uspace_req_q (shost k1) = None
    /\ use_blk_mq (shost k1) = use_blk_mq h
    /\ shost_freed k' = true
    /\ trace k'
       = trace k1
         ++ (if r =? 0 then remove_calls (shost k1) else [])
         ++ Ev_put_device Shost_gendev
            :: release_calls (released_host r k1).
Proof.
  intros Ha Hd.
  destruct (publish_run_allocated E dev dma_dev h Ha Hd)
    as (r & k1 & Hrun & Hsum & Htmf & Heh & Hus & Hmq & Hlk).
  pose proof (f_equal ps_ok Hsum) as Hok.
  pose proof (f_equal ps_state Hsum) as Hstate.
  pose proof (f_equal ps_krefg Hsum) as Hkg.
  pose proof (f_equal ps_krefd Hsum) as Hkd.
  pose proof (f_equal ps_freed Hsum) as Hfr.
  cbn [ps_ok ps_state ps_krefg ps_krefd ps_freed summary_of
       expected_summary] in Hok, Hstate, Hkg, Hkd, Hfr.
  unfold host_life, publish_and_remove, released_host.
  unfold bind at 1. unfold bind at 1. rewrite Hrun.
  destruct (first_failure E h) as [s | ] eqn:Hff.
  - (* publication failed *)
    destruct (put_gendev_run k1) as (k' & Hput & _ & Hcase).
    rewrite Hkg in Hcase. change (1 =? 1) with true in Hcase.
    destruct Hcase as [Hf Ht].
    exists r, k1, k'. rewrite Hok. unfold bind, ret. rewrite Hput.
    repeat split; try assumption.
  - (* published, then removed *)
    cbn [got_past] in Hstate.
    destruct (remove_published_run k1 Hstate Hkg Hkd)
      as (k2 & Hrm & Hh2 & Hf2 & Ht2).
    destruct (put_gendev_run k2) as (k' & Hput & _ & Hcase).
    assert (Hk2 : krefg k2 = 1) by (unfold krefg; rewrite Hh2; reflexivity).
    rewrite Hk2 in Hcase. change (1 =? 1) with true in Hcase.
    destruct Hcase as [Hf Ht].
    exists r, k1, k'. rewrite Hok. unfold bind, ret. rewrite Hrm, Hput.
    repeat split; try assumption.
    rewrite Ht, Ht2, Hh2, release_calls_krefs, <- app_assoc. reflexivity.
Qed.

Lemma released_host_fields (r : Z) (k1 : kernel) :
  shost_state (released_host r k1)
  = (if r =? 0 then SHOST_DEL else cur_state k1)
  /\ tmf_work_q (released_host r k1) = tmf_work_q (shost k1)
  /\ ehandler (released_host r k1) = ehandler (shost k1)
  /\ work_q (released_host r k1) = work_q (shost k1)
  /\ uspace_req_q (released_host r k1) = uspace_req_q (shost k1)
  /\ use_blk_mq (released_host r k1) = use_blk_mq (shost k1)
  /\ tag_set_tags (released_host r k1) = tag_set_tags (shost k1)
  /\ bqt (released_host r k1) = bqt (shost k1)
  /\ shost_data (released_host r k1) = shost_data (shost k1)
  /\ dev_parent (shost_gendev (released_host r k1))
     = dev_parent (shost_gendev (shost k1)).
Proof.
  unfold released_host, cur_state. destruct (r =? 0); repeat split.
Qed.

Lemma parent_ref_external (dev : option device_ptr) :
  external dev ->
  is_parent_ref (Ev_get_device (parent_of dev)) = true
  /\ is_parent_ref (Ev_put_device (parent_of dev)) = true.
Proof.
  intros [H1 H2]. destruct dev as [[] | ]; cbn; try auto; congruence.
Qed.

Lemma remove_calls_kinds (h : Scsi_Host) :
  filter is_kfree_shost (remove_calls h) = []
  /\ filter is_parent_ref (remove_calls h) = []
  /\ filter is_tag_release (remove_calls h) = []
  /\ filter is_thread_or_queue_stop (remove_calls h) = []
  /\ filter is_kfree (remove_calls h) = []
  /\ acquired (remove_calls h) = []
  /\ released (remove_calls h)
     = [Res_proc; Res_registration Shost_dev; Res_registration Shost_gendev].
Proof. repeat split. Qed.

(** The facts of a summary, one by one. *)
Ltac open_summary Hsum :=
  pose proof (f_equal ps_ok Hsum) as Hok;
  pose proof (f_equal ps_state Hsum) as Hstate;
  pose proof (f_equal ps_parent Hsum) as Hparent;
  pose proof (f_equal ps_work_q Hsum) as Hwork_q;
  pose proof (f_equal ps_shost_data Hsum) as Hdata;
  pose proof (f_equal ps_bqt Hsum) as Hbqt;
  pose proof (f_equal ps_tag_set_tags Hsum) as Htags;
  pose proof (f_equal ps_frees Hsum) as Hfrees;
  pose proof (f_equal ps_parent_refs Hsum) as Hrefs;
  pose proof (f_equal ps_tag_releases Hsum) as Htagrel;
  pose proof (f_equal ps_stops Hsum) as Hstops;
  pose proof (f_equal ps_kfrees Hsum) as Hkfrees;
  pose proof (f_equal ps_acquired Hsum) as Hacq;
  pose proof (f_equal ps_released Hsum) as Hrel;
  cbn [ps_ok ps_state ps_parent ps_work_q ps_shost_data ps_bqt
       ps_tag_set_tags ps_frees ps_parent_refs ps_tag_releases ps_stops
       ps_kfrees ps_acquired ps_released summary_of expected_summary]
    in Hok, Hstate, Hparent, Hwork_q, Hdata, Hbqt, Htags, Hfrees, Hrefs,
       Htagrel, Hstops, Hkfrees, Hacq, Hrel;
  clear Hsum.

Lemma ok_iff (r : Z) (ff : option publish_step) :
  (r =? 0) = match ff with
             | None => true
             | Some _ => false
             end ->
  r = 0 <-> ff = None.
Proof.
  destruct ff; intros H.
  - apply Z.eqb_neq in H. split; [contradiction | discriminate].
  - apply Z.eqb_eq in H. tauto.
Qed.

(** X17.  Whatever happens to publication, the driver's sequence
    (publish; remove if published; put) hands the host's memory back
    exactly once, as the very last call, and returns publication's
    verdict. *)
Theorem host_life_frees_host_once (E : env)
    (dev dma_dev : option device_ptr) (h : Scsi_Host) :
  as_allocated h -> external dev ->
  exists r k',
    host_life E dev dma_dev (boot h) = Done r k'
    /\ (r = 0 <-> first_failure E h = None)
    /\ shost_freed k' = true
    /\ filter is_kfree_shost (trace k') = [Ev_kfree_shost]
    /\ last (trace k') Ev_dump_stack = Ev_kfree_shost.
Proof.
  intros Ha Hd.
  destruct (host_life_run E dev dma_dev h Ha Hd)
    as (r & k1 & k' & _ & Hlife & Hsum & _ & _ & _ & _ & Hf & Ht).
  open_summary Hsum.
  exists r, k'. split; [exact Hlife | ].
  split; [apply ok_iff; exact Hok | ]. split; [exact Hf | ].
  rewrite Ht. split.
  - rewrite !filter_app, Hfrees. cbn [filter is_kfree_shost app].
    destruct (release_calls_free_once (released_host r k1)) as [-> _].
    destruct (r =? 0); reflexivity.
  - destruct (release_calls_more (released_host r k1))
      as (_ & _ & _ & _ & front & ->).
    rewrite app_comm_cons, !app_assoc. apply last_last.
Qed.

Lemma host_life_frees_host_once_witness :
  exists r k',
    host_life failing_sysfs_env None None (boot sample_mq_host) = Done r k'
    /\ (r = 0 <-> first_failure failing_sysfs_env sample_mq_host = None)
    /\ shost_freed k' = true
    /\ filter is_kfree_shost (trace k') = [Ev_kfree_shost]
    /\ last (trace k') Ev_dump_stack = Ev_kfree_shost.
Proof.
  apply (host_life_frees_host_once failing_sysfs_env None None
           sample_mq_host).
  - repeat split.
  - split; discriminate.
Defined.

(** X18.  The reference on the parent: publication takes it when it
    moves the host to RUNNING, and the release callback, which looks at
    the state, returns it exactly then; over the whole life it is taken
    and returned once, or neither when publication stopped before. *)
Theorem host_life_parent_reference (E : env)
    (dev dma_dev : option device_ptr) (h : Scsi_Host) :
  as_allocated h -> external dev ->
  exists r k',
    host_life E dev dma_dev (boot h) = Done r k'
    /\ filter is_parent_ref (trace k')
       = if got_past Step_device_add_gendev (first_failure E h)
         then [Ev_get_device (parent_of dev); Ev_put_device (parent_of dev)]
         else [].
Proof.
  intros Ha Hd.
  destruct (host_life_run E dev dma_dev h Ha Hd)
    as (r & k1 & k' & _ & Hlife & Hsum & _ & _ & _ & _ & Hf & Ht).
  open_summary Hsum.
  exists r, k'. split; [exact Hlife | ].
  rewrite Ht, !filter_app, Hrefs. cbn [filter is_parent_ref app].
  destruct (release_calls_more (released_host r k1)) as (-> & _).
  destruct (released_host_fields r k1)
    as (-> & _ & _ & _ & _ & _ & _ & _ & _ & ->).
  rewrite Hparent, Hstate, Hok.
  destruct (parent_ref_external dev Hd) as [_ Hput].
  cbn in Hput.
  destruct (first_failure E h) as [[] | ]; cbn; rewrite ?Hput; reflexivity.
Qed.

Lemma host_life_parent_reference_witness :
  exists r k',
    host_life sample_env (Some (Caller_dev 7)) None (boot sample_host)
    = Done r k'
    /\ filter is_parent_ref (trace k')
       = [Ev_get_device (Caller_dev 7); Ev_put_device (Caller_dev 7)].
Proof.
  apply (host_life_parent_reference sample_env (Some (Caller_dev 7)) None
           sample_host).
  - repeat split.
  - split; discriminate.
Defined.

Ltac split_option x :=
  lazymatch x with
  | Some _ => fail
  | None => fail
  | _ => destruct x
  end.

(** The conditions of [first_failure], one by one. *)
Ltac split_ff Hff :=
  unfold first_failure, tags_fail, shost_data_fail, work_q_fail in Hff;
  repeat match type of Hff with
         | context [if ?c then _ else _] =>
             let H := fresh "Hc" in destruct c eqn:H
         | context [match ?c with _ => _ end] =>
             let H := fresh "Hc" in destruct c eqn:H
         end;
  try discriminate Hff.

(** The ledger of a whole life, in terms of the kernel publication
    left. *)
Lemma host_life_ledger (r : Z) (k1 : kernel) (t : list event) :
  t = trace k1
      ++ (if r =? 0 then remove_calls (shost k1) else [])
      ++ Ev_put_device Shost_gendev :: release_calls (released_host r k1) ->
  acquired t = acquired (trace k1)
  /\ released t
     = released (trace k1)
       ++ (if r =? 0
           then [Res_proc; Res_registration Shost_dev;
                 Res_registration Shost_gendev]
           else [])
       ++ released (release_calls (released_host r k1)).
Proof.
  intros ->. rewrite !acquired_app, !released_app.
  change (Ev_put_device Shost_gendev :: release_calls (released_host r k1))
    with ([Ev_put_device Shost_gendev]
          ++ release_calls (released_host r k1)).
  rewrite acquired_app, released_app.
  destruct (release_calls_more (released_host r k1))
    as (_ & _ & -> & _ & _).
  destruct (r =? 0); cbn [acquired released flat_map acquires releases app];
    rewrite ?app_nil_r; split; reflexivity.
Qed.

(** X19.  The command tags are given back exactly as often as they were
    obtained, at most once, whichever step of publication fails: the
    blk-mq tag set by the unwinding of publication or by the release
    callback, never both; the legacy tag map by the release callback. *)
Theorem host_life_tags_balanced (E : env)
    (dev dma_dev : option device_ptr) (h : Scsi_Host) :
  as_allocated h -> external dev ->
  exists r k',
    host_life E dev dma_dev (boot h) = Done r k'
    /\ filter is_tags (acquired (trace k'))
       = (if got_past Step_tags (first_failure E h)
          then tags_acquired (use_blk_mq h) else [])
    /\ filter is_tags (released (trace k'))
       = filter is_tags (acquired (trace k'))
    /\ filter is_tag_release (trace k')
       = if got_past Step_tags (first_failure E h)
         then if use_blk_mq h then [Ev_scsi_mq_destroy_tags]
              else match blk_init_tags_res E with
                   | Some p => [Ev_blk_free_tags p]
                   | None => []
                   end
         else [].
Proof.
  intros Ha Hd.
  destruct (host_life_run E dev dma_dev h Ha Hd)
    as (r & k1 & k' & _ & Hlife & Hsum & _ & _ & Hus & Hmq & Hf & Ht).
  open_summary Hsum.
  exists r, k'. split; [exact Hlife | ].
  destruct (host_life_ledger r k1 (trace k') Ht) as [-> ->].
  rewrite Ht, !filter_app. cbn [filter is_tag_release app].
  destruct (release_calls_kinds (released_host r k1)) as (_ & _ & _ & ->).
  destruct (release_calls_more (released_host r k1))
    as (_ & _ & _ & -> & _).
  unfold tags_of.
  destruct (released_host_fields r k1)
    as (_ & -> & _ & -> & -> & -> & -> & -> & -> & _).
  rewrite Hacq, Hrel, Htagrel, Htags, Hbqt, Hmq, Hus, Hok, Hdata, Hwork_q.
  unfold acquired_by, data_of, work_q_of, tags_acquired.
  destruct (first_failure E h) as [s | ] eqn:Hff; split_ff Hff;
    try (injection Hff as <-);
    cbn [got_past step_index Nat.ltb Nat.leb andb orb negb app filter rev
         is_tags not_legacy_tags is_legacy_tags memory_of workqueue_of
         is_tag_release remove_calls];
    rewrite ?filter_app, ?rev_app_distr;
    repeat match goal with
           | |- context [memory_of ?x] => split_option x
           | |- context [workqueue_of ?x] => split_option x
           end.
  all: try destruct (use_blk_mq h); try destruct (blk_init_tags_res E);
    try discriminate; repeat split; reflexivity.
Qed.

Lemma host_life_tags_balanced_witness :
  exists r k',
    host_life failing_freelist_env None None (boot sample_host) = Done r k'
    /\ filter is_tags (acquired (trace k')) = [Res_legacy_tags]
    /\ filter is_tags (released (trace k'))
       = filter is_tags (acquired (trace k'))
    /\ filter is_tag_release (trace k') = [Ev_blk_free_tags 8192].
Proof.
  apply (host_life_tags_balanced failing_freelist_env None None
           sample_host).
  - repeat split.
  - split; discriminate.
Defined.

(** X20.  When publication fails at its last step, the sysfs entries,
    its unwinding destroys the work queue and frees the transport data
    but leaves both pointers in the host, and the release callback, run
    by the driver's put, releases them again: the transport data is
    freed twice, and the work queue, when the transport asked for one,
    is destroyed twice. *)
Theorem late_failure_releases_twice (E : env)
    (dev dma_dev : option device_ptr) (h : Scsi_Host) :
  as_allocated h -> external dev ->
  first_failure E h = Some Step_sysfs ->
  exists r k',
    host_life E dev dma_dev (boot h) = Done r k'
    /\ r <> 0
    /\ filter is_kfree (trace k')
       = [Ev_kfree (data_of E h (Some Step_sysfs));
          Ev_kfree (data_of E h (Some Step_sysfs))]
    /\ (host_size (transportt h) <> 0 ->
        exists p, data_of E h (Some Step_sysfs) = Some p)
    /\ filter is_thread_or_queue_stop (trace k')
       = (if create_work_queue (transportt h)
          then [Ev_destroy_workqueue (scsi_wq h)] else [])
         ++ early_stops h
         ++ (if create_work_queue (transportt h)
             then [Ev_destroy_workqueue (scsi_wq h)] else []).
Proof.
  intros Ha Hd Hff.
  destruct (host_life_run E dev dma_dev h Ha Hd)
    as (r & k1 & k' & _ & Hlife & Hsum & Htmf & Heh & Hus & _ & _ & Ht).
  open_summary Hsum. pose proof Hff as Hconds.
  unfold first_failure, shost_data_fail in Hconds. rewrite Hff in *.
  exists r, k'. split; [exact Hlife | ].
  split; [apply Z.eqb_neq; exact Hok | ].
  rewrite Ht, !filter_app, Hkfrees, Hstops, Hok.
  cbn [filter is_kfree is_thread_or_queue_stop app].
  destruct (release_calls_kinds (released_host r k1)) as (-> & _).
  destruct (release_calls_more (released_host r k1)) as (_ & -> & _).
  destruct (released_host_fields r k1)
    as (_ & -> & -> & -> & -> & _ & _ & _ & -> & _).
  rewrite Hus, Hdata, Hwork_q, Htmf, Heh.
  split; [reflexivity | ]. split.
  - intros Hsize. unfold data_of. cbn [got_past step_index Nat.ltb Nat.leb].
    apply Z.eqb_neq in Hsize. rewrite Hsize. cbn [andb negb].
    rewrite Hsize in Hconds.
    destruct (kzalloc_res E) as [p | ]; [exists p; reflexivity | ].
    exfalso. cbn [andb negb] in Hconds.
    repeat match type of Hconds with
           | context [if ?c then _ else _] => destruct c
           end; discriminate Hconds.
  - unfold work_q_of, early_stops.
    cbn [got_past step_index Nat.ltb Nat.leb andb].
    destruct (create_work_queue (transportt h)); cbn [app];
      rewrite <- ?app_assoc; reflexivity.
Qed.

Lemma late_failure_releases_twice_witness :
  exists r k',
    host_life failing_sysfs_env None None (boot sample_mq_host) = Done r k'
    /\ r <> 0
    /\ filter is_kfree (trace k')
       = [Ev_kfree (Some 12288); Ev_kfree (Some 12288)]
    /\ (host_size (transportt sample_mq_host) <> 0 ->
        exists p, Some 12288 = Some p)
    /\ filter is_thread_or_queue_stop (trace k')
       = [Ev_destroy_workqueue (Wq ("scsi_wq_%d"%string, 0));
          Ev_destroy_workqueue (Wq ("scsi_tmf_%d"%string, 0));
          Ev_kthread_stop (Task ("scsi_eh_%d"%string, 0));
          Ev_destroy_workqueue (Wq ("scsi_wq_%d"%string, 0))].
Proof.
  apply (late_failure_releases_twice failing_sysfs_env None None
           sample_mq_host).
  - repeat split.
  - split; discriminate.
  - reflexivity.
Defined.

(** Permutations of explicit lists of resources. *)
Ltac split_at a l :=
  lazymatch l with
  | a :: ?r => constr:((@nil resource, r))
  | ?y :: ?r =>
      let p := split_at a r in
      lazymatch p with
      | (?l1, ?l2) => constr:((y :: l1, l2))
      end
  end.

Ltac perm :=
  repeat lazymatch goal with
         | |- Permutation (?a :: ?l) ?r =>
             let p := split_at a r in
             lazymatch p with
             | (?l1, ?l2) =>
                 change r with (l1 ++ a :: l2);
                 apply Permutation_cons_app; cbn [app]
             end
         end;
  apply perm_nil.

(** X21.  The ledger of a life that went well: what publication
    acquired is exactly [acquired_by], and removal and the release
    callback between them give back each of these resources once (the
    sysfs entries go with the devices) and, besides, the task-management
    queue of allocation. *)
Theorem host_life_ledger_balanced (E : env)
    (dev dma_dev : option device_ptr) (h : Scsi_Host) :
  as_allocated h -> external dev ->
  first_failure E h = None ->
  exists k',
    host_life E dev dma_dev (boot h) = Done 0 k'
    /\ acquired (trace k') = acquired_by E h None
    /\ Permutation (released (trace k'))
         (workqueue_of (tmf_work_q h)
          ++ filter not_sysfs (acquired (trace k'))).
Proof.
  intros Ha Hd Hff.
  destruct (host_life_run E dev dma_dev h Ha Hd)
    as (r & k1 & k' & _ & Hlife & Hsum & Htmf & _ & Hus & Hmq & _ & Ht).
  open_summary Hsum. pose proof Hff as Hconds.
  unfold first_failure, tags_fail in Hconds. rewrite Hff in *.
  apply Z.eqb_eq in Hok. subst r.
  exists k'. split; [exact Hlife | ].
  destruct (host_life_ledger 0 k1 (trace k') Ht) as [-> ->].
  split; [exact Hacq | ].
  destruct (release_calls_more (released_host 0 k1))
    as (_ & _ & _ & -> & _).
  unfold tags_of.
  destruct (released_host_fields 0 k1)
    as (_ & -> & _ & -> & -> & -> & -> & -> & -> & _).
  rewrite Hacq, Hrel, Htags, Hbqt, Hmq, Hus, Hdata, Hwork_q, Htmf.
  change (0 =? 0) with true. cbv iota.
  unfold acquired_by, data_of, work_q_of, tags_acquired.
  cbn [got_past andb app].
  destruct (can_queue h =? 0); [discriminate Hconds | ].
  destruct (use_blk_mq h); cbn [orb].
  - destruct (tmf_work_q h),
      (if negb (host_size (transportt h) =? 0) then kzalloc_res E else None),
      (if create_work_queue (transportt h) then Some (scsi_wq h) else None);
      cbn [app filter not_sysfs memory_of workqueue_of]; perm.
  - destruct (blk_init_tags_res E); [ | discriminate Hconds].
    destruct (tmf_work_q h),
      (if negb (host_size (transportt h) =? 0) then kzalloc_res E else None),
      (if create_work_queue (transportt h) then Some (scsi_wq h) else None);
      cbn [app filter not_sysfs memory_of workqueue_of]; perm.
Qed.

Lemma host_life_ledger_balanced_witness :
  exists k',
    host_life sample_env None None (boot sample_mq_host) = Done 0 k'
    /\ acquired (trace k') = acquired_by sample_env sample_mq_host None
    /\ Permutation (released (trace k'))
         (workqueue_of (tmf_work_q sample_mq_host)
          ++ filter not_sysfs (acquired (trace k'))).
Proof.
  apply (host_life_ledger_balanced sample_env None None sample_mq_host).
  - repeat split.
  - split; discriminate.
  - reflexivity.
Defined.

(** X22.  After a successful publication [scsi_queue_work] fails with
    [-EINVAL] exactly when the transport template asked for no work
    queue; otherwise it submits the work, once, to the queue publication
    created and named after the host number. *)
Theorem published_host_queue_work (E Eq : env)
    (dev dma_dev : option device_ptr) (work : Z) (h : Scsi_Host) :
  as_allocated h -> external dev ->
  first_failure E h = None ->
  exists k1 v k2,
    scsi_add_host_with_dma E dev dma_dev (boot h) = Done 0 k1
    /\ scsi_queue_work Eq work k1 = Done v k2
    /\ shost k2 = shost k1
    /\ (v = - EINVAL <-> create_work_queue (transportt h) = false)
    /\ (create_work_queue (transportt h) = true ->
        v = (if queue_work_ret Eq then 1 else 0)
        /\ trace k2
           = trace k1
             ++ [Ev_queue_work (scsi_wq h) work (queue_work_ret Eq)]).
Proof.
  intros Ha Hd Hff.
  destruct (host_life_run E dev dma_dev h Ha Hd)
    as (r & k1 & k' & Hadd & _ & Hsum & _).
  open_summary Hsum. rewrite Hff in *.
  apply Z.eqb_eq in Hok. subst r.
  unfold work_q_of in Hwork_q. cbn [got_past andb] in Hwork_q.
  assert (Hq : scsi_queue_work Eq work k1
               = match work_q (shost k1) with
                 | None =>
                     Done (- EINVAL)
                       (logged Ev_dump_stack
                          (logged
                             (Ev_shost_printk KERN_ERR
                                "ERROR: Scsi host '%s' attempted to queue scsi-work, when no workqueue created.")
                             k1))
                 | Some wq =>
                     Done (if queue_work_ret Eq then 1 else 0)
                       (logged (Ev_queue_work wq work (queue_work_ret Eq))
                          k1)
                 end).
  { unfold scsi_queue_work, bind, get_shost.
    destruct (work_q (shost k1)); reflexivity. }
  rewrite Hwork_q in Hq.
  destruct (create_work_queue (transportt h)).
  - eexists k1, _, _. split; [exact Hadd | ].
    split; [exact Hq | ]. split; [reflexivity | ].
    split; [ | intros _; split; reflexivity].
    destruct (queue_work_ret Eq); split; discriminate.
  - eexists k1, _, _. split; [exact Hadd | ].
    split; [exact Hq | ]. split; [reflexivity | ].
    split; [split; reflexivity | discriminate].
Qed.

Lemma published_host_queue_work_witness :
  exists k1 v k2,
    scsi_add_host_with_dma sample_env None None (boot sample_mq_host)
    = Done 0 k1
    /\ scsi_queue_work sample_env 5 k1 = Done v k2
    /\ shost k2 = shost k1
    /\ (v = - EINVAL
        <-> create_work_queue (transportt sample_mq_host) = false)
    /\ (create_work_queue (transportt sample_mq_host) = true ->
        v = (if queue_work_ret sample_env then 1 else 0)
        /\ trace k2
           = trace k1
             ++ [Ev_queue_work (scsi_wq sample_mq_host) 5
                   (queue_work_ret sample_env)]).
Proof.
  apply (published_host_queue_work sample_env sample_env None None 5
           sample_mq_host).
  - repeat split.
  - split; discriminate.
  - reflexivity.
Defined.

(** X23.  An allocated host that is put without ever being published
    is released in full: the proc directory entry, the task-management
    queue and the error-handler thread that allocation set up are undone,
    the name of [shost_dev] (which no device core release will free, the
    device never having been added) is freed by the callback itself, and
    the parent and the tags, never obtained, are left alone. *)
Theorem scsi_host_alloc_then_put (HZ : Z) (A : alloc_env) (g : globals)
    (sht : scsi_host_template) (privsize : Z) (h : Scsi_Host)
    (g' : globals) (t : list event) :
  scsi_host_alloc HZ A g sht privsize = (Some h, g', t) ->
  as_allocated h
  /\ exists k',
       scsi_host_put (boot h) = Done tt k'
       /\ shost_freed k' = true
       /\ trace k'
          = [ Ev_put_device Shost_gendev;
              Ev_scsi_proc_hostdir_rm;
              Ev_destroy_workqueue (Wq ("scsi_tmf_%d"%string, host_no h));
              Ev_kthread_stop (Task ("scsi_eh_%d"%string, host_no h));
              Ev_kfree_dev_name Shost_dev;
              Ev_scsi_destroy_command_freelist;
              Ev_kfree None;
              Ev_kfree_shost ].
Proof.
  unfold scsi_host_alloc.
  destruct (kzalloc_shost_ok A); cbn [negb]; [ | discriminate].
  destruct (eh_deadline_init HZ (shost_eh_deadline g) sht) as [dl w].
  destruct (kthread_run_err A) as [e | ]; [discriminate | ].
  destruct (alloc_workqueue_ok A); [ | discriminate].
  intros H. injection H as <- _ _.
  generalize (to_uint (to_int (scsi_host_next_hn g + 1) - 1)). intros no.
  split; [repeat split | ].
  unfold init_host.
  destruct (scsi_use_blk_mq g && negb (sht_disable_blk_mq sht));
    (eexists; split; [vm_compute; reflexivity | ]; split; reflexivity).
Qed.

Lemma scsi_host_alloc_then_put_witness :
  as_allocated sample_host
  /\ exists k',
       scsi_host_put (boot sample_host) = Done tt k'
       /\ shost_freed k' = true
       /\ trace k'
          = [ Ev_put_device Shost_gendev;
              Ev_scsi_proc_hostdir_rm;
              Ev_destroy_workqueue
                (Wq ("scsi_tmf_%d"%string, host_no sample_host));
              Ev_kthread_stop
                (Task ("scsi_eh_%d"%string, host_no sample_host));
              Ev_kfree_dev_name Shost_dev;
              Ev_scsi_destroy_command_freelist;
              Ev_kfree None;
              Ev_kfree_shost ].
Proof.
  apply (scsi_host_alloc_then_put 100 sample_alloc_env sample_globals
           sample_sht 0 sample_host
           {| scsi_host_next_hn := 1; shost_eh_deadline := -1;
              scsi_use_blk_mq := false |}
           (snd (scsi_host_alloc 100 sample_alloc_env sample_globals
                   sample_sht 0))).
  reflexivity.
Defined.

(** ** Looking a host up by number *)

Lemma find_first_none (accepts : Scsi_Host -> bool) (cls : class) :
  (forall k, In k cls -> accepts (shost k) = false) ->
  find_first accepts cls = None.
Proof.
  induction cls as [ | k rest IH]; intros Hall; [reflexivity | ].
  cbn [find_first]. rewrite (Hall k (or_introl eq_refl)).
  rewrite IH; [reflexivity | ]. intros k0 Hin. apply Hall. now right.
Qed.

Lemma find_first_app (accepts : Scsi_Host -> bool) (pre post : class)
    (k : kernel) :
  (forall k0, In k0 pre -> accepts (shost k0) = false) ->
  accepts (shost k) = true ->
  find_first accepts (pre ++ k :: post) = Some (List.length pre).
Proof.
  intros Hpre Hk. induction pre as [ | k0 pre IH]; cbn [find_first app].
  - rewrite Hk. reflexivity.
  - rewrite (Hpre k0 (or_introl eq_refl)).
    rewrite IH; [reflexivity | ]. intros k1 Hin. apply Hpre. now right.
Qed.

Lemma on_host_app {A : Type} (c : M A) (pre post : class) (k k' : kernel)
    (a : A) :
  c k = Done a k' ->
  on_host (List.length pre) c (pre ++ k :: post)
  = Some (a, pre ++ k' :: post).
Proof.
  intros Hc. unfold on_host.
  assert (Hnth : nth_error (pre ++ k :: post) (List.length pre) = Some k).
  { clear. induction pre; [reflexivity | exact IHpre]. }
  rewrite Hnth, Hc. f_equal. f_equal.
  clear. induction pre as [ | k0 pre IH]; [reflexivity | ].
  cbn [List.length app update]. f_equal. exact IH.
Qed.

(** X24.  Looking up a number no registered host has returns NULL and
    touches nothing: no reference is taken, no call made. *)
Theorem scsi_host_lookup_absent (hostnum : Z) (cls : class) :
  (forall k, In k cls -> host_no (shost k) <> hostnum) ->
  scsi_host_lookup hostnum cls = Some (None, cls).
Proof.
  intros Hall. unfold scsi_host_lookup, class_find_device.
  rewrite find_first_none; [reflexivity | ].
  intros k Hin. apply Z.eqb_neq. apply Hall. exact Hin.
Qed.

Lemma scsi_host_lookup_absent_witness :
  scsi_host_lookup 3 [published; boot sample_host]
  = Some (None, [published; boot sample_host]).
Proof.
  apply scsi_host_lookup_absent.
  intros k [<- | [<- | []]]; vm_compute; discriminate.
Defined.

(** The three device-core calls of a lookup, on the host found. *)
Lemma lookup_calls (k : kernel) :
  dev_kref (shost_dev (shost k)) <> 0 ->
  exists k1 k2,
    get_device Shost_dev k = Done (Some Shost_dev) k1
    /\ scsi_host_get k1
       = Done (negb (state_is (cur_state k) SHOST_DEL)) k2
    /\ put_device Shost_dev k2 = Done tt (looked_up k).
Proof.
  destruct k as [h f t]. destruct h.
  repeat match goal with d : device |- _ => destruct d end.
  unfold cur_state, looked_up, krefg. cbn. intros Hd.
  unfold get_device, scsi_host_get, put_device, put_device_shost_dev,
    modify_shost_dev, modify_gendev, bind, emit, modify_shost, get_shost,
    when, ret.
  match goal with s : scsi_host_state |- _ => destruct s end;
    cbn; (eexists _, _; split; [reflexivity | ]; split; [reflexivity | ]);
    cbn;
    match goal with
    | |- context [?x + 1 - 1 =? 0] =>
        replace (x + 1 - 1) with x by lia;
        destruct (Z.eqb_spec x 0) as [Hz | _]; [contradiction | ]
    end;
    cbn; rewrite <- !app_assoc; reflexivity.
Qed.

Lemma scsi_host_lookup_found_run (hostnum : Z) (pre post : class)
    (k : kernel) :
  (forall k0, In k0 pre -> host_no (shost k0) <> hostnum) ->
  host_no (shost k) = hostnum ->
  dev_kref (shost_dev (shost k)) <> 0 ->
  scsi_host_lookup hostnum (pre ++ k :: post)
  = Some (if state_is (cur_state k) SHOST_DEL then None
          else Some (List.length pre),
          pre ++ looked_up k :: post).
Proof.
  intros Hpre Hk Hd.
  destruct (lookup_calls k Hd) as (k1 & k2 & Hget & Hhost & Hput).
  unfold scsi_host_lookup, class_find_device.
  rewrite (find_first_app _ pre post k).
  - rewrite (on_host_app _ pre post k k1 _ Hget).
    rewrite (on_host_app _ pre post k1 k2 _ Hhost).
    rewrite (on_host_app _ pre post k2 _ _ Hput).
    destruct (state_is (cur_state k) SHOST_DEL); reflexivity.
  - intros k0 Hin. apply Z.eqb_neq. apply Hpre. exact Hin.
  - apply Z.eqb_eq. exact Hk.
Qed.

(** X25.  Looking up the number of a registered host finds the first
    host registered under it.  It returns that host with one more
    reference on [shost_gendev], unless the host is in DEL, when it returns
    NULL and takes none; the reference [class_find_device] took on
    [shost_dev] is given back either way, and no other host of the class
    is touched. *)
Theorem scsi_host_lookup_found (hostnum : Z) (pre post : class)
    (k : kernel) :
  (forall k0, In k0 pre -> host_no (shost k0) <> hostnum) ->
  host_no (shost k) = hostnum ->
  dev_kref (shost_dev (shost k)) <> 0 ->
  scsi_host_lookup hostnum (pre ++ k :: post)
  = Some (if state_is (cur_state k) SHOST_DEL then None
          else Some (List.length pre),
          pre ++ looked_up k :: post).
Proof. apply scsi_host_lookup_found_run. Qed.

Lemma scsi_host_lookup_found_witness :
  scsi_host_lookup 0 ([] ++ published :: [removed])
  = Some (if state_is (cur_state published) SHOST_DEL then None
          else Some (List.length (@nil kernel)),
          [] ++ looked_up published :: [removed]).
Proof.
  apply (scsi_host_lookup_found 0 [] [removed] published).
  - intros k0 [].
  - reflexivity.
  - vm_compute. discriminate.
Defined.

(** X26.  A lookup followed by [scsi_host_put] on the host it returned
    leaves every host record of the class as it was: the caller's put
    drops exactly the reference the lookup took. *)
Theorem scsi_host_lookup_then_put (hostnum : Z) (pre post : class)
    (k : kernel) :
  (forall k0, In k0 pre -> host_no (shost k0) <> hostnum) ->
  host_no (shost k) = hostnum ->
  dev_kref (shost_dev (shost k)) <> 0 ->
  cur_state k <> SHOST_DEL ->
  krefg k <> 0 ->
  exists cls1 cls2,
    scsi_host_lookup hostnum (pre ++ k :: post)
    = Some (Some (List.length pre), cls1)
    /\ on_host (List.length pre) scsi_host_put cls1 = Some (tt, cls2)
    /\ map shost cls2 = map shost (pre ++ k :: post)
    /\ map shost_freed cls2 = map shost_freed (pre ++ k :: post).
Proof.
  intros Hpre Hk Hd Hs Hg.
  pose proof (scsi_host_lookup_found_run hostnum pre post k Hpre Hk Hd)
    as Hlook.
  destruct (state_is (cur_state k) SHOST_DEL) eqn:Hdel.
  { apply state_is_true in Hdel. contradiction. }
  destruct (put_gendev_run (looked_up k)) as (k' & Hput & _ & Hcase).
  assert (Hkl : krefg (looked_up k) = krefg k + 1).
  { unfold looked_up. rewrite Hdel. reflexivity. }
  rewrite Hkl in Hcase.
  destruct (krefg k + 1 =? 1) eqn:Hz; [apply Z.eqb_eq in Hz; lia | ].
  destruct Hcase as (Hf & _ & Hh).
  exists (pre ++ looked_up k :: post), (pre ++ k' :: post).
  split; [exact Hlook | ].
  split; [apply on_host_app; exact Hput | ].
  rewrite !map_app. cbn [map]. rewrite Hh, Hf.
  unfold looked_up. rewrite Hdel. cbn [shost shost_freed].
  split; [ | reflexivity]. f_equal. f_equal.
  replace (krefg k + 1 - 1) with (krefg k) by lia. unfold krefg.
  destruct (shost k). cbn.
  repeat match goal with d : device |- _ => destruct d end.
  reflexivity.
Qed.

Lemma scsi_host_lookup_then_put_witness :
  exists cls1 cls2,
    scsi_host_lookup 0 ([] ++ published :: [removed])
    = Some (Some (List.length (@nil kernel)), cls1)
    /\ on_host (List.length (@nil kernel)) scsi_host_put cls1
       = Some (tt, cls2)
    /\ map shost cls2 = map shost ([] ++ published :: [removed])
    /\ map shost_freed cls2
       = map shost_freed ([] ++ published :: [removed]).
Proof.
  apply (scsi_host_lookup_then_put 0 [] [removed] published).
  - intros k0 [].
  - reflexivity.
  - vm_compute. discriminate.
  - vm_compute. discriminate.
  - vm_compute. discriminate.
Defined.
